(** * AISyllabus-Architect: the study-plan service of [app.py]

    A shallow embedding of the helper functions, the response extractor,
    the plan orchestrator and the plan-generation endpoint of [app.py],
    with the properties of its specification.

    Conventions of the embedding.
    - A Python [str] is a [string]; one [ascii] is one code point below
      256, so the texts covered are the Latin-1 ones.  [isspace] and
      [lower_char] are Python's [str.isspace] and [str.lower] on that
      range.
    - A Python [int] is a [Z].
    - A Python exception is a value of [exn]; code that may raise returns
      a [result].
    - The generation client ([Crew.kickoff]) and the clock
      ([datetime.now]) are the environment: an oracle that is asked with
      the data put into the task description, and a sequence of clock
      readings. *)

From Stdlib Require Import ZArith NArith List Ascii String Bool Lia.
From Stdlib Require Import DecimalString DecimalZ SpecFloat.
From stdpp Require Import gmap strings.
Import ListNotations.

Open Scope string_scope.
Open Scope Z_scope.

Arguments String.append !_ _ : simpl nomatch.

(** ** Python strings *)

Module Str.

(** [str.isspace] for one character (code points below 256). *)
Definition isspace (c : ascii) : bool :=
  let n := N_of_ascii c in
  ((9 <=? n) && (n <=? 13) || (28 <=? n) && (n <=? 32)
     || (n =? 133) || (n =? 160))%N.

(** [str.lower] for one character (code points below 256). *)
Definition lower_char (c : ascii) : ascii :=
  let n := N_of_ascii c in
  if ((65 <=? n) && (n <=? 90) || (192 <=? n) && (n <=? 214)
        || (216 <=? n) && (n <=? 222))%N
  then ascii_of_N (n + 32) else c.

Fixpoint lower (s : string) : string :=
  match s with
  | "" => ""
  | String c r => String (lower_char c) (lower r)
  end.

(** Leading and trailing characters of a class removed. *)
Fixpoint lstrip_with (p : ascii -> bool) (s : string) : string :=
  match s with
  | "" => ""
  | String c r => if p c then lstrip_with p r else s
  end.

Fixpoint rstrip_with (p : ascii -> bool) (s : string) : string :=
  match s with
  | "" => ""
  | String c r =>
      match rstrip_with p r with
      | "" => if p c then "" else String c ""
      | r' => String c r'
      end
  end.

Definition strip_with (p : ascii -> bool) (s : string) : string :=
  rstrip_with p (lstrip_with p s).

(** [s.strip()] *)
Definition strip (s : string) : string := strip_with isspace s.

(** [s.startswith(p)] *)
Fixpoint startswith (p s : string) : bool :=
  match p, s with
  | "", _ => true
  | String a p', String b s' => Ascii.eqb a b && startswith p' s'
  | String _ _, "" => false
  end.

(** [sub in s] *)
Fixpoint contains (sub s : string) : bool :=
  startswith sub s ||
  match s with
  | "" => false
  | String _ r => contains sub r
  end.

Definition newline : ascii := "010"%char.

(** [s.split('\n')]: never empty, [''.split('\n') = ['']]. *)
Fixpoint split_lines (s : string) : list string :=
  match s with
  | "" => [""]
  | String c r =>
      if Ascii.eqb c newline then "" :: split_lines r
      else match split_lines r with
           | l :: ls => String c l :: ls
           | [] => [String c ""]
           end
  end.

(** ['\n'.join(ls)] *)
Fixpoint join_lines (ls : list string) : string :=
  match ls with
  | [] => ""
  | [l] => l
  | l :: ls' => l ++ String newline (join_lines ls')
  end.

(** [s[:n]] for [n >= 0] *)
Fixpoint take (n : nat) (s : string) : string :=
  match n, s with
  | S n', String c r => String c (take n' r)
  | _, _ => ""
  end.

(** [str(i)] for an [int] *)
Definition of_Z (z : Z) : string := NilZero.string_of_int (Z.to_int z).

(** [sub] occurs in [s]. *)
Definition Substring (sub s : string) : Prop :=
  exists a b, s = a ++ sub ++ b.

End Str.

(** [l[a:b]] for [0 <= a] and [0 <= b] *)
Definition slice {A} (a b : nat) (l : list A) : list A :=
  firstn (b - a) (skipn a l).

(** ** 4.1 Preference classifier: [analyze_learning_preferences_local] *)

Record LearningAnalysis := {
  primary_learning_style : string;
  recommended_study_methods : list string;
  personalized_tips : string
}.

Definition methods : list (string * list string) :=
  [ ("visual", ["video lectures"; "diagrams"; "mind maps"; "flashcards"]);
    ("auditory", ["podcasts"; "audio books"; "group discussions"; "lectures"]);
    ("kinesthetic", ["hands-on practice"; "labs"; "projects"; "simulations"]);
    ("reading-writing", ["textbooks"; "note-taking"; "written summaries"; "articles"]) ].

(** A dict with string keys, as the list of its items: [d[k]] when [k]
    is a key of [d]. *)
Fixpoint dict_lookup {A} (d : list (string * A)) (k : string) : option A :=
  match d with
  | [] => None
  | (k', v) :: d' => if String.eqb k' k then Some v else dict_lookup d' k
  end.

(** [d.get(k, default)] *)
Definition dict_get {A} (d : list (string * A)) (k : string) (default : A) : A :=
  match dict_lookup d k with
  | Some v => v
  | None => default
  end.

Definition tips : string :=
  "Use 45-90 minute focused sessions with breaks. Apply active recall and spaced repetition.".

Definition analyze_learning_preferences_local (prefs_text : string)
  : LearningAnalysis :=
  let prefs_lower := Str.lower prefs_text in
  let primary :=
    if Str.contains "visual" prefs_lower then "visual"
    else if Str.contains "audio" prefs_lower || Str.contains "auditory" prefs_lower
         then "auditory"
    else if Str.contains "kinesthetic" prefs_lower || Str.contains "hands" prefs_lower
         then "kinesthetic"
    else "reading-writing" in
  {| primary_learning_style := primary;
     recommended_study_methods :=
       dict_get methods primary (dict_get methods "reading-writing" []);
     personalized_tips := tips |}.

(** ** 4.2 Checkpoint scheduler: [generate_progress_tracking_local] *)

Record Checkpoint := {
  day : Z;
  checkpoint : string;
  assessment : string
}.

Record ProgressTracking := {
  checkpoint_schedule : list Checkpoint;
  tracking_metrics : list string
}.

(** The body of the loop [for i in range(1, 5)], for one [i]. *)
Definition make_checkpoint (duration_days interval i : Z) : Checkpoint :=
  {| day := Z.min duration_days (i * interval);
     checkpoint := "Review Week " ++ Str.of_Z i;
     assessment := "Quiz + practical exercise" |}.

Definition generate_progress_tracking_local (duration_days : Z)
  : ProgressTracking :=
  let interval := Z.max 7 (duration_days / 4) in
  {| checkpoint_schedule :=
       map (make_checkpoint duration_days interval) [1; 2; 3; 4];
     tracking_metrics :=
       ["Daily session completion";
        "Topic understanding scores";
        "Practice problem accuracy"] |}.

(** ** Exceptions and results *)

Inductive exn :=
| JSONDecodeError
| ValueError
| TypeError
| AttributeError
| KeyError
| OverflowError
| RecursionError
| OtherError (msg : string).

Inductive result (A : Type) :=
| Return (a : A)
| Raise (e : exn).
Arguments Return {A} a.
Arguments Raise {A} e.

Definition bind {A B} (m : result A) (k : A -> result B) : result B :=
  match m with
  | Return a => k a
  | Raise e => Raise e
  end.

(** ** JSON values

    What [json.loads] builds: [None], [bool], [int], [float], [str],
    [list] and [dict].  A decoded [str] is a list of code points
    (an escape [\uXXXX] may denote any of them); a [float] is kept as the
    literal it was read from, so equal literals are equal floats; a [dict]
    is the list of its items in insertion order, with distinct keys. *)

Definition ustr := list N.

Definition ustr_of (s : string) : ustr := map N_of_ascii (list_ascii_of_string s).

Fixpoint ustr_eqb (a b : ustr) : bool :=
  match a, b with
  | [], [] => true
  | x :: a', y :: b' => N.eqb x y && ustr_eqb a' b'
  | _, _ => false
  end.

#[warning="-register-all"]
Inductive json :=
| JNull
| JBool (b : bool)
| JInt (z : Z)
| JFloat (literal : string)
| JStr (s : ustr)
| JArr (items : list json)
| JObj (items : list (ustr * json)).

(** [d[k] = v] on a dict: a present key keeps its place. *)
Fixpoint dict_set (d : list (ustr * json)) (k : ustr) (v : json)
  : list (ustr * json) :=
  match d with
  | [] => [(k, v)]
  | (k', v') :: d' =>
      if ustr_eqb k' k then (k', v) :: d' else (k', v') :: dict_set d' k v
  end.

(** [dict(pairs)] *)
Definition dict_of_pairs (pairs : list (ustr * json)) : list (ustr * json) :=
  fold_left (fun d kv => dict_set d (fst kv) (snd kv)) pairs [].

(** [k in d] and [d.get(k)] *)
Fixpoint dict_find (d : list (ustr * json)) (k : ustr) : option json :=
  match d with
  | [] => None
  | (k', v) :: d' => if ustr_eqb k' k then Some v else dict_find d' k
  end.

(** ** [json.loads]

    Modelled on the decoder of the Python standard library
    ([json/decoder.py], [json/scanner.py]) with its default settings:
    strict strings, [NaN], [Infinity] and [-Infinity] accepted, and the
    interpreter's limit of 4300 digits on the conversion of an integer
    literal, beyond which [int] raises [ValueError].  The recursion limit
    of the interpreter is not modelled: values nest without bound. *)

Module Json.

Inductive scan (A : Type) :=
| Scanned (a : A) (rest : string)
| Failed (e : exn)
| OutOfFuel.
Arguments Scanned {A} a rest.
Arguments Failed {A} e.
Arguments OutOfFuel {A}.

Definition dquote : ascii := "034"%char.

(** The whitespace of the decoder: space, tab, line feed and carriage
    return. *)
Definition is_ws (c : ascii) : bool :=
  match c with
  | " "%char | "009"%char | "010"%char | "013"%char => true
  | _ => false
  end.

Fixpoint skip_ws (s : string) : string :=
  match s with
  | "" => ""
  | String c r => if is_ws c then skip_ws r else s
  end.

Definition is_digit (c : ascii) : bool :=
  let n := N_of_ascii c in ((48 <=? n) && (n <=? 57))%N.

Definition digit_val (c : ascii) : Z := Z.of_N (N_of_ascii c) - 48.

(** The longest prefix of digits, and what follows it. *)
Fixpoint span_digits (s : string) : string * string :=
  match s with
  | "" => ("", "")
  | String c r =>
      if is_digit c
      then let '(ds, r') := span_digits r in (String c ds, r')
      else ("", s)
  end.

(** The integer part of a number: an optional [-], then [0] or a digit
    from 1 to 9 followed by digits. *)
Definition match_integer (s : string) : option (bool * string * string) :=
  let '(neg, s1) :=
    match s with
    | String c r => if Ascii.eqb c "-" then (true, r) else (false, s)
    | "" => (false, s)
    end in
  match s1 with
  | "" => None
  | String c r =>
      if Ascii.eqb c "0" then Some (neg, "0", r)
      else if is_digit c
           then let '(ds, r') := span_digits r in Some (neg, String c ds, r')
           else None
  end.

(** The optional fraction: [.] and at least one digit. *)
Definition match_frac (s : string) : string * string :=
  match s with
  | String c r =>
      if Ascii.eqb c "." then
        match span_digits r with
        | ("", _) => ("", s)
        | (ds, r') => (String "." ds, r')
        end
      else ("", s)
  | "" => ("", s)
  end.

(** The optional exponent: [e] or [E], an optional sign and at least
    one digit. *)
Definition match_exp (s : string) : string * string :=
  match s with
  | String c r =>
      if Ascii.eqb c "e" || Ascii.eqb c "E" then
        let '(sg, r1) :=
          match r with
          | String c' r' =>
              if Ascii.eqb c' "+" then ("+", r')
              else if Ascii.eqb c' "-" then ("-", r')
              else ("", r)
          | "" => ("", r)
          end in
        match span_digits r1 with
        | ("", _) => ("", s)
        | (ds, r') => (String c (sg ++ ds), r')
        end
      else ("", s)
  | "" => ("", s)
  end.

Definition int_max_str_digits : nat := 4300.

Definition digits_to_Z (ds : string) : Z :=
  fold_left (fun acc c => 10 * acc + digit_val c) (list_ascii_of_string ds) 0.

(** [int(integer)] on a matched integer literal *)
Definition int_of_literal (neg : bool) (ds : string) : result Z :=
  if (int_max_str_digits <? String.length ds)%nat then Raise ValueError
  else Return (if neg then - digits_to_Z ds else digits_to_Z ds).

Definition signed (neg : bool) (ds : string) : string :=
  if neg then String "-" ds else ds.

(** [match_number] and the conversion of what it matched *)
Definition scan_number (s : string) : option (scan json) :=
  match match_integer s with
  | None => None
  | Some (neg, ds, r) =>
      let '(frac, r1) := match_frac r in
      let '(ex, r2) := match_exp r1 in
      Some match frac, ex with
           | "", "" =>
               match int_of_literal neg ds with
               | Return z => Scanned (JInt z) r2
               | Raise e => Failed e
               end
           | _, _ => Scanned (JFloat (signed neg ds ++ frac ++ ex)) r2
           end
  end.

Definition hex_val (c : ascii) : option N :=
  let n := N_of_ascii c in
  if ((48 <=? n) && (n <=? 57))%N then Some (n - 48)%N
  else if ((65 <=? n) && (n <=? 70))%N then Some (n - 55)%N
  else if ((97 <=? n) && (n <=? 102))%N then Some (n - 87)%N
  else None.

(** [_decode_uXXXX] on the four characters after [\u] *)
Definition decode_uXXXX (a b c d : ascii) : option N :=
  match hex_val a, hex_val b, hex_val c, hex_val d with
  | Some x, Some y, Some z, Some w => Some (((x * 16 + y) * 16 + z) * 16 + w)%N
  | _, _, _, _ => None
  end.

(** The [BACKSLASH] table *)
Definition backslash (c : ascii) : option N :=
  match c with
  | "034"%char => Some 34%N
  | "\"%char => Some 92%N
  | "/"%char => Some 47%N
  | "b"%char => Some 8%N
  | "f"%char => Some 12%N
  | "n"%char => Some 10%N
  | "r"%char => Some 13%N
  | "t"%char => Some 9%N
  | _ => None
  end.

Definition is_high_surrogate (u : N) : bool := ((55296 <=? u) && (u <=? 56319))%N.
Definition is_low_surrogate (u : N) : bool := ((56320 <=? u) && (u <=? 57343))%N.
Definition join_surrogates (hi lo : N) : N :=
  (65536 + N.lor (N.shiftl (hi - 55296) 10) (lo - 56320))%N.

(** [py_scanstring], strict, started after the opening quote: the
    decoded string and the text after the closing quote, or [None] for
    a [JSONDecodeError]. *)
Fixpoint scanstring (s : string) : option (ustr * string) :=
  let cons (u : N) (k : option (ustr * string)) :=
    match k with
    | Some (us, r) => Some (u :: us, r)
    | None => None
    end in
  match s with
  | "" => None
  | String c r =>
      if Ascii.eqb c dquote then Some ([], r)
      else if Ascii.eqb c "\" then
        match r with
        | "" => None
        | String e r1 =>
            if Ascii.eqb e "u" then
              match r1 with
              | String h1 (String h2 (String h3 (String h4 r2))) =>
                  match decode_uXXXX h1 h2 h3 h4 with
                  | None => None
                  | Some uni =>
                      if is_high_surrogate uni then
                        match r2 with
                        | String a (String b r3) =>
                            if Ascii.eqb a "\" && Ascii.eqb b "u" then
                              match r3 with
                              | String g1 (String g2 (String g3 (String g4 r4))) =>
                                  match decode_uXXXX g1 g2 g3 g4 with
                                  | None => None
                                  | Some uni2 =>
                                      if is_low_surrogate uni2
                                      then cons (join_surrogates uni uni2) (scanstring r4)
                                      else cons uni (scanstring r2)
                                  end
                              | _ => None
                              end
                            else cons uni (scanstring r2)
                        | _ => cons uni (scanstring r2)
                        end
                      else cons uni (scanstring r2)
                  end
              | _ => None
              end
            else
              match backslash e with
              | Some u => cons u (scanstring r1)
              | None => None
              end
        end
      else if (N_of_ascii c <? 32)%N then None
      else cons (N_of_ascii c) (scanstring r)
  end.

(** [s[len(p):]] when [s.startswith(p)] *)
Fixpoint strip_prefix (p s : string) : option string :=
  match p, s with
  | "", _ => Some s
  | String a p', String b s' => if Ascii.eqb a b then strip_prefix p' s' else None
  | String _ _, "" => None
  end.

(** The branches of [_scan_once] that do not recurse: the constants
    and the numbers. *)
Definition scan_atom (s : string) : scan json :=
  match strip_prefix "null" s with
  | Some r => Scanned JNull r
  | None =>
  match strip_prefix "true" s with
  | Some r => Scanned (JBool true) r
  | None =>
  match strip_prefix "false" s with
  | Some r => Scanned (JBool false) r
  | None =>
  match scan_number s with
  | Some res => res
  | None =>
  match strip_prefix "NaN" s with
  | Some r => Scanned (JFloat "NaN") r
  | None =>
  match strip_prefix "Infinity" s with
  | Some r => Scanned (JFloat "Infinity") r
  | None =>
  match strip_prefix "-Infinity" s with
  | Some r => Scanned (JFloat "-Infinity") r
  | None => Failed JSONDecodeError
  end end end end end end end.

(** [_scan_once], with the loops of [JSONArray] and [JSONObject].
    [array_loop] starts at a value; [object_loop] starts after the
    opening quote of a key. *)
Fixpoint scan_once (fuel : nat) (s : string) {struct fuel} : scan json :=
  match fuel with
  | O => OutOfFuel
  | S fuel =>
      match s with
      | "" => Failed JSONDecodeError
      | String c r =>
          if Ascii.eqb c dquote then
            match scanstring r with
            | Some (u, r') => Scanned (JStr u) r'
            | None => Failed JSONDecodeError
            end
          else if Ascii.eqb c "{" then
            match skip_ws r with
            | "" => Failed JSONDecodeError
            | String c1 r1 =>
                if Ascii.eqb c1 "}" then Scanned (JObj []) r1
                else if Ascii.eqb c1 dquote then object_loop fuel [] r1
                else Failed JSONDecodeError
            end
          else if Ascii.eqb c "[" then
            match skip_ws r with
            | "" => Failed JSONDecodeError
            | String c1 r1 =>
                if Ascii.eqb c1 "]" then Scanned (JArr []) r1
                else array_loop fuel [] (String c1 r1)
            end
          else scan_atom s
      end
  end
with array_loop (fuel : nat) (values : list json) (s : string)
       {struct fuel} : scan json :=
  match fuel with
  | O => OutOfFuel
  | S fuel =>
      match scan_once fuel s with
      | Scanned value r =>
          match skip_ws r with
          | "" => Failed JSONDecodeError
          | String c r1 =>
              if Ascii.eqb c "]" then Scanned (JArr (values ++ [value])) r1
              else if Ascii.eqb c ","
                   then array_loop fuel (values ++ [value]) (skip_ws r1)
                   else Failed JSONDecodeError
          end
      | Failed e => Failed e
      | OutOfFuel => OutOfFuel
      end
  end
with object_loop (fuel : nat) (pairs : list (ustr * json)) (s : string)
       {struct fuel} : scan json :=
  match fuel with
  | O => OutOfFuel
  | S fuel =>
      match scanstring s with
      | None => Failed JSONDecodeError
      | Some (key, r) =>
          match skip_ws r with
          | "" => Failed JSONDecodeError
          | String c r1 =>
              if Ascii.eqb c ":" then
                match scan_once fuel (skip_ws r1) with
                | Scanned value r2 =>
                    match skip_ws r2 with
                    | "" => Failed JSONDecodeError
                    | String c2 r3 =>
                        if Ascii.eqb c2 "}"
                        then Scanned (JObj (dict_of_pairs (pairs ++ [(key, value)]))) r3
                        else if Ascii.eqb c2 "," then
                          match skip_ws r3 with
                          | "" => Failed JSONDecodeError
                          | String c3 r4 =>
                              if Ascii.eqb c3 dquote
                              then object_loop fuel (pairs ++ [(key, value)]) r4
                              else Failed JSONDecodeError
                          end
                        else Failed JSONDecodeError
                    end
                | Failed e => Failed e
                | OutOfFuel => OutOfFuel
                end
              else Failed JSONDecodeError
          end
      end
  end.

(** Fuel that the scan of [s] never exhausts. *)
Definition fuel_for (s : string) : nat := S (2 * String.length s).

(** [JSONDecoder.decode]: a value between whitespace, and nothing
    after it. *)
Definition loads (s : string) : result json :=
  let s1 := skip_ws s in
  match scan_once (fuel_for s1) s1 with
  | Scanned v r =>
      match skip_ws r with
      | "" => Return v
      | String _ _ => Raise JSONDecodeError
      end
  | Failed e => Raise e
  | OutOfFuel => Raise RecursionError
  end.

End Json.

(** ** 4.3 Response extractor: [extract_json_from_response] *)

Definition fence : string := "```".

(** The loop over [enumerate(lines)]: [i] is the index of the first line
    of [lines]; the result is [(start_idx, end_idx)] when the loop ends. *)
Fixpoint find_fences (i : nat) (lines : list string) (start_idx : option nat)
  : option nat * option nat :=
  match lines with
  | [] => (start_idx, None)
  | line :: rest =>
      let stripped := Str.strip line in
      if Str.startswith fence stripped then
        match start_idx with
        | None => find_fences (S i) rest (Some (S i))
        | Some _ => (start_idx, Some i)
        end
      else find_fences (S i) rest start_idx
  end.

(** Truth value of an index that may be [None]. *)
Definition truthy (i : option nat) : bool :=
  match i with
  | Some (S _) => true
  | _ => false
  end.

Definition index_or_0 (i : option nat) : nat :=
  match i with
  | Some n => n
  | None => O
  end.

(** The text handed to [json.loads]. *)
Definition defence (text : string) : string :=
  let text := Str.strip text in
  if Str.startswith fence text then
    let lines := Str.split_lines text in
    let '(start_idx, end_idx) := find_fences 0 lines None in
    if truthy start_idx && truthy end_idx
    then Str.strip (Str.join_lines
                      (slice (index_or_0 start_idx) (index_or_0 end_idx) lines))
    else text
  else text.

Definition sentinel : json :=
  JObj [(ustr_of "error", JStr (ustr_of "Failed to parse JSON response"))].

Definition extract_json_from_response (text : string) : result json :=
  match Json.loads (defence text) with
  | Return v => Return v
  | Raise JSONDecodeError => Return sentinel
  | Raise e => Raise e
  end.

(** ** Operations of the orchestrator on decoded values *)

(** [obj.get(key, default)]: only a dict has the method. *)
Definition py_get (obj : json) (key : string) (default : json) : result json :=
  match obj with
  | JObj d =>
      match dict_find d (ustr_of key) with
      | Some v => Return v
      | None => Return default
      end
  | _ => Raise AttributeError
  end.

(** [obj[:n]]: a list or a str can be sliced; a dict raises as well
    ([TypeError] up to Python 3.11, [KeyError] from 3.12 on: only that it
    raises matters below). *)
Definition py_slice (n : nat) (obj : json) : result json :=
  match obj with
  | JArr l => Return (JArr (firstn n l))
  | JStr u => Return (JStr (firstn n u))
  | _ => Raise TypeError
  end.

(** The items that [for s in obj] visits, for a list or a str. *)
Definition py_iter (obj : json) : result (list json) :=
  match obj with
  | JArr l => Return l
  | JStr u => Return (map (fun c => JStr [c]) u)
  | _ => Raise TypeError
  end.

(** [s['name']] *)
Definition py_getitem (s : json) (key : string) : result json :=
  match s with
  | JObj d =>
      match dict_find d (ustr_of key) with
      | Some v => Return v
      | None => Raise KeyError
      end
  | _ => Raise TypeError
  end.

(** A list comprehension [[f(s) for s in l]]: the first exception ends it. *)
Fixpoint map_result {A B} (f : A -> result B) (l : list A) : result (list B) :=
  match l with
  | [] => Return []
  | x :: l' => bind (f x) (fun y => bind (map_result f l') (fun ys => Return (y :: ys)))
  end.

(** What [', '.join(topics)] needs: every item is a str. *)
Definition as_str (v : json) : result ustr :=
  match v with
  | JStr u => Return u
  | _ => Raise TypeError
  end.

(** [[s['name'] for s in syllabus_analysis.get('subjects', [])[:3]]],
    then the items as [', '.join] takes them. *)
Definition topics_of (syllabus_analysis : json) : result (list ustr) :=
  bind (py_get syllabus_analysis "subjects" (JArr [])) (fun subjects =>
  bind (py_slice 3 subjects) (fun first3 =>
  bind (py_iter first3) (fun items =>
  bind (map_result (fun s => py_getitem s "name") items) (fun topics =>
  map_result as_str topics)))).

(** [syllabus_analysis.get('subjects', [])[:2]], the argument of
    [json.dumps] *)
Definition subjects_of (syllabus_analysis : json) : result json :=
  bind (py_get syllabus_analysis "subjects" (JArr [])) (py_slice 2).

(** ** The environment: generation client, clock, plan store *)

(** A task of a crew, as the data its description is formatted from. *)
Inductive task :=
| SyllabusTask (syllabus_excerpt : string)
| ScheduleTask (study_duration_days : Z) (subjects : json) (learning_style : string)
| ResourceTask (topics : list ustr) (learning_style : string).

(** A reading of [datetime.now()], as the two observations the code
    makes of it: [isoformat()] and [int(timestamp())]. *)
Record datetime := {
  isoformat : string;
  timestamp : Z
}.

Record study_plan := {
  created_at : string;
  duration_days : Z;
  syllabus_analysis : json;
  learning_analysis : LearningAnalysis;
  schedule : json;
  resources : json;
  progress_tracking : ProgressTracking
}.

(** [kickoff n t] is what [str(crew.kickoff())] gives for task [t] when
    [n] calls were made before, or the exception it raises; [now n] is
    the [n]-th reading of the clock. *)
Record env := {
  kickoff : nat -> task -> result string;
  now : nat -> datetime
}.

(** The state of the process: the store [study_plans], the calls made
    to the generation client so far, and how often the clock was read. *)
Record world := {
  study_plans : gmap string study_plan;
  calls : list task;
  clock_reads : nat
}.

(** Computations that may raise and that change the state. *)
Definition M (A : Type) : Type := world -> result A * world.

Definition ret {A} (a : A) : M A := fun w => (Return a, w).

Definition raise {A} (e : exn) : M A := fun w => (Raise e, w).

Definition mbind {A B} (m : M A) (k : A -> M B) : M B :=
  fun w =>
    match m w with
    | (Return a, w') => k a w'
    | (Raise e, w') => (Raise e, w')
    end.

Notation "x <- m ;; k" := (mbind m (fun x => k))
  (at level 100, m at next level, right associativity).

Definition lift {A} (r : result A) : M A := fun w => (r, w).

(** [try: body except Exception as e: handler(e)] *)
Definition try_except {A} (body : M A) (handler : exn -> M A) : M A :=
  fun w =>
    match body w with
    | (Return a, w') => (Return a, w')
    | (Raise e, w') => handler e w'
    end.

(** [str(Crew(...).kickoff())] *)
Definition run_crew (E : env) (t : task) : M string :=
  fun w =>
    (kickoff E (List.length (calls w)) t,
     {| study_plans := study_plans w;
        calls := calls w ++ [t];
        clock_reads := clock_reads w |}).

(** [datetime.now()] *)
Definition datetime_now (E : env) : M datetime :=
  fun w =>
    (Return (now E (clock_reads w)),
     {| study_plans := study_plans w;
        calls := calls w;
        clock_reads := S (clock_reads w) |}).

(** [study_plans[plan_id] = study_plan] *)
Definition store_plan (plan_id : string) (plan : study_plan) : M unit :=
  fun w =>
    (Return tt,
     {| study_plans := <[plan_id := plan]> (study_plans w);
        calls := calls w;
        clock_reads := clock_reads w |}).

(** ** 4.4 Plan orchestrator: [create_study_plan] *)

Definition create_study_plan (E : env)
    (syllabus_text learning_preferences : string) (study_duration_days : Z)
  : M study_plan :=
  try_except
    (let learning := analyze_learning_preferences_local learning_preferences in
     syllabus_result <- run_crew E (SyllabusTask (Str.take 2000 syllabus_text)) ;;
     syllabus <- lift (extract_json_from_response syllabus_result) ;;
     subjects <- lift (subjects_of syllabus) ;;
     schedule_result <-
       run_crew E (ScheduleTask study_duration_days subjects
                     (primary_learning_style learning)) ;;
     sched <- lift (extract_json_from_response schedule_result) ;;
     topics <- lift (topics_of syllabus) ;;
     resource_result <-
       run_crew E (ResourceTask topics (primary_learning_style learning)) ;;
     res <- lift (extract_json_from_response resource_result) ;;
     let progress_system := generate_progress_tracking_local study_duration_days in
     t <- datetime_now E ;;
     ret {| created_at := isoformat t;
            duration_days := study_duration_days;
            syllabus_analysis := syllabus;
            learning_analysis := learning;
            schedule := sched;
            resources := res;
            progress_tracking := progress_system |})
    (fun e => raise e).

(** ** The request of [POST /api/generate-plan] *)

(** The value of a field of the request body: a str for a form, any JSON
    value for a JSON body.  A float is a binary64 value; of a list or a
    dict only the type matters here. *)
Inductive pyval :=
| PNone
| PBool (b : bool)
| PInt (z : Z)
| PFloat (f : spec_float)
| PStr (s : string)
| PList
| PDict.

(** What [data] is bound to: a dict of fields, or another JSON value. *)
Inductive request_data :=
| Fields (d : list (string * pyval))
| NotADict.

(** [data.get(key, default)] *)
Definition data_get (data : request_data) (key : string) (default : pyval)
  : result pyval :=
  match data with
  | Fields d => Return (dict_get d key default)
  | NotADict => Raise AttributeError
  end.

(** [v.strip()]: only a str has the method. *)
Definition py_strip (v : pyval) : result string :=
  match v with
  | PStr s => Return (Str.strip s)
  | _ => Raise AttributeError
  end.

(** The digits of [int(s)]: digits, single underscores between them.
    [prev] tells whether the character before was a digit. *)
Fixpoint int_digits (s : string) (prev : bool) (acc : Z) (count : nat)
  : option (Z * nat) :=
  match s with
  | "" => if prev then Some (acc, count) else None
  | String c r =>
      if Json.is_digit c then int_digits r true (10 * acc + Json.digit_val c) (S count)
      else if Ascii.eqb c "_" && prev then int_digits r false acc count
      else None
  end.

(** The whitespace that [int] skips around the digits: of the
    characters of [str.isspace], those from 28 to 31 are not skipped. *)
Definition int_isspace (c : ascii) : bool :=
  let n := N_of_ascii c in
  ((9 <=? n) && (n <=? 13) || (n =? 32) || (n =? 133) || (n =? 160))%N.

(** [int(s)] for a str *)
Definition int_of_str (s : string) : result Z :=
  let t := Str.strip_with int_isspace s in
  let '(neg, t1) :=
    match t with
    | String "-" r => (true, r)
    | String "+" r => (false, r)
    | _ => (false, t)
    end in
  match int_digits t1 false 0 0 with
  | None => Raise ValueError
  | Some (z, count) =>
      if (Json.int_max_str_digits <? count)%nat then Raise ValueError
      else Return (if neg then - z else z)
  end.

(** [int(f)] for a float: truncation towards zero *)
Definition int_of_float (f : spec_float) : result Z :=
  match f with
  | S754_nan => Raise ValueError
  | S754_infinity _ => Raise OverflowError
  | S754_zero _ => Return 0
  | S754_finite s m e =>
      let v := Z.shiftl (Z.pos m) e in
      Return (if s then - v else v)
  end.

(** [int(v)] *)
Definition py_int (v : pyval) : result Z :=
  match v with
  | PInt z => Return z
  | PBool b => Return (if b then 1 else 0)
  | PFloat f => int_of_float f
  | PStr s => int_of_str s
  | PNone | PList | PDict => Raise TypeError
  end.

(** ** The endpoint [generate_plan] *)

(** The JSON body of a response. *)
Inductive body :=
| Error (message : string)
| ErrorOf (e : exn)
| Success (plan_id : string) (created : string) (days : Z)
    (total_estimated_hours : json) (style : string).

Definition response : Type := body * Z.

Definition plan_id_of (t : datetime) : string := "plan_" ++ Str.of_Z (timestamp t).

(** The three fields read from [data]: [syllabus_text],
    [learning_prefs] and [duration], in this order. *)
Definition read_request (data : request_data) : result (string * string * Z) :=
  bind (bind (data_get data "syllabus_text" (PStr "")) py_strip)
    (fun syllabus_text =>
  bind (bind (data_get data "learning_preferences" (PStr "")) py_strip)
    (fun learning_prefs =>
  bind (bind (data_get data "study_duration_days" (PInt 30)) py_int)
    (fun duration => Return (syllabus_text, learning_prefs, duration)))).

Definition generate_plan (E : env) (data : request_data) : M response :=
  try_except
    (fields <- lift (read_request data) ;;
     let '(syllabus_text, learning_prefs, duration) := fields in
     if String.eqb syllabus_text "" then ret (Error "Syllabus text is required", 400)
     else if String.eqb learning_prefs "" then ret (Error "Learning preferences are required", 400)
     else
       plan <- create_study_plan E syllabus_text learning_prefs duration ;;
       t <- datetime_now E ;;
       let plan_id := plan_id_of t in
       _ <- store_plan plan_id plan ;;
       hours <- lift (py_get (syllabus_analysis plan) "total_estimated_hours"
                        (JStr (ustr_of "N/A"))) ;;
       ret (Success plan_id (created_at plan) (duration_days plan) hours
              (primary_learning_style (learning_analysis plan)), 200))
    (fun e => ret (ErrorOf e, 500)).

(** ** The endpoint [get_plan] *)

Inductive plan_body :=
| PlanNotFound
| PlanFound (plan : study_plan).

Definition get_plan (plan_id : string) (w : world) : plan_body * Z :=
  match study_plans w !! plan_id with
  | None => (PlanNotFound, 404)
  | Some plan => (PlanFound plan, 200)
  end.

(** ** PDF report: [generate_study_plan_pdf]

    The document is built by calls of methods of an [FPDF] object.  The
    library is part of the environment: each call may raise, depending
    on the calls made before, and [pdf.output(dest='S').encode('latin1')]
    gives the bytes or raises.  The text of a cell is kept as the parts
    of its formatted string. *)

(** A part of a formatted string: literal text, or a value in braces. *)
Inductive piece :=
| Text (s : string)
| Value (v : json).

Inductive pdf_call :=
| NewFPDF
| AddPage
| SetFont (family style : string) (size : Z)
| Cell (w h : Z) (txt : list piece) (align : string)
| Ln (h : Z).

Record fpdf := {
  fpdf_call : list pdf_call -> pdf_call -> result unit;
  fpdf_output : list pdf_call -> result (list Byte.byte)
}.

(** Computations on the document: the state is the list of the calls
    made so far. *)
Definition P (A : Type) : Type := list pdf_call -> result A * list pdf_call.

Definition pret {A} (a : A) : P A := fun log => (Return a, log).

Definition pbind {A B} (m : P A) (k : A -> P B) : P B :=
  fun log =>
    match m log with
    | (Return a, log') => k a log'
    | (Raise e, log') => (Raise e, log')
    end.

Notation "x <~ m ;; k" := (pbind m (fun x => k))
  (at level 100, m at next level, right associativity).

Definition plift {A} (r : result A) : P A := fun log => (r, log).

(** One call of a method of the document. *)
Definition pdf (F : fpdf) (c : pdf_call) : P unit :=
  fun log => (fpdf_call F log c, (log ++ [c])%list).

(** [for x in l: body(x)] *)
Fixpoint pfor {A} (l : list A) (body : A -> P unit) : P unit :=
  match l with
  | [] => pret tt
  | x :: l' => _ <~ body x ;; pfor l' body
  end.

Fixpoint ustr_startswith (p s : ustr) : bool :=
  match p, s with
  | [], _ => true
  | a :: p', b :: s' => N.eqb a b && ustr_startswith p' s'
  | _ :: _, [] => false
  end.

Fixpoint ustr_contains (sub s : ustr) : bool :=
  ustr_startswith sub s ||
  match s with
  | [] => false
  | _ :: r => ustr_contains sub r
  end.

(** [key in obj] for a str [key]: a key of a dict, an item of a list, a
    part of a str; other values are not iterable. *)
Definition py_in (key : string) (obj : json) : result bool :=
  match obj with
  | JObj d =>
      Return match dict_find d (ustr_of key) with
             | Some _ => true
             | None => false
             end
  | JArr l =>
      Return (existsb (fun v => match v with
                                | JStr u => ustr_eqb u (ustr_of key)
                                | _ => false
                                end) l)
  | JStr u => Return (ustr_contains (ustr_of key) u)
  | _ => Raise TypeError
  end.

(** The loop over the first three subjects. *)
Definition subject_lines (F : fpdf) (syllabus : json) : P unit :=
  subjects <~ plift (py_get syllabus "subjects" (JArr [])) ;;
  first3 <~ plift (py_slice 3 subjects) ;;
  items <~ plift (py_iter first3) ;;
  pfor items (fun subject =>
    name <~ plift (py_get subject "name" (JStr (ustr_of "Unknown"))) ;;
    pdf F (Cell 0 6 [Text "- "; Value name] "")).

(** The loop over the first two sessions of a day. *)
Definition session_lines (F : fpdf) (day : json) : P unit :=
  sessions <~ plift (py_get day "sessions" (JArr [])) ;;
  first2 <~ plift (py_slice 2 sessions) ;;
  items <~ plift (py_iter first2) ;;
  pfor items (fun session =>
    time <~ plift (py_get session "time" JNull) ;;
    topic <~ plift (py_get session "topic" JNull) ;;
    pdf F (Cell 0 4 [Text "  - "; Value time; Text ": "; Value topic] "")).

(** The loop over the first three days. *)
Definition day_lines (F : fpdf) (sched : json) : P unit :=
  days <~ plift (py_get sched "schedule" (JArr [])) ;;
  first3 <~ plift (py_slice 3 days) ;;
  items <~ plift (py_iter first3) ;;
  pfor items (fun day =>
    number <~ plift (py_get day "day" JNull) ;;
    date <~ plift (py_get day "date" (JStr (ustr_of "N/A"))) ;;
    _ <~ pdf F (Cell 0 5 [Text "Day "; Value number; Text ": "; Value date] "") ;;
    session_lines F day).

(** The calls of [generate_study_plan_pdf] before [pdf.output]. *)
Definition report (F : fpdf) (plan : study_plan) : P unit :=
  _ <~ pdf F NewFPDF ;;
  _ <~ pdf F AddPage ;;
  _ <~ pdf F (SetFont "Arial" "B" 16) ;;
  _ <~ pdf F (Cell 0 10 [Text "Personalized Study Plan"] "C") ;;
  _ <~ pdf F (Ln 5) ;;
  _ <~ pdf F (SetFont "Arial" "" 10) ;;
  _ <~ pdf F (Cell 0 5 [Text "Created: "; Text (Str.take 10 (created_at plan))] "") ;;
  _ <~ pdf F (Cell 0 5 [Text "Duration: "; Text (Str.of_Z (duration_days plan));
                        Text " days"] "") ;;
  _ <~ pdf F (Ln 5) ;;
  _ <~ pdf F (SetFont "Arial" "B" 12) ;;
  _ <~ pdf F (Cell 0 8 [Text "1. Syllabus Overview"] "") ;;
  _ <~ pdf F (SetFont "Arial" "" 10) ;;
  failed <~ plift (py_in "error" (syllabus_analysis plan)) ;;
  _ <~ (if failed then pret tt
        else
          hours <~ plift (py_get (syllabus_analysis plan) "total_estimated_hours"
                            (JStr (ustr_of "N/A"))) ;;
          _ <~ pdf F (Cell 0 6 [Text "Total Hours: "; Value hours] "") ;;
          subject_lines F (syllabus_analysis plan)) ;;
  _ <~ pdf F (Ln 5) ;;
  _ <~ pdf F (SetFont "Arial" "B" 12) ;;
  _ <~ pdf F (Cell 0 8 [Text "2. Learning Approach"] "") ;;
  _ <~ pdf F (SetFont "Arial" "" 10) ;;
  _ <~ pdf F (Cell 0 6 [Text "Style: ";
                        Text (primary_learning_style (learning_analysis plan))] "") ;;
  _ <~ pdf F (Ln 5) ;;
  _ <~ pdf F (SetFont "Arial" "B" 12) ;;
  _ <~ pdf F (Cell 0 8 [Text "3. Schedule (First 3 Days)"] "") ;;
  _ <~ pdf F (SetFont "Arial" "" 9) ;;
  failed <~ plift (py_in "error" (schedule plan)) ;;
  if failed then pret tt else day_lines F (schedule plan).

Definition generate_study_plan_pdf (F : fpdf) (plan : study_plan)
  : result (list Byte.byte) :=
  match report F plan [] with
  | (Return _, log) => fpdf_output F log
  | (Raise e, _) => Raise e
  end.

(** ** The endpoint [download_pdf] *)

Inductive pdf_body :=
| PdfNotFound
| PdfError (e : exn)
| PdfFile (content : list Byte.byte) (filename : string).

Definition download_pdf (F : fpdf) (plan_id : string) (w : world) : pdf_body * Z :=
  match study_plans w !! plan_id with
  | None => (PdfNotFound, 404)
  | Some plan =>
      match generate_study_plan_pdf F plan with
      | Return pdf_bytes =>
          (PdfFile pdf_bytes ("study_plan_" ++ plan_id ++ ".pdf"), 200)
      | Raise e => (PdfError e, 500)
      end
  end.

(** ** Definitions used to state the properties *)

(** The methods of a category, as the specification lists them. *)
Definition style_methods (style : string) : list string :=
  if String.eqb style "visual"
  then ["video lectures"; "diagrams"; "mind maps"; "flashcards"]
  else if String.eqb style "auditory"
  then ["podcasts"; "audio books"; "group discussions"; "lectures"]
  else if String.eqb style "kinesthetic"
  then ["hands-on practice"; "labs"; "projects"; "simulations"]
  else ["textbooks"; "note-taking"; "written summaries"; "articles"].

(** [c * n] for a one-character str [c] *)
Fixpoint repeat_char (c : ascii) (n : nat) : string :=
  match n with
  | O => ""
  | S n' => String c (repeat_char c n')
  end.

(** A line that the loop of the extractor takes for a fence. *)
Definition is_fence_line (line : string) : bool :=
  Str.startswith fence (Str.strip line).

(** [s] between an opening fence with a language tag and a closing
    fence, each on a line of its own. *)
Definition fenced (tag s : string) : string :=
  fence ++ tag ++ String Str.newline (s ++ String Str.newline fence).

(** Reading a text for lines that begin with a backtick: [b] tells
    whether only white space was read on the current line so far; the
    result is [None] when the first character of a line that is not
    white space is a backtick, else the state at the end. *)
Fixpoint scan_line (b : bool) (s : string) : option bool :=
  match s with
  | "" => Some b
  | String c r =>
      if Ascii.eqb c Str.newline then scan_line true r
      else if Str.isspace c then scan_line b r
      else if Ascii.eqb c "`" then (if b then None else scan_line false r)
      else scan_line false r
  end.

(** Text that begins no line with a backtick, wherever it is put. *)
Definition Clean (c : string) : Prop :=
  forall b, exists b', scan_line b c = Some b'.

(** The first character of a line that is not white space is a backtick. *)
Definition backtick_first (line : string) : bool :=
  Str.startswith "`" (Str.lstrip_with Str.isspace line).

(** No character of [s] is a backtick or white space. *)
Fixpoint plain (s : string) : bool :=
  match s with
  | "" => true
  | String c r => negb (Ascii.eqb c "`") && negb (Str.isspace c) && plain r
  end.

(** [s] is [rest] after a text that begins no line with a backtick. *)
Definition Eats (s rest : string) : Prop :=
  exists c, s = c ++ rest /\ Clean c.

(** The same for a text read from inside a line. *)
Definition EatsIn (s rest : string) : Prop :=
  exists c, s = c ++ rest /\ exists b', scan_line false c = Some b'.

(** [s] is [rest] after such a text whose last character [x] is not
    white space. *)
Definition Token (s rest : string) : Prop :=
  exists c x, s = c ++ String x rest /\ Clean (c ++ String x "") /\
              Str.isspace x = false.

Definition TokenIn (s rest : string) : Prop :=
  exists c x, s = c ++ String x rest /\
              (exists b', scan_line false (c ++ String x "") = Some b') /\
              Str.isspace x = false.

(** One step of [Json.scanstring]: the closing quote, one decoded code
    point and where the scan goes on, or a failure. *)
Inductive step_result :=
| Done (r : string)
| More (u : N) (r : string)
| Bad.

Definition string_step (s : string) : step_result :=
  match s with
  | "" => Bad
  | String c r =>
      if Ascii.eqb c Json.dquote then Done r
      else if Ascii.eqb c "\" then
        match r with
        | "" => Bad
        | String e r1 =>
            if Ascii.eqb e "u" then
              match r1 with
              | String h1 (String h2 (String h3 (String h4 r2))) =>
                  match Json.decode_uXXXX h1 h2 h3 h4 with
                  | None => Bad
                  | Some uni =>
                      if Json.is_high_surrogate uni then
                        match r2 with
                        | String a (String b r3) =>
                            if Ascii.eqb a "\" && Ascii.eqb b "u" then
                              match r3 with
                              | String g1 (String g2 (String g3 (String g4 r4))) =>
                                  match Json.decode_uXXXX g1 g2 g3 g4 with
                                  | None => Bad
                                  | Some uni2 =>
                                      if Json.is_low_surrogate uni2
                                      then More (Json.join_surrogates uni uni2) r4
                                      else More uni r2
                                  end
                              | _ => Bad
                              end
                            else More uni r2
                        | _ => More uni r2
                        end
                      else More uni r2
                  end
              | _ => Bad
              end
            else
              match Json.backslash e with
              | Some u => More u r1
              | None => Bad
              end
        end
      else if (N_of_ascii c <? 32)%N then Bad
      else More (N_of_ascii c) r
  end.

(** The result of a scan when [w] is put after the text. *)
Definition frame (w : string) (res : Json.scan json) : Json.scan json :=
  match res with
  | Json.Scanned v r => Json.Scanned v (r ++ w)
  | other => other
  end.

(** A str between double quotes. *)
Definition quoted (s : string) : string :=
  String Json.dquote (s ++ String Json.dquote "").

(** The [total_estimated_hours] of the summary, for a syllabus analysis
    that is a dict. *)
Definition summary_hours (syllabus : json) : json :=
  match syllabus with
  | JObj o =>
      match dict_find o (ustr_of "total_estimated_hours") with
      | Some v => v
      | None => JStr (ustr_of "N/A")
      end
  | _ => JNull
  end.

(** The state after a record is stored: one more reading of the clock,
    and the record under its identifier. *)
Definition stored (id : string) (plan : study_plan) (w : world) : world :=
  {| study_plans := <[id := plan]> (study_plans w);
     calls := calls w;
     clock_reads := S (clock_reads w) |}.

(** What the endpoint answers and the state it leaves, case by case:
    an exception while the request is read, a missing field, an
    exception of the orchestrator, a plan. *)
Definition endpoint_outcome (E : env) (data : request_data) (w : world)
  : result response * world :=
  match read_request data with
  | Raise e => (Return (ErrorOf e, 500), w)
  | Return (text, prefs, d) =>
      if String.eqb text "" then (Return (Error "Syllabus text is required", 400), w)
      else if String.eqb prefs ""
      then (Return (Error "Learning preferences are required", 400), w)
      else
        match create_study_plan E text prefs d w with
        | (Raise e, w1) => (Return (ErrorOf e, 500), w1)
        | (Return plan, w1) =>
            let id := plan_id_of (now E (clock_reads w1)) in
            (Return (Success id (created_at plan) (duration_days plan)
                       (summary_hours (syllabus_analysis plan))
                       (primary_learning_style (learning_analysis plan)), 200),
             stored id plan w1)
        end
  end.

(** Example environments: a client that answers each role with a fixed
    text, a client that fails, a clock that stands still. *)
Definition fixed_clock (iso : string) (seconds : Z) : nat -> datetime :=
  fun _ => {| isoformat := iso; timestamp := seconds |}.

Definition answering (raw1 raw2 raw3 : string) (clock : nat -> datetime) : env :=
  {| kickoff := fun _ t =>
       match t with
       | SyllabusTask _ => Return raw1
       | ScheduleTask _ _ _ => Return raw2
       | ResourceTask _ _ => Return raw3
       end;
     now := clock |}.

Definition failing (e : exn) (clock : nat -> datetime) : env :=
  {| kickoff := fun _ _ => Raise e; now := clock |}.

Definition empty_world : world :=
  {| study_plans := ∅; calls := []; clock_reads := O |}.

Definition request (text prefs : string) (days : pyval) : request_data :=
  Fields [("syllabus_text", PStr text);
          ("learning_preferences", PStr prefs);
          ("study_duration_days", days)].

(** The record made from empty answers of the client at the fixed
    clock of the examples. *)
Definition example_plan (prefs : string) (days : Z) : study_plan :=
  {| created_at := "2025-12-03T10:00:00";
     duration_days := days;
     syllabus_analysis := JObj [];
     learning_analysis := analyze_learning_preferences_local prefs;
     schedule := JObj [];
     resources := JObj [];
     progress_tracking := generate_progress_tracking_local days |}.

(** The place of a category in the order of the classifier. *)
Definition style_rank (style : string) : nat :=
  if String.eqb style "visual" then 0
  else if String.eqb style "auditory" then 1
  else if String.eqb style "kinesthetic" then 2
  else 3.

(** The days of the checkpoints of a duration. *)
Definition checkpoint_days (duration : Z) : list Z :=
  map day (checkpoint_schedule (generate_progress_tracking_local duration)).

(** White space only, as [str.strip] sees it. *)
Definition blank (s : string) : Prop := Str.strip s = "".

(** The value of a field of the request is a str. *)
Definition is_str (v : pyval) : bool :=
  match v with
  | PStr _ => true
  | _ => false
  end.

(** The state after the requests of a list were served one after
    another. *)
Fixpoint after (E : env) (reqs : list request_data) (w : world) : world :=
  match reqs with
  | [] => w
  | data :: reqs' => after E reqs' (snd (generate_plan E data w))
  end.

(** What holds of every record that the endpoint stores. *)
Definition well_formed (plan : study_plan) : Prop :=
  (exists o, syllabus_analysis plan = JObj o) /\
  progress_tracking plan = generate_progress_tracking_local (duration_days plan) /\
  exists prefs, prefs <> "" /\
    learning_analysis plan = analyze_learning_preferences_local prefs.

(** A document object that accepts every call. *)
Definition quiet (F : fpdf) : Prop := forall log c, fpdf_call F log c = Return tt.

Definition is_cell (c : pdf_call) : bool :=
  match c with
  | Cell _ _ _ _ => true
  | _ => false
  end.

(** The cells among the calls made on a document. *)
Definition cells (log : list pdf_call) : list pdf_call := List.filter is_cell log.

(** A computation on the document only adds calls: at most [hi], of
    which at most [chi] cells, and, when it returns, at least [lo], of
    which at least [clo] cells. *)
Definition Grows {A} (m : P A) (lo hi clo chi : nat) : Prop :=
  forall log, exists new,
    snd (m log) = (log ++ new)%list /\
    (List.length new <= hi)%nat /\ (List.length (cells new) <= chi)%nat /\
    (forall a, fst (m log) = Return a ->
       (lo <= List.length new)%nat /\ (clo <= List.length (cells new))%nat).

(** A computation on the document that raises, whatever was called
    before. *)
Definition Raises {A} (m : P A) : Prop :=
  forall log, exists e log', m log = (Raise e, log').

(** A step of the plan generation raises [e]: a call to the generation
    client, the extraction of its answer, or the reading of the subjects
    or of the topics from the syllabus analysis.  [n] calls were made
    before the request, and [made] are the tasks sent up to the step
    that raises, in order. *)
Inductive step_raises (E : env) (text prefs : string) (d : Z) (n : nat)
  : exn -> list task -> Prop :=
| syllabus_call_raises (e : exn) :
    kickoff E n (SyllabusTask (Str.take 2000 text)) = Raise e ->
    step_raises E text prefs d n e [SyllabusTask (Str.take 2000 text)]
| syllabus_extraction_raises (e : exn) (raw1 : string) :
    kickoff E n (SyllabusTask (Str.take 2000 text)) = Return raw1 ->
    extract_json_from_response raw1 = Raise e ->
    step_raises E text prefs d n e [SyllabusTask (Str.take 2000 text)]
| subjects_raise (e : exn) (raw1 : string) (syllabus : json) :
    kickoff E n (SyllabusTask (Str.take 2000 text)) = Return raw1 ->
    extract_json_from_response raw1 = Return syllabus ->
    subjects_of syllabus = Raise e ->
    step_raises E text prefs d n e [SyllabusTask (Str.take 2000 text)]
| schedule_call_raises (e : exn) (raw1 : string) (syllabus subjects : json) :
    let style := primary_learning_style (analyze_learning_preferences_local prefs) in
    kickoff E n (SyllabusTask (Str.take 2000 text)) = Return raw1 ->
    extract_json_from_response raw1 = Return syllabus ->
    subjects_of syllabus = Return subjects ->
    kickoff E (S n) (ScheduleTask d subjects style) = Raise e ->
    step_raises E text prefs d n e
      [SyllabusTask (Str.take 2000 text); ScheduleTask d subjects style]
| schedule_extraction_raises (e : exn) (raw1 raw2 : string) (syllabus subjects : json) :
    let style := primary_learning_style (analyze_learning_preferences_local prefs) in
    kickoff E n (SyllabusTask (Str.take 2000 text)) = Return raw1 ->
    extract_json_from_response raw1 = Return syllabus ->
    subjects_of syllabus = Return subjects ->
    kickoff E (S n) (ScheduleTask d subjects style) = Return raw2 ->
    extract_json_from_response raw2 = Raise e ->
    step_raises E text prefs d n e
      [SyllabusTask (Str.take 2000 text); ScheduleTask d subjects style]
| topics_raise (e : exn) (raw1 raw2 : string) (syllabus subjects sched : json) :
    let style := primary_learning_style (analyze_learning_preferences_local prefs) in
    kickoff E n (SyllabusTask (Str.take 2000 text)) = Return raw1 ->
    extract_json_from_response raw1 = Return syllabus ->
    subjects_of syllabus = Return subjects ->
    kickoff E (S n) (ScheduleTask d subjects style) = Return raw2 ->
    extract_json_from_response raw2 = Return sched ->
    topics_of syllabus = Raise e ->
    step_raises E text prefs d n e
      [SyllabusTask (Str.take 2000 text); ScheduleTask d subjects style]
| resource_call_raises (e : exn) (raw1 raw2 : string) (syllabus subjects sched : json)
    (topics : list ustr) :
    let style := primary_learning_style (analyze_learning_preferences_local prefs) in
    kickoff E n (SyllabusTask (Str.take 2000 text)) = Return raw1 ->
    extract_json_from_response raw1 = Return syllabus ->
    subjects_of syllabus = Return subjects ->
    kickoff E (S n) (ScheduleTask d subjects style) = Return raw2 ->
    extract_json_from_response raw2 = Return sched ->
    topics_of syllabus = Return topics ->
    kickoff E (S (S n)) (ResourceTask topics style) = Raise e ->
    step_raises E text prefs d n e
      [SyllabusTask (Str.take 2000 text); ScheduleTask d subjects style;
       ResourceTask topics style]
| resource_extraction_raises (e : exn) (raw1 raw2 raw3 : string)
    (syllabus subjects sched : json) (topics : list ustr) :
    let style := primary_learning_style (analyze_learning_preferences_local prefs) in
    kickoff E n (SyllabusTask (Str.take 2000 text)) = Return raw1 ->
    extract_json_from_response raw1 = Return syllabus ->
    subjects_of syllabus = Return subjects ->
    kickoff E (S n) (ScheduleTask d subjects style) = Return raw2 ->
    extract_json_from_response raw2 = Return sched ->
    topics_of syllabus = Return topics ->
    kickoff E (S (S n)) (ResourceTask topics style) = Return raw3 ->
    extract_json_from_response raw3 = Raise e ->
    step_raises E text prefs d n e
      [SyllabusTask (Str.take 2000 text); ScheduleTask d subjects style;
       ResourceTask topics style].

(** A client that answers with an empty object, except for the call
    with the given number, which fails. *)
Definition failing_at (k : nat) (e : exn) (clock : nat -> datetime) : env :=
  {| kickoff := fun n _ => if Nat.eqb n k then Raise e else Return "{}";
     now := clock |}.

(** * Properties *)

(** ** Strings *)

Lemma append_nil_r (s : string) : s ++ "" = s.
Proof. induction s as [|c s IH]; simpl; [reflexivity | now rewrite IH]. Qed.

Lemma append_assoc (a b c : string) : (a ++ b) ++ c = a ++ (b ++ c).
Proof. induction a as [|x a IH]; simpl; [reflexivity | now rewrite IH]. Qed.

Lemma length_append (a b : string) :
  String.length (a ++ b) = (String.length a + String.length b)%nat.
Proof. induction a as [|x a IH]; simpl; [reflexivity | now rewrite IH]. Qed.

Lemma startswith_iff (p s : string) :
  Str.startswith p s = true <-> exists b, s = p ++ b.
Proof.
  revert s; induction p as [|a p IH]; intros s; simpl.
  - split; [intros _; now exists s | reflexivity].
  - destruct s as [|b s].
    + split; [discriminate | intros [r Hr]; discriminate].
    + rewrite andb_true_iff, Ascii.eqb_eq, IH. split.
      * intros [-> [r ->]]. now exists r.
      * intros [r Hr]. injection Hr as -> ->. split; [reflexivity | now exists r].
Qed.

Lemma contains_iff (sub s : string) :
  Str.contains sub s = true <-> Str.Substring sub s.
Proof.
  unfold Str.Substring. induction s as [|c s IH].
  - simpl. rewrite orb_false_r, startswith_iff. split.
    + intros [b Hb]. now exists "", b.
    + intros [a [b Hab]]. destruct a; [now exists b | discriminate].
  - cbn [Str.contains]. rewrite orb_true_iff, IH, startswith_iff. split.
    + intros [[b Hb] | [a [b Hab]]].
      * now exists "", b.
      * exists (String c a), b. simpl. now rewrite Hab.
    + intros [a [b Hab]]. destruct a as [|x a].
      * left. now exists b.
      * right. simpl in Hab. injection Hab as _ ->. now exists a, b.
Qed.

Lemma lower_append (a b : string) : Str.lower (a ++ b) = Str.lower a ++ Str.lower b.
Proof. induction a as [|x a IH]; simpl; [reflexivity | now rewrite IH]. Qed.

(** ** 4.1 Preference classifier *)

Lemma contains_false (sub s : string) :
  ~ Str.Substring sub s -> Str.contains sub s = false.
Proof.
  intros H. destruct (Str.contains sub s) eqn:E; [|reflexivity].
  apply contains_iff in E. contradiction.
Qed.

(** C7. The classifier lower-cases the text and takes the first category
    whose keyword occurs in it, in the order visual, auditory ("audio" or
    "auditory"), kinesthetic ("kinesthetic" or "hands"), and
    reading-writing when none occurs; a text that has "visual" in any
    case is classified visual; the result always carries the four
    methods of its category and the shared tip. *)
Theorem classifier_first_match (prefs_text : string) :
  let t := Str.lower prefs_text in
  let r := analyze_learning_preferences_local prefs_text in
  (Str.Substring "visual" t -> primary_learning_style r = "visual") /\
  (~ Str.Substring "visual" t ->
   Str.Substring "audio" t \/ Str.Substring "auditory" t ->
   primary_learning_style r = "auditory") /\
  (~ Str.Substring "visual" t ->
   ~ (Str.Substring "audio" t \/ Str.Substring "auditory" t) ->
   Str.Substring "kinesthetic" t \/ Str.Substring "hands" t ->
   primary_learning_style r = "kinesthetic") /\
  (~ Str.Substring "visual" t ->
   ~ (Str.Substring "audio" t \/ Str.Substring "auditory" t) ->
   ~ (Str.Substring "kinesthetic" t \/ Str.Substring "hands" t) ->
   primary_learning_style r = "reading-writing") /\
  (forall w, Str.Substring w prefs_text -> Str.lower w = "visual" ->
             primary_learning_style r = "visual") /\
  In (primary_learning_style r)
     ["visual"; "auditory"; "kinesthetic"; "reading-writing"] /\
  recommended_study_methods r = style_methods (primary_learning_style r) /\
  List.length (recommended_study_methods r) = 4%nat /\
  personalized_tips r = tips.
Proof.
  intros t r. subst r. unfold analyze_learning_preferences_local. fold t.
  assert (Hvis : Str.Substring "visual" t ->
                 Str.contains "visual" t = true) by apply contains_iff.
  repeat split.
  - intros H. cbn [primary_learning_style]. now rewrite (Hvis H).
  - intros Hv [H | H]; cbn [primary_learning_style];
      rewrite (contains_false _ _ Hv);
      apply contains_iff in H; rewrite H; [reflexivity | now rewrite orb_true_r].
  - intros Hv Ha [H | H]; cbn [primary_learning_style];
      rewrite (contains_false _ _ Hv);
      rewrite (contains_false "audio" t), (contains_false "auditory" t) by tauto;
      apply contains_iff in H; rewrite H; [reflexivity | now rewrite orb_true_r].
  - intros Hv Ha Hk. cbn [primary_learning_style].
    rewrite (contains_false _ _ Hv).
    rewrite (contains_false "audio" t), (contains_false "auditory" t) by tauto.
    now rewrite (contains_false "kinesthetic" t), (contains_false "hands" t) by tauto.
  - intros w [a [b Hw]] Hlow. cbn [primary_learning_style].
    rewrite Hvis; [reflexivity|].
    exists (Str.lower a), (Str.lower b). unfold t.
    now rewrite Hw, !lower_append, Hlow.
  - cbn [primary_learning_style].
    destruct (Str.contains "visual" t); [simpl; tauto|].
    destruct (_ || _); [simpl; tauto|].
    destruct (_ || _); simpl; tauto.
  - cbn [primary_learning_style recommended_study_methods].
    destruct (Str.contains "visual" t); [reflexivity|].
    destruct (_ || _); [reflexivity|].
    destruct (_ || _); reflexivity.
  - cbn [primary_learning_style recommended_study_methods].
    destruct (Str.contains "visual" t); [reflexivity|].
    destruct (_ || _); [reflexivity|].
    destruct (_ || _); reflexivity.
Qed.

(** ** 4.2 Checkpoint scheduler *)

(** C6. For a positive duration the scheduler returns exactly four
    checkpoints; with [interval = max(7, floor(duration_days / 4))] the
    i-th one is on day [min(duration_days, i * interval)], is labelled
    "Review Week i" and has the fixed assessment; 28 days give the days
    7, 14, 21, 28 and 10 days give 7, 10, 10, 10. *)
Theorem checkpoints_every_interval (d : Z) (Hd : 0 < d) :
  exists q interval,
    4 * q <= d < 4 * q + 4 /\
    interval = Z.max 7 q /\
    checkpoint_schedule (generate_progress_tracking_local d) =
      [ {| day := Z.min d (1 * interval); checkpoint := "Review Week 1";
           assessment := "Quiz + practical exercise" |};
        {| day := Z.min d (2 * interval); checkpoint := "Review Week 2";
           assessment := "Quiz + practical exercise" |};
        {| day := Z.min d (3 * interval); checkpoint := "Review Week 3";
           assessment := "Quiz + practical exercise" |};
        {| day := Z.min d (4 * interval); checkpoint := "Review Week 4";
           assessment := "Quiz + practical exercise" |} ] /\
    map day (checkpoint_schedule (generate_progress_tracking_local 28)) = [7; 14; 21; 28] /\
    map day (checkpoint_schedule (generate_progress_tracking_local 10)) = [7; 10; 10; 10].
Proof.
  exists (d / 4), (Z.max 7 (d / 4)).
  split; [|split; [reflexivity | split; [reflexivity | split; reflexivity]]].
  pose proof (Z.div_mod d 4 ltac:(lia)) as Hdm.
  pose proof (Z.mod_pos_bound d 4 ltac:(lia)) as Hb.
  lia.
Qed.

Lemma checkpoints_every_interval_witness :
  0 < 28 /\
  exists q interval,
    4 * q <= 28 < 4 * q + 4 /\
    interval = Z.max 7 q /\
    checkpoint_schedule (generate_progress_tracking_local 28) =
      [ {| day := Z.min 28 (1 * interval); checkpoint := "Review Week 1";
           assessment := "Quiz + practical exercise" |};
        {| day := Z.min 28 (2 * interval); checkpoint := "Review Week 2";
           assessment := "Quiz + practical exercise" |};
        {| day := Z.min 28 (3 * interval); checkpoint := "Review Week 3";
           assessment := "Quiz + practical exercise" |};
        {| day := Z.min 28 (4 * interval); checkpoint := "Review Week 4";
           assessment := "Quiz + practical exercise" |} ] /\
    map day (checkpoint_schedule (generate_progress_tracking_local 28)) = [7; 14; 21; 28] /\
    map day (checkpoint_schedule (generate_progress_tracking_local 10)) = [7; 10; 10; 10].
Proof.
  split; [reflexivity | apply (checkpoints_every_interval 28); reflexivity].
Defined.

(** ** 4.3 Response extractor *)

Lemma find_fences_no_fence (ls : list string) (i : nat) (st : option nat) :
  (forall l, In l ls -> is_fence_line l = false) ->
  find_fences i ls st = (st, None).
Proof.
  revert i. induction ls as [|l ls IH]; intros i H; cbn [find_fences]; [reflexivity|].
  pose proof (H l (or_introl eq_refl)) as Hl. unfold is_fence_line in Hl.
  rewrite Hl. apply IH. intros l' Hl'. apply H. now right.
Qed.

Lemma find_fences_unclosed (ls : list string) :
  (forall l, In l (tl ls) -> is_fence_line l = false) ->
  snd (find_fences 0 ls None) = None.
Proof.
  destruct ls as [|l ls]; [reflexivity|]. cbn [find_fences tl]. intros H.
  destruct (Str.startswith fence (Str.strip l));
    now rewrite find_fences_no_fence.
Qed.

Lemma loads_backtick (r : string) :
  Json.loads (String "`" r) = Raise JSONDecodeError.
Proof. reflexivity. Qed.

(** C5. When the trimmed text begins with a fence and no later line is a
    fence line, no fence is stripped: the trimmed text itself, opening
    fence included, goes to the parser, which fails, and the result is
    the sentinel. *)
Theorem unclosed_fence_gives_sentinel (text : string)
    (Hopen : Str.startswith fence (Str.strip text) = true)
    (Hrest : forall line, In line (tl (Str.split_lines (Str.strip text))) ->
                          is_fence_line line = false) :
  defence text = Str.strip text /\
  Json.loads (defence text) = Raise JSONDecodeError /\
  extract_json_from_response text = Return sentinel.
Proof.
  assert (Hd : defence text = Str.strip text).
  { unfold defence. rewrite Hopen.
    pose proof (find_fences_unclosed _ Hrest) as Hf.
    destruct (find_fences 0 (Str.split_lines (Str.strip text)) None) as [a b].
    simpl in Hf. subst b. now rewrite andb_false_r. }
  assert (Hl : Json.loads (Str.strip text) = Raise JSONDecodeError).
  { apply startswith_iff in Hopen as [b ->]. apply loads_backtick. }
  unfold extract_json_from_response. rewrite Hd, Hl. auto.
Qed.

Lemma unclosed_fence_gives_sentinel_witness :
  let text := "  ```json" ++ String Str.newline "[1, 2]  " in
  defence text = Str.strip text /\
  Json.loads (defence text) = Raise JSONDecodeError /\
  extract_json_from_response text = Return sentinel.
Proof.
  apply unclosed_fence_gives_sentinel; [reflexivity|].
  intros line [<- | []]. reflexivity.
Defined.

(** *** Lines that begin with a backtick *)

Lemma scan_line_app (b : bool) (x y : string) :
  scan_line b (x ++ y) =
  match scan_line b x with
  | Some b' => scan_line b' y
  | None => None
  end.
Proof.
  revert b. induction x as [|c x IH]; intros b; simpl; [reflexivity|].
  destruct (Ascii.eqb c Str.newline); [apply IH|].
  destruct (Str.isspace c); [apply IH|].
  destruct (Ascii.eqb c "`"); [destruct b; [reflexivity | apply IH] | apply IH].
Qed.

Lemma Clean_nil : Clean "".
Proof. intros b. now exists b. Qed.

Lemma Clean_app (x y : string) : Clean x -> Clean y -> Clean (x ++ y).
Proof.
  intros Hx Hy b. rewrite scan_line_app.
  destruct (Hx b) as [b' ->]. apply Hy.
Qed.

Lemma Clean_char (c : ascii) :
  Ascii.eqb c "`" = false -> Clean (String c "").
Proof.
  intros Hc b. simpl. rewrite Hc.
  destruct (Ascii.eqb c Str.newline); [now eexists|].
  destruct (Str.isspace c); now eexists.
Qed.

Lemma Clean_cons (c : ascii) (x : string) :
  Ascii.eqb c "`" = false -> Clean x -> Clean (String c x).
Proof. intros Hc Hx. apply (Clean_app (String c "") x); [now apply Clean_char | exact Hx]. Qed.

Lemma rstrip_head (p : ascii -> bool) (c : ascii) (r : string) :
  Str.rstrip_with p (String c r) = "" \/
  exists r', Str.rstrip_with p (String c r) = String c r'.
Proof.
  simpl. destruct (Str.rstrip_with p r).
  - destruct (p c); [now left | right; now eexists].
  - right. now eexists.
Qed.

Lemma fence_line_backtick_first (line : string) :
  is_fence_line line = true -> backtick_first line = true.
Proof.
  unfold is_fence_line, backtick_first, Str.strip, Str.strip_with.
  destruct (Str.lstrip_with Str.isspace line) as [|c r]; [discriminate|].
  destruct (rstrip_head Str.isspace c r) as [-> | [r' ->]]; [discriminate|].
  unfold fence. cbn [Str.startswith]. now destruct (Ascii.eqb "`" c).
Qed.

Lemma scan_line_lines (s : string) : forall b b',
  scan_line b s = Some b' ->
  match Str.split_lines s with
  | [] => False
  | l0 :: ls =>
      (b = true -> backtick_first l0 = false) /\
      Forall (fun l => backtick_first l = false) ls
  end.
Proof.
  induction s as [|c s IH]; intros b b' H.
  - simpl. split; [reflexivity | constructor].
  - cbn [scan_line] in H. cbn [Str.split_lines].
    destruct (Ascii.eqb c Str.newline) eqn:En.
    + specialize (IH _ _ H). destruct (Str.split_lines s) as [|l0 ls]; [contradiction|].
      destruct IH as [H0 Hls]. split; [reflexivity|].
      constructor; [now apply H0 | exact Hls].
    + destruct (Str.isspace c) eqn:Es.
      * specialize (IH _ _ H). destruct (Str.split_lines s) as [|l0 ls]; [contradiction|].
        destruct IH as [H0 Hls]. split; [|exact Hls].
        unfold backtick_first in *. cbn [Str.lstrip_with]. now rewrite Es.
      * assert (Hb : forall l0, backtick_first (String c l0) = Ascii.eqb "`" c).
        { intros l0. unfold backtick_first. cbn [Str.lstrip_with]. rewrite Es.
          cbn [Str.startswith]. apply andb_true_r. }
        destruct (Ascii.eqb c "`") eqn:Eb.
        -- destruct b; [discriminate|].
           specialize (IH _ _ H). destruct (Str.split_lines s) as [|l0 ls]; [contradiction|].
           split; [discriminate | apply IH].
        -- specialize (IH _ _ H). destruct (Str.split_lines s) as [|l0 ls]; [contradiction|].
           split; [|apply IH]. intros _. rewrite Hb, Ascii.eqb_sym. exact Eb.
Qed.

Lemma Clean_no_fence_line (s : string) :
  Clean s -> forall l, In l (Str.split_lines s) -> is_fence_line l = false.
Proof.
  intros Hs l Hl. destruct (Hs true) as [b' Hb'].
  apply scan_line_lines in Hb'.
  destruct (Str.split_lines s) as [|l0 ls]; [contradiction|].
  destruct Hb' as [H0 Hls].
  assert (Hbt : backtick_first l = false).
  { destruct Hl as [<- | Hl]; [now apply H0|].
    rewrite List.Forall_forall in Hls. now apply Hls. }
  destruct (is_fence_line l) eqn:E; [|reflexivity].
  apply fence_line_backtick_first in E. congruence.
Qed.

(** *** What the decoder consumes *)

Lemma Eats_refl (s : string) : Eats s s.
Proof. exists "". split; [reflexivity | apply Clean_nil]. Qed.

Lemma Eats_trans (s m r : string) : Eats s m -> Eats m r -> Eats s r.
Proof.
  intros [c1 [-> H1]] [c2 [-> H2]]. exists (c1 ++ c2).
  split; [now rewrite append_assoc | now apply Clean_app].
Qed.

Lemma Eats_cons (c : ascii) (r : string) :
  Ascii.eqb c "`" = false -> Eats (String c r) r.
Proof. intros H. exists (String c ""). split; [reflexivity | now apply Clean_char]. Qed.

Lemma Token_Eats (s r : string) : Token s r -> Eats s r.
Proof.
  intros [c [x [-> [H _]]]]. exists (c ++ String x "").
  split; [now rewrite append_assoc | exact H].
Qed.

Lemma Eats_Token (s m r : string) : Eats s m -> Token m r -> Token s r.
Proof.
  intros [c1 [-> H1]] [c2 [x [-> [H2 Hx]]]]. exists (c1 ++ c2), x.
  split; [now rewrite append_assoc|]. split; [|exact Hx].
  rewrite append_assoc. now apply Clean_app.
Qed.

Lemma Token_cons (x : ascii) (r : string) :
  Ascii.eqb x "`" = false -> Str.isspace x = false -> Token (String x r) r.
Proof.
  intros Hb Hs. exists "", x. split; [reflexivity|].
  split; [now apply Clean_char | exact Hs].
Qed.

Lemma Eats_EatsIn (s r : string) : Eats s r -> EatsIn s r.
Proof. intros [c [-> H]]. exists c. split; [reflexivity | apply H]. Qed.

Lemma EatsIn_Eats (s m r : string) : EatsIn s m -> Eats m r -> EatsIn s r.
Proof.
  intros [c1 [-> [b1 H1]]] [c2 [-> H2]]. exists (c1 ++ c2).
  split; [now rewrite append_assoc|]. rewrite scan_line_app, H1. apply H2.
Qed.

Lemma EatsIn_Token (s m r : string) : EatsIn s m -> Token m r -> TokenIn s r.
Proof.
  intros [c1 [-> [b1 H1]]] [c2 [x [-> [H2 Hx]]]]. exists (c1 ++ c2), x.
  split; [now rewrite append_assoc|]. split; [|exact Hx].
  rewrite append_assoc, scan_line_app, H1. apply H2.
Qed.

Lemma EatsIn_TokenIn (s m r : string) :
  EatsIn s m -> (forall b, exists c x, m = c ++ String x r /\
                  (exists b', scan_line b (c ++ String x "") = Some b') /\
                  Str.isspace x = false) ->
  TokenIn s r.
Proof.
  intros [c1 [-> [b1 H1]]] H. destruct (H b1) as [c2 [x [-> [H2 Hx]]]].
  exists (c1 ++ c2), x.
  split; [now rewrite append_assoc|]. split; [|exact Hx].
  rewrite append_assoc, scan_line_app, H1. apply H2.
Qed.

Lemma scan_line_inline (c : ascii) (r : string) :
  Ascii.eqb c Str.newline = false ->
  scan_line false (String c r) = scan_line false r.
Proof.
  intros H. cbn [scan_line]. rewrite H.
  destruct (Str.isspace c); [reflexivity|]. now destruct (Ascii.eqb c "`").
Qed.

(** After a character that is neither white space nor a backtick, what
    is read from inside the line is read well from anywhere. *)
Lemma Clean_after_visible (x : ascii) (c : string) :
  Ascii.eqb x "`" = false -> Str.isspace x = false ->
  Ascii.eqb x Str.newline = false ->
  (exists b', scan_line false c = Some b') -> Clean (String x c).
Proof.
  intros Hb Hs Hn H b. cbn [scan_line]. now rewrite Hn, Hs, Hb.
Qed.

Lemma is_ws_isspace (c : ascii) : Json.is_ws c = true -> Str.isspace c = true.
Proof.
  destruct c as [[] [] [] [] [] [] [] []]; try discriminate; reflexivity.
Qed.

Lemma is_ws_not_backtick (c : ascii) :
  Json.is_ws c = true -> Ascii.eqb c "`" = false.
Proof.
  destruct c as [[] [] [] [] [] [] [] []]; try discriminate; reflexivity.
Qed.

Lemma skip_ws_Eats (s : string) : Eats s (Json.skip_ws s).
Proof.
  induction s as [|c s IH]; [apply Eats_refl|]. cbn [Json.skip_ws].
  destruct (Json.is_ws c) eqn:E; [|apply Eats_refl].
  eapply Eats_trans; [|exact IH]. apply Eats_cons. now apply is_ws_not_backtick.
Qed.

Lemma skip_ws_head (s : string) (c : ascii) (r : string) :
  Json.skip_ws s = String c r -> Json.is_ws c = false.
Proof.
  induction s as [|x s IH]; [discriminate|]. cbn [Json.skip_ws].
  destruct (Json.is_ws x) eqn:E; [exact IH|]. intros H. now injection H as <- _.
Qed.

Lemma strip_prefix_app (p s r : string) :
  Json.strip_prefix p s = Some r -> s = p ++ r.
Proof.
  revert s. induction p as [|a p IH]; intros s H.
  - now injection H as ->.
  - destruct s as [|b s]; [discriminate|]. cbn [Json.strip_prefix] in H.
    destruct (Ascii.eqb_spec a b); [subst|discriminate].
    simpl. now rewrite (IH _ H).
Qed.

Lemma plain_app (a b : string) : plain (a ++ b) = plain a && plain b.
Proof.
  induction a as [|c a IH]; [reflexivity|]. simpl. rewrite IH.
  now rewrite !andb_assoc.
Qed.

Lemma plain_Clean (c : string) : plain c = true -> Clean c.
Proof.
  induction c as [|x c IH]; intros H; [apply Clean_nil|].
  simpl in H. apply andb_true_iff in H as [H1 H]. apply andb_true_iff in H1 as [Hb Hs].
  apply Clean_cons; [now apply negb_true_iff | now apply IH].
Qed.

Lemma string_last (c0 : ascii) (c : string) :
  exists c' x, String c0 c = c' ++ String x "".
Proof.
  revert c0. induction c as [|y c IH]; intros c0.
  - now exists "", c0.
  - destruct (IH y) as [c' [x E]]. exists (String c0 c'), x. simpl. now rewrite E.
Qed.

Lemma plain_Token (c0 : ascii) (c r : string) :
  plain (String c0 c) = true -> Token (String c0 c ++ r) r.
Proof.
  intros H. destruct (string_last c0 c) as [c' [x E]]. rewrite E in *.
  exists c', x. split; [now rewrite append_assoc|].
  split; [now apply plain_Clean|].
  rewrite plain_app in H. apply andb_true_iff in H as [_ H]. simpl in H.
  rewrite andb_true_r in H. apply andb_true_iff in H as [_ H].
  now apply negb_true_iff.
Qed.

Lemma digit_plain (c : ascii) :
  Json.is_digit c = true ->
  negb (Ascii.eqb c "`") && negb (Str.isspace c) = true.
Proof.
  destruct c as [[] [] [] [] [] [] [] []]; try discriminate; reflexivity.
Qed.

Lemma span_digits_spec (s : string) : forall ds r,
  Json.span_digits s = (ds, r) -> s = ds ++ r /\ plain ds = true.
Proof.
  induction s as [|c s IH]; intros ds r H.
  - injection H as <- <-. now split.
  - cbn [Json.span_digits] in H. destruct (Json.is_digit c) eqn:Ed.
    + destruct (Json.span_digits s) as [ds' r'] eqn:E. injection H as <- <-.
      destruct (IH _ _ eq_refl) as [-> Hp]. split; [reflexivity|].
      cbn [plain]. now rewrite digit_plain, Hp.
    + injection H as <- <-. now split.
Qed.

Lemma match_integer_spec (s : string) (neg : bool) (ds r : string) :
  Json.match_integer s = Some (neg, ds, r) ->
  s = Json.signed neg ds ++ r /\ plain (Json.signed neg ds) = true /\
  exists d ds', ds = String d ds' /\ plain ds = true.
Proof.
  unfold Json.match_integer.
  assert (Hcore : forall neg0 s1,
            match s1 with
            | "" => None
            | String c r0 =>
                if Ascii.eqb c "0" then Some (neg0, "0", r0)
                else if Json.is_digit c
                     then let '(ds0, r') := Json.span_digits r0 in
                          Some (neg0, String c ds0, r')
                     else None
            end = Some (neg, ds, r) ->
            neg0 = neg /\ s1 = ds ++ r /\
            exists d ds', ds = String d ds' /\ plain ds = true).
  { intros neg0 [|c r0]; [discriminate|].
    destruct (Ascii.eqb_spec c "0") as [-> | _].
    - intros H. injection H as <- <- <-. do 2 (split; [reflexivity|]).
      now exists "0"%char, "".
    - destruct (Json.is_digit c) eqn:Ed; [|discriminate].
      destruct (Json.span_digits r0) as [ds0 r'] eqn:E. intros H.
      injection H as <- <- <-.
      destruct (span_digits_spec _ _ _ E) as [-> Hp]. do 2 (split; [reflexivity|]).
      exists c, ds0. split; [reflexivity|]. cbn [plain]. now rewrite digit_plain, Hp. }
  destruct s as [|c0 s0]; [discriminate|].
  destruct (Ascii.eqb_spec c0 "-") as [-> | _]; intros H;
    [apply (Hcore true s0) in H | apply (Hcore false (String c0 s0)) in H];
    destruct H as [<- [-> [d [ds' [E Hp]]]]].
  - split; [reflexivity|]. split; [|now exists d, ds'].
    cbn [Json.signed plain]. exact Hp.
  - split; [reflexivity|]. split; [exact Hp | now exists d, ds'].
Qed.

Lemma match_frac_spec (s frac r : string) :
  Json.match_frac s = (frac, r) -> s = frac ++ r /\ plain frac = true.
Proof.
  unfold Json.match_frac. destruct s as [|c s0].
  - intros H. injection H as <- <-. now split.
  - destruct (Ascii.eqb_spec c ".") as [-> | _].
    + destruct (Json.span_digits s0) as [ds r'] eqn:E.
      destruct (span_digits_spec _ _ _ E) as [-> Hp].
      destruct ds; intros H; injection H as <- <-; [now split|].
      split; [reflexivity|]. cbn [plain] in *. exact Hp.
    + intros H. injection H as <- <-. now split.
Qed.

Lemma match_exp_spec (s ex r : string) :
  Json.match_exp s = (ex, r) -> s = ex ++ r /\ plain ex = true.
Proof.
  unfold Json.match_exp. destruct s as [|c s0].
  - intros H. injection H as <- <-. now split.
  - destruct (Ascii.eqb c "e" || Ascii.eqb c "E") eqn:Ec.
    + assert (Hc : negb (Ascii.eqb c "`") && negb (Str.isspace c) = true).
      { apply orb_true_iff in Ec as [Ec | Ec]; apply Ascii.eqb_eq in Ec; now subst. }
      destruct s0 as [|c' r'].
      * simpl. intros H. injection H as <- <-. now split.
      * destruct (Ascii.eqb_spec c' "+") as [-> | _];
          [|destruct (Ascii.eqb_spec c' "-") as [-> | _]].
        -- destruct (Json.span_digits r') as [ds r2] eqn:E.
           destruct (span_digits_spec _ _ _ E) as [-> Hp].
           destruct ds; intros H; injection H as <- <-; [now split|].
           split; [reflexivity|]. cbn [plain String.append] in *. now rewrite Hc.
        -- destruct (Json.span_digits r') as [ds r2] eqn:E.
           destruct (span_digits_spec _ _ _ E) as [-> Hp].
           destruct ds; intros H; injection H as <- <-; [now split|].
           split; [reflexivity|]. cbn [plain String.append] in *. now rewrite Hc.
        -- destruct (Json.span_digits (String c' r')) as [ds r2] eqn:E.
           destruct (span_digits_spec _ _ _ E) as [E' Hp].
           destruct ds; intros H; injection H as <- <-; [now split|].
           rewrite E'. split; [reflexivity|]. cbn [plain String.append] in *.
           now rewrite Hc.
    + intros H. injection H as <- <-. now split.
Qed.

Lemma plain_nonempty_Token (lex r : string) :
  plain lex = true -> lex <> "" -> Token (lex ++ r) r.
Proof.
  destruct lex as [|c0 c]; [contradiction|]. intros H _. now apply plain_Token.
Qed.

Lemma scan_number_Token (s : string) (v : json) (r : string) :
  Json.scan_number s = Some (Json.Scanned v r) -> Token s r.
Proof.
  unfold Json.scan_number.
  destruct (Json.match_integer s) as [[[neg ds] r0]|] eqn:Ei; [|discriminate].
  destruct (Json.match_frac r0) as [frac r1] eqn:Ef.
  destruct (Json.match_exp r1) as [ex r2] eqn:Ee.
  apply match_integer_spec in Ei as [-> [Hp [d [ds' [-> _]]]]].
  apply match_frac_spec in Ef as [-> Hf].
  apply match_exp_spec in Ee as [-> He].
  intros H.
  assert (r2 = r) as ->.
  { destruct frac, ex; try (now injection H);
      destruct (Json.int_of_literal neg (String d ds')); [now injection H | discriminate]. }
  rewrite <- !append_assoc. apply plain_nonempty_Token.
  - now rewrite !plain_app, Hp, Hf, He.
  - now destruct neg.
Qed.

Lemma scan_atom_Token (s : string) (v : json) (r : string) :
  Json.scan_atom s = Json.Scanned v r -> Token s r.
Proof.
  unfold Json.scan_atom.
  destruct (Json.strip_prefix "null" s) eqn:E1.
  { intros H. injection H as _ <-. apply strip_prefix_app in E1 as ->.
    now apply plain_nonempty_Token. }
  destruct (Json.strip_prefix "true" s) eqn:E2.
  { intros H. injection H as _ <-. apply strip_prefix_app in E2 as ->.
    now apply plain_nonempty_Token. }
  destruct (Json.strip_prefix "false" s) eqn:E3.
  { intros H. injection H as _ <-. apply strip_prefix_app in E3 as ->.
    now apply plain_nonempty_Token. }
  destruct (Json.scan_number s) as [res|] eqn:E4.
  { intros ->. now apply scan_number_Token with v. }
  destruct (Json.strip_prefix "NaN" s) eqn:E5.
  { intros H. injection H as _ <-. apply strip_prefix_app in E5 as ->.
    now apply plain_nonempty_Token. }
  destruct (Json.strip_prefix "Infinity" s) eqn:E6.
  { intros H. injection H as _ <-. apply strip_prefix_app in E6 as ->.
    now apply plain_nonempty_Token. }
  destruct (Json.strip_prefix "-Infinity" s) eqn:E7; [|discriminate].
  intros H. injection H as _ <-. apply strip_prefix_app in E7 as ->.
  now apply plain_nonempty_Token.
Qed.

Lemma TokenIn_cons (c : ascii) (s r : string) :
  Ascii.eqb c Str.newline = false -> TokenIn s r -> TokenIn (String c s) r.
Proof.
  intros Hc [p [x [-> [H Hx]]]]. exists (String c p), x.
  split; [reflexivity|]. split; [|exact Hx].
  cbn [String.append]. now rewrite scan_line_inline.
Qed.

Lemma hex_not_newline (h : ascii) (x : N) :
  Json.hex_val h = Some x -> Ascii.eqb h Str.newline = false.
Proof.
  destruct (Ascii.eqb_spec h Str.newline) as [-> | _]; [discriminate | reflexivity].
Qed.

Lemma decode_not_newline (a b c d : ascii) (u : N) :
  Json.decode_uXXXX a b c d = Some u ->
  Ascii.eqb a Str.newline = false /\ Ascii.eqb b Str.newline = false /\
  Ascii.eqb c Str.newline = false /\ Ascii.eqb d Str.newline = false.
Proof.
  unfold Json.decode_uXXXX.
  destruct (Json.hex_val a) eqn:Ea; [|discriminate].
  destruct (Json.hex_val b) eqn:Eb; [|discriminate].
  destruct (Json.hex_val c) eqn:Ec; [|discriminate].
  destruct (Json.hex_val d) eqn:Ed; [|discriminate].
  intros _. repeat split; eapply hex_not_newline; eassumption.
Qed.

Lemma backslash_not_newline (e : ascii) (u : N) :
  Json.backslash e = Some u -> Ascii.eqb e Str.newline = false.
Proof.
  destruct (Ascii.eqb_spec e Str.newline) as [-> | _]; [discriminate | reflexivity].
Qed.

Lemma control_not_newline (c : ascii) :
  (N_of_ascii c <? 32)%N = false -> Ascii.eqb c Str.newline = false.
Proof.
  destruct (Ascii.eqb_spec c Str.newline) as [-> | _]; [discriminate | reflexivity].
Qed.

Lemma cons_result_inv (u0 : N) (k : option (ustr * string)) (u : ustr) (r : string) :
  match k with
  | Some (us, r') => Some (u0 :: us, r')
  | None => None
  end = Some (u, r) ->
  exists us, k = Some (us, r).
Proof.
  destruct k as [[us r']|]; [|discriminate]. intros H. injection H as _ <-. now exists us.
Qed.

Ltac break_scan H :=
  repeat match type of H with
    | None = Some _ => discriminate H
    | context [if ?b then _ else _] => destruct b eqn:?
    | context [match ?s with EmptyString => _ | String _ _ => _ end] =>
        is_var s; destruct s
    | context [match Json.decode_uXXXX ?a ?b ?c ?d with _ => _ end] =>
        destruct (Json.decode_uXXXX a b c d) eqn:?
    | context [match Json.backslash ?e with _ => _ end] =>
        destruct (Json.backslash e) eqn:?
    end.

Lemma eqb_true_not_newline (c k : ascii) :
  Ascii.eqb c k = true -> Ascii.eqb k Str.newline = false ->
  Ascii.eqb c Str.newline = false.
Proof. intros H. apply Ascii.eqb_eq in H. now subst. Qed.

Ltac newline_facts :=
  repeat match goal with
    | H : Ascii.eqb ?c ?k = true |- _ =>
        lazymatch goal with
        | _ : Ascii.eqb c Str.newline = false |- _ => fail
        | _ => pose proof (eqb_true_not_newline c k H eq_refl)
        end
    | H : (_ && _)%bool = true |- _ => apply andb_true_iff in H as [? ?]
    | H : Json.decode_uXXXX ?a ?b ?c ?d = Some _ |- _ =>
        lazymatch goal with
        | _ : Ascii.eqb a Str.newline = false |- _ => fail
        | _ => destruct (decode_not_newline _ _ _ _ _ H) as [? [? [? ?]]]
        end
    | H : Json.backslash ?e = Some _ |- _ =>
        lazymatch goal with
        | _ : Ascii.eqb e Str.newline = false |- _ => fail
        | _ => pose proof (backslash_not_newline _ _ H)
        end
    | H : (N_of_ascii ?c <? 32)%N = false |- _ =>
        lazymatch goal with
        | _ : Ascii.eqb c Str.newline = false |- _ => fail
        | _ => pose proof (control_not_newline _ H)
        end
    end.

Lemma scanstring_TokenIn_len (n : nat) : forall s u r,
  (String.length s <= n)%nat ->
  Json.scanstring s = Some (u, r) -> TokenIn s r.
Proof.
  induction n as [|n IH]; intros s u r Hn H.
  - destruct s; [discriminate | simpl in Hn; lia].
  - destruct s as [|c r0]; [discriminate|].
    cbn [Json.scanstring] in H. cbv zeta in H.
    break_scan H.
    1: { injection H as _ <-. exists "", c. split; [reflexivity|].
         apply Ascii.eqb_eq in Heqb as ->. split; [now eexists | reflexivity]. }
    all: apply cons_result_inv in H as [us H];
      apply IH in H; [|cbn [String.length] in *; lia];
      newline_facts;
      repeat first [exact H | apply TokenIn_cons; [assumption|]].
Qed.

Lemma scanstring_TokenIn (s : string) (u : ustr) (r : string) :
  Json.scanstring s = Some (u, r) -> TokenIn s r.
Proof. now apply (scanstring_TokenIn_len (String.length s)). Qed.

Lemma TokenIn_EatsIn (s r : string) : TokenIn s r -> EatsIn s r.
Proof.
  intros [c [x [-> [H _]]]]. exists (c ++ String x "").
  split; [now rewrite append_assoc | exact H].
Qed.

Lemma quoted_Token (s r : string) :
  TokenIn s r -> Token (String Json.dquote s) r.
Proof.
  intros [c [x [-> [H Hx]]]]. exists (String Json.dquote c), x.
  split; [reflexivity|]. split; [|exact Hx].
  cbn [String.append]. now apply Clean_after_visible.
Qed.

Lemma Token_shorter (s r : string) :
  Token s r -> (String.length r < String.length s)%nat.
Proof. intros [c [x [-> _]]]. rewrite length_append. simpl. lia. Qed.

Lemma TokenIn_shorter (s r : string) :
  TokenIn s r -> (String.length r < String.length s)%nat.
Proof. intros [c [x [-> _]]]. rewrite length_append. simpl. lia. Qed.

Lemma Eats_shorter (s r : string) :
  Eats s r -> (String.length r <= String.length s)%nat.
Proof. intros [c [-> _]]. rewrite length_append. lia. Qed.

Lemma EatsIn_shorter (s r : string) :
  EatsIn s r -> (String.length r <= String.length s)%nat.
Proof. intros [c [-> _]]. rewrite length_append. lia. Qed.

Lemma Eats_Token_cons (s : string) (x : ascii) (r : string) :
  Eats s (String x r) -> Ascii.eqb x "`" = false -> Str.isspace x = false ->
  Token s r.
Proof. intros H Hb Hs. eapply Eats_Token; [exact H | now apply Token_cons]. Qed.

Lemma Eats_step (s : string) (x : ascii) (r : string) :
  Eats s (String x r) -> Ascii.eqb x "`" = false -> Eats s r.
Proof. intros H Hb. eapply Eats_trans; [exact H | now apply Eats_cons]. Qed.

(** What a successful scan consumed begins no line with a backtick and
    ends with a character that is not white space. *)
Lemma scan_Token (f : nat) :
  (forall s v r, Json.scan_once f s = Json.Scanned v r -> Token s r) /\
  (forall vs s v r, Json.array_loop f vs s = Json.Scanned v r -> Token s r) /\
  (forall ps s v r, Json.object_loop f ps s = Json.Scanned v r -> TokenIn s r).
Proof.
  induction f as [|f [IHs [IHa IHo]]]; [repeat split; discriminate|].
  repeat split.
  - intros s v r H. cbn [Json.scan_once] in H.
    destruct s as [|c s0]; [discriminate|].
    destruct (Ascii.eqb_spec c Json.dquote) as [-> | _].
    { destruct (Json.scanstring s0) as [[u r']|] eqn:E; [|discriminate].
      injection H as _ <-. apply quoted_Token. eapply scanstring_TokenIn, E. }
    destruct (Ascii.eqb_spec c "{") as [-> | _].
    { pose proof (skip_ws_Eats s0) as Hw.
      destruct (Json.skip_ws s0) as [|c1 r1]; [discriminate|].
      destruct (Ascii.eqb_spec c1 "}") as [-> | _].
      { injection H as _ <-. apply Eats_Token_cons with "}"%char; [|reflexivity..].
        eapply Eats_trans; [now apply Eats_cons | exact Hw]. }
      destruct (Ascii.eqb_spec c1 Json.dquote) as [-> | _]; [|discriminate].
      apply IHo in H.
      eapply Eats_Token; [eapply Eats_trans; [now apply Eats_cons | exact Hw]|].
      now apply quoted_Token. }
    destruct (Ascii.eqb_spec c "[") as [-> | _]; [|now apply scan_atom_Token with v].
    pose proof (skip_ws_Eats s0) as Hw.
    destruct (Json.skip_ws s0) as [|c1 r1]; [discriminate|].
    destruct (Ascii.eqb_spec c1 "]") as [-> | _].
    { injection H as _ <-. apply Eats_Token_cons with "]"%char; [|reflexivity..].
      eapply Eats_trans; [now apply Eats_cons | exact Hw]. }
    apply IHa in H.
    eapply Eats_Token; [eapply Eats_trans; [now apply Eats_cons | exact Hw]|exact H].
  - intros vs s v r H. cbn [Json.array_loop] in H.
    destruct (Json.scan_once f s) as [value r0| |] eqn:E; try discriminate.
    apply IHs in E. apply Token_Eats in E.
    pose proof (skip_ws_Eats r0) as Hw.
    destruct (Json.skip_ws r0) as [|c r1]; [discriminate|].
    pose proof (Eats_trans _ _ _ E Hw) as E1.
    destruct (Ascii.eqb_spec c "]") as [-> | _].
    { injection H as _ <-. now apply Eats_Token_cons with "]"%char. }
    destruct (Ascii.eqb_spec c ",") as [-> | _]; [|discriminate].
    apply IHa in H. eapply Eats_Token; [|exact H].
    eapply Eats_trans; [eapply Eats_step; [exact E1 | reflexivity] | apply skip_ws_Eats].
  - intros ps s v r H. cbn [Json.object_loop] in H.
    destruct (Json.scanstring s) as [[key r0]|] eqn:Ek; [|discriminate].
    apply scanstring_TokenIn, TokenIn_EatsIn in Ek.
    pose proof (skip_ws_Eats r0) as Hw.
    destruct (Json.skip_ws r0) as [|c r1]; [discriminate|].
    destruct (Ascii.eqb_spec c ":") as [-> | _]; [|discriminate].
    destruct (Json.scan_once f (Json.skip_ws r1)) as [value r2| |] eqn:E;
      try discriminate.
    apply IHs in E. apply Token_Eats in E.
    assert (E2 : EatsIn s r2).
    { eapply EatsIn_Eats; [exact Ek|].
      eapply Eats_trans; [eapply Eats_step; [exact Hw | reflexivity]|].
      eapply Eats_trans; [apply skip_ws_Eats | exact E]. }
    pose proof (skip_ws_Eats r2) as Hw2.
    destruct (Json.skip_ws r2) as [|c2 r3]; [discriminate|].
    pose proof (EatsIn_Eats _ _ _ E2 Hw2) as E3.
    destruct (Ascii.eqb_spec c2 "}") as [-> | _].
    { injection H as _ <-. eapply EatsIn_Token; [exact E3 | now apply Token_cons]. }
    destruct (Ascii.eqb_spec c2 ",") as [-> | _]; [|discriminate].
    pose proof (skip_ws_Eats r3) as Hw3.
    destruct (Json.skip_ws r3) as [|c3 r4]; [discriminate|].
    destruct (Ascii.eqb_spec c3 Json.dquote) as [-> | _]; [|discriminate].
    apply IHo in H. apply quoted_Token in H.
    eapply EatsIn_Token; [|exact H].
    eapply EatsIn_Eats; [exact E3|].
    eapply Eats_trans; [now apply Eats_cons | exact Hw3].
Qed.

(** *** Fuel *)

Lemma skip_ws_length (s : string) :
  (String.length (Json.skip_ws s) <= String.length s)%nat.
Proof. apply Eats_shorter, skip_ws_Eats. Qed.

Lemma skip_ws_cons_length (s : string) (c : ascii) (r : string) :
  Json.skip_ws s = String c r -> (S (String.length r) <= String.length s)%nat.
Proof. intros H. pose proof (skip_ws_length s) as L. rewrite H in L. exact L. Qed.

(** With fuel above twice the length of the text the scan does not run
    out of fuel, and more fuel does not change its result. *)
Lemma scan_fuel (f : nat) : forall f', (f <= f')%nat ->
  (forall s, (2 * String.length s < f)%nat ->
     Json.scan_once f' s = Json.scan_once f s /\
     Json.scan_once f s <> Json.OutOfFuel) /\
  (forall vs s, (2 * String.length s + 1 < f)%nat ->
     Json.array_loop f' vs s = Json.array_loop f vs s /\
     Json.array_loop f vs s <> Json.OutOfFuel) /\
  (forall ps s, (2 * String.length s < f)%nat ->
     Json.object_loop f' ps s = Json.object_loop f ps s /\
     Json.object_loop f ps s <> Json.OutOfFuel).
Proof.
  induction f as [|f IH]; intros f' Hle; [repeat split; lia|].
  destruct f' as [|f']; [lia|].
  destruct (IH f' ltac:(lia)) as [IHs [IHa IHo]]. clear IH.
  repeat apply conj.
  - intros s Hs. cbn [Json.scan_once].
    destruct s as [|c s0]; [split; [reflexivity | discriminate]|].
    cbn [String.length] in Hs.
    destruct (Ascii.eqb c Json.dquote).
    { destruct (Json.scanstring s0) as [[u r']|]; split; (reflexivity || discriminate). }
    destruct (Ascii.eqb c "{").
    { destruct (Json.skip_ws s0) as [|c1 r1] eqn:Ew; [split; [reflexivity | discriminate]|].
      apply skip_ws_cons_length in Ew.
      destruct (Ascii.eqb c1 "}"); [split; [reflexivity | discriminate]|].
      destruct (Ascii.eqb c1 Json.dquote); [|split; [reflexivity | discriminate]].
      apply IHo. lia. }
    destruct (Ascii.eqb c "[").
    { destruct (Json.skip_ws s0) as [|c1 r1] eqn:Ew; [split; [reflexivity | discriminate]|].
      apply skip_ws_cons_length in Ew.
      destruct (Ascii.eqb c1 "]"); [split; [reflexivity | discriminate]|].
      apply IHa. cbn [String.length]. lia. }
    split; [reflexivity|]. unfold Json.scan_atom.
    repeat match goal with
      | |- context [match Json.strip_prefix ?p ?s with _ => _ end] =>
          destruct (Json.strip_prefix p s)
      end; try discriminate.
    all: unfold Json.scan_number;
      destruct (Json.match_integer _) as [[[neg ds] r0]|]; try discriminate;
      destruct (Json.match_frac r0) as [frac r1];
      destruct (Json.match_exp r1) as [ex r2];
      destruct frac, ex; try discriminate;
      destruct (Json.int_of_literal neg ds); discriminate.
  - intros vs s Hs. cbn [Json.array_loop].
    destruct (IHs s ltac:(lia)) as [-> Hne].
    destruct (Json.scan_once f s) as [value r0| |] eqn:E;
      [|split; [reflexivity | discriminate] | contradiction].
    apply (proj1 (scan_Token f)), Token_shorter in E.
    destruct (Json.skip_ws r0) as [|c r1] eqn:Ew; [split; [reflexivity | discriminate]|].
    apply skip_ws_cons_length in Ew.
    destruct (Ascii.eqb c "]"); [split; [reflexivity | discriminate]|].
    destruct (Ascii.eqb c ","); [|split; [reflexivity | discriminate]].
    apply IHa. pose proof (skip_ws_length r1). lia.
  - intros ps s Hs. cbn [Json.object_loop].
    destruct (Json.scanstring s) as [[key r0]|] eqn:Ek; [|split; [reflexivity | discriminate]].
    apply scanstring_TokenIn, TokenIn_shorter in Ek.
    destruct (Json.skip_ws r0) as [|c r1] eqn:Ew; [split; [reflexivity | discriminate]|].
    apply skip_ws_cons_length in Ew.
    destruct (Ascii.eqb c ":"); [|split; [reflexivity | discriminate]].
    pose proof (skip_ws_length r1) as L1.
    destruct (IHs (Json.skip_ws r1) ltac:(lia)) as [-> Hne].
    destruct (Json.scan_once f (Json.skip_ws r1)) as [value r2| |] eqn:E;
      [|split; [reflexivity | discriminate] | contradiction].
    apply (proj1 (scan_Token f)), Token_shorter in E.
    destruct (Json.skip_ws r2) as [|c2 r3] eqn:Ew2; [split; [reflexivity | discriminate]|].
    apply skip_ws_cons_length in Ew2.
    destruct (Ascii.eqb c2 "}"); [split; [reflexivity | discriminate]|].
    destruct (Ascii.eqb c2 ","); [|split; [reflexivity | discriminate]].
    destruct (Json.skip_ws r3) as [|c3 r4] eqn:Ew3; [split; [reflexivity | discriminate]|].
    apply skip_ws_cons_length in Ew3.
    destruct (Ascii.eqb c3 Json.dquote); [|split; [reflexivity | discriminate]].
    apply IHo. lia.
Qed.

(** *** White space after the text *)

Lemma scanstring_step (s : string) :
  Json.scanstring s =
  match string_step s with
  | Done r => Some ([], r)
  | More u r =>
      match Json.scanstring r with
      | Some (us, r') => Some (u :: us, r')
      | None => None
      end
  | Bad => None
  end.
Proof.
  destruct s as [|c r]; [reflexivity|].
  cbn [Json.scanstring string_step]. cbv zeta.
  repeat match goal with
    | |- context [if ?b then _ else _] => destruct b
    | |- context [match ?s with EmptyString => _ | String _ _ => _ end] =>
        is_var s; destruct s
    | |- context [match Json.decode_uXXXX ?a ?b ?c ?d with _ => _ end] =>
        destruct (Json.decode_uXXXX a b c d)
    | |- context [match Json.backslash ?e with _ => _ end] =>
        destruct (Json.backslash e)
    end; reflexivity.
Qed.

Lemma is_ws_cases (x : ascii) :
  Json.is_ws x = true ->
  x = " "%char \/ x = "009"%char \/ x = "010"%char \/ x = "013"%char.
Proof.
  destruct x as [[] [] [] [] [] [] [] []]; try discriminate; auto.
Qed.

Lemma decode_last_not_hex (a b c x : ascii) :
  Json.hex_val x = None -> Json.decode_uXXXX a b c x = None.
Proof.
  intros H. unfold Json.decode_uXXXX. rewrite H.
  destruct (Json.hex_val a), (Json.hex_val b), (Json.hex_val c); reflexivity.
Qed.

Lemma string_step_snoc (x : ascii) (s : string) :
  Json.is_ws x = true ->
  match string_step s with
  | Done r => string_step (s ++ String x "") = Done (r ++ String x "")
  | More u r => string_step (s ++ String x "") = More u (r ++ String x "")
  | Bad => s = "" \/ string_step (s ++ String x "") = Bad
  end.
Proof.
  intros Hx.
  assert (Hd : forall a b c, Json.decode_uXXXX a b c x = None).
  { intros a b c. apply decode_last_not_hex.
    destruct (is_ws_cases x Hx) as [-> | [-> | [-> | ->]]]; reflexivity. }
  assert (Hu : Ascii.eqb x "u" = false).
  { destruct (is_ws_cases x Hx) as [-> | [-> | [-> | ->]]]; reflexivity. }
  assert (Hb : Json.backslash x = None).
  { destruct (is_ws_cases x Hx) as [-> | [-> | [-> | ->]]]; reflexivity. }
  destruct s as [|c r]; [now left|].
  cbn [String.append string_step].
  repeat match goal with
    | |- context [if ?b then _ else _] => destruct b eqn:?
    | |- context [match ?s with EmptyString => _ | String _ _ => _ end] =>
        is_var s; destruct s; cbn [String.append]
    | |- context [match Json.decode_uXXXX ?a ?b ?c ?d with _ => _ end] =>
        first [rewrite Hd | destruct (Json.decode_uXXXX a b c d) eqn:?]
    | |- context [match Json.backslash ?e with _ => _ end] =>
        first [rewrite Hb | destruct (Json.backslash e) eqn:?]
    | |- context [Ascii.eqb x "u"] => rewrite Hu
    | |- context [(_ && false)%bool] => rewrite andb_false_r
    end; try reflexivity; try (right; reflexivity).
  match goal with
  | H : (_ && Ascii.eqb x "u")%bool = true |- _ =>
      rewrite Hu, andb_false_r in H; discriminate H
  end.
Qed.

Lemma string_step_shorter (s : string) (u : N) (r : string) :
  string_step s = More u r -> (String.length r < String.length s)%nat.
Proof.
  destruct s as [|c r0]; [discriminate|]. cbn [string_step].
  repeat match goal with
    | |- context [if ?b then _ else _] => destruct b
    | |- context [match ?s with EmptyString => _ | String _ _ => _ end] =>
        is_var s; destruct s
    | |- context [match Json.decode_uXXXX ?a ?b ?c ?d with _ => _ end] =>
        destruct (Json.decode_uXXXX a b c d)
    | |- context [match Json.backslash ?e with _ => _ end] =>
        destruct (Json.backslash e)
    end; try discriminate;
  intros H; injection H as _ <-; cbn [String.length]; lia.
Qed.

Lemma scanstring_snoc_len (x : ascii) (n : nat) : forall s,
  (String.length s <= n)%nat -> Json.is_ws x = true ->
  Json.scanstring (s ++ String x "") =
  match Json.scanstring s with
  | Some (u, r) => Some (u, r ++ String x "")
  | None => None
  end.
Proof.
  induction n as [|n IH]; intros s Hn Hx.
  - destruct s; [|simpl in Hn; lia].
    destruct (is_ws_cases x Hx) as [-> | [-> | [-> | ->]]]; reflexivity.
  - rewrite (scanstring_step s), (scanstring_step (s ++ String x "")).
    pose proof (string_step_snoc x s Hx) as Hs.
    pose proof (string_step_shorter s) as Hl.
    destruct (string_step s) as [r | u r |].
    + now rewrite Hs.
    + rewrite Hs. specialize (Hl u r eq_refl).
      rewrite IH by (try assumption; lia).
      now destruct (Json.scanstring r) as [[us r']|].
    + destruct Hs as [-> | ->]; [|reflexivity].
      destruct (is_ws_cases x Hx) as [-> | [-> | [-> | ->]]]; reflexivity.
Qed.

(** White space only, as the decoder sees it. *)
Lemma ws_only_cons (x : ascii) (w : string) :
  Json.skip_ws (String x w) = "" -> Json.is_ws x = true /\ Json.skip_ws w = "".
Proof.
  cbn [Json.skip_ws]. destruct (Json.is_ws x); [now split | discriminate].
Qed.

Lemma append_snoc (s : string) (x : ascii) (w : string) :
  s ++ String x w = (s ++ String x "") ++ w.
Proof. now rewrite append_assoc. Qed.

Lemma scanstring_frame (w : string) : forall s,
  Json.skip_ws w = "" ->
  Json.scanstring (s ++ w) =
  match Json.scanstring s with
  | Some (u, r) => Some (u, r ++ w)
  | None => None
  end.
Proof.
  induction w as [|x w IH]; intros s Hw.
  - rewrite append_nil_r. destruct (Json.scanstring s) as [[u r]|]; [|reflexivity].
    now rewrite append_nil_r.
  - apply ws_only_cons in Hw as [Hx Hw].
    rewrite append_snoc, IH by exact Hw.
    rewrite (scanstring_snoc_len x (String.length s)) by (try assumption; lia).
    destruct (Json.scanstring s) as [[u r]|]; [|reflexivity].
    now rewrite <- append_snoc.
Qed.

Lemma ws_only_head (w : string) :
  Json.skip_ws w = "" ->
  w = "" \/ exists x w', w = String x w' /\ Json.is_ws x = true.
Proof.
  destruct w as [|x w']; [now left|]. intros H. right.
  apply ws_only_cons in H as [Hx _]. now exists x, w'.
Qed.

Lemma is_ws_not_digit (x : ascii) : Json.is_ws x = true -> Json.is_digit x = false.
Proof.
  intros H. destruct (is_ws_cases x H) as [-> | [-> | [-> | ->]]]; reflexivity.
Qed.

Lemma is_ws_not_plain (x a : ascii) :
  Json.is_ws x = true ->
  negb (Ascii.eqb a "`") && negb (Str.isspace a) = true ->
  Ascii.eqb a x = false.
Proof.
  intros Hx Ha. destruct (Ascii.eqb_spec a x) as [-> | _]; [|reflexivity].
  apply is_ws_isspace in Hx. rewrite Hx, andb_false_r in Ha. discriminate.
Qed.

Lemma skip_ws_frame (w s : string) :
  Json.skip_ws w = "" ->
  Json.skip_ws (s ++ w) =
  match Json.skip_ws s with
  | "" => ""
  | String c r => String c (r ++ w)
  end.
Proof.
  intros Hw. induction s as [|c s IH]; [exact Hw|].
  cbn [String.append Json.skip_ws]. now destruct (Json.is_ws c).
Qed.

Lemma span_digits_frame (w s : string) :
  Json.skip_ws w = "" ->
  Json.span_digits (s ++ w) =
  let '(ds, r) := Json.span_digits s in (ds, r ++ w).
Proof.
  intros Hw. induction s as [|c s IH].
  - destruct (ws_only_head w Hw) as [-> | [x [w' [-> Hx]]]]; [reflexivity|].
    cbn. now rewrite (is_ws_not_digit x Hx).
  - cbn [String.append Json.span_digits]. destruct (Json.is_digit c); [|reflexivity].
    rewrite IH. now destruct (Json.span_digits s).
Qed.

Lemma match_integer_frame (w s : string) :
  Json.skip_ws w = "" ->
  Json.match_integer (s ++ w) =
  match Json.match_integer s with
  | Some (neg, ds, r) => Some (neg, ds, r ++ w)
  | None => None
  end.
Proof.
  intros Hw. unfold Json.match_integer.
  assert (Hcore : forall (neg : bool) (s1 : string),
            match s1 ++ w with
            | "" => None
            | String c r =>
                if Ascii.eqb c "0" then Some (neg, "0", r)
                else if Json.is_digit c
                     then let '(ds, r') := Json.span_digits r in
                          Some (neg, String c ds, r')
                     else None
            end =
            match
              match s1 with
              | "" => None
              | String c r =>
                  if Ascii.eqb c "0" then Some (neg, "0", r)
                  else if Json.is_digit c
                       then let '(ds, r') := Json.span_digits r in
                            Some (neg, String c ds, r')
                       else None
              end
            with
            | Some (neg', ds, r) => Some (neg', ds, r ++ w)
            | None => None
            end).
  { intros neg [|c r].
    - destruct (ws_only_head w Hw) as [-> | [x [w' [-> Hx]]]]; [reflexivity|].
      cbn [String.append].
      assert (H0 : Ascii.eqb x "0" = false)
        by (destruct (is_ws_cases x Hx) as [-> | [-> | [-> | ->]]]; reflexivity).
      now rewrite H0, (is_ws_not_digit x Hx).
    - cbn [String.append]. destruct (Ascii.eqb c "0"); [reflexivity|].
      destruct (Json.is_digit c); [|reflexivity].
      rewrite span_digits_frame by exact Hw. now destruct (Json.span_digits r). }
  destruct s as [|c s0].
  - destruct (ws_only_head w Hw) as [-> | [x [w' [-> Hx]]]]; [reflexivity|].
    cbn [String.append].
    assert (Hm : Ascii.eqb x "-" = false)
      by (destruct (is_ws_cases x Hx) as [-> | [-> | [-> | ->]]]; reflexivity).
    assert (H0 : Ascii.eqb x "0" = false)
      by (destruct (is_ws_cases x Hx) as [-> | [-> | [-> | ->]]]; reflexivity).
    now rewrite Hm, H0, (is_ws_not_digit x Hx).
  - cbn [String.append]. destruct (Ascii.eqb c "-").
    + apply Hcore.
    + apply (Hcore false (String c s0)).
Qed.

Lemma match_frac_frame (w s : string) :
  Json.skip_ws w = "" ->
  Json.match_frac (s ++ w) =
  let '(frac, r) := Json.match_frac s in (frac, r ++ w).
Proof.
  intros Hw. unfold Json.match_frac. destruct s as [|c s0].
  - destruct (ws_only_head w Hw) as [-> | [x [w' [-> Hx]]]]; [reflexivity|].
    cbn [String.append].
    destruct (is_ws_cases x Hx) as [-> | [-> | [-> | ->]]]; reflexivity.
  - cbn [String.append]. destruct (Ascii.eqb c "."); [|reflexivity].
    rewrite span_digits_frame by exact Hw.
    destruct (Json.span_digits s0) as [ds r]. now destruct ds.
Qed.

Lemma match_exp_frame (w s : string) :
  Json.skip_ws w = "" ->
  Json.match_exp (s ++ w) =
  let '(ex, r) := Json.match_exp s in (ex, r ++ w).
Proof.
  intros Hw. unfold Json.match_exp. destruct s as [|c s0].
  - destruct (ws_only_head w Hw) as [-> | [x [w' [-> Hx]]]]; [reflexivity|].
    cbn [String.append].
    destruct (is_ws_cases x Hx) as [-> | [-> | [-> | ->]]]; reflexivity.
  - cbn [String.append]. destruct (Ascii.eqb c "e" || Ascii.eqb c "E"); [|reflexivity].
    destruct s0 as [|c' r'].
    + destruct (ws_only_head w Hw) as [-> | [x [w' [-> Hx]]]]; [reflexivity|].
      cbn [String.append]. 
      assert (Hs : Json.span_digits (String x w') = ("", String x w')).
      { cbn. now rewrite (is_ws_not_digit x Hx). }
      destruct (is_ws_cases x Hx) as [-> | [-> | [-> | ->]]]; reflexivity.
    + cbn [String.append].
      destruct (Ascii.eqb c' "+");
        [|destruct (Ascii.eqb c' "-")].
      * rewrite span_digits_frame by exact Hw.
        destruct (Json.span_digits r') as [ds r]. now destruct ds.
      * rewrite span_digits_frame by exact Hw.
        destruct (Json.span_digits r') as [ds r]. now destruct ds.
      * change (String c' (r' ++ w)) with (String c' r' ++ w).
        rewrite span_digits_frame by exact Hw.
        destruct (Json.span_digits (String c' r')) as [ds r]. now destruct ds.
Qed.

Lemma scan_number_frame (w s : string) :
  Json.skip_ws w = "" ->
  Json.scan_number (s ++ w) =
  match Json.scan_number s with
  | Some res => Some (frame w res)
  | None => None
  end.
Proof.
  intros Hw. unfold Json.scan_number.
  rewrite match_integer_frame by exact Hw.
  destruct (Json.match_integer s) as [[[neg ds] r]|]; [|reflexivity].
  rewrite match_frac_frame by exact Hw.
  destruct (Json.match_frac r) as [frac r1].
  rewrite match_exp_frame by exact Hw.
  destruct (Json.match_exp r1) as [ex r2].
  destruct frac, ex; try reflexivity.
  now destruct (Json.int_of_literal neg ds).
Qed.

Lemma strip_prefix_frame (w p : string) : forall s,
  Json.skip_ws w = "" -> plain p = true ->
  Json.strip_prefix p (s ++ w) =
  match Json.strip_prefix p s with
  | Some r => Some (r ++ w)
  | None => None
  end.
Proof.
  induction p as [|a p IH]; intros s Hw Hp; [reflexivity|].
  cbn [plain] in Hp. apply andb_true_iff in Hp as [Ha Hp].
  destruct s as [|b s].
  - destruct (ws_only_head w Hw) as [-> | [x [w' [-> Hx]]]]; [reflexivity|].
    cbn [String.append Json.strip_prefix]. now rewrite (is_ws_not_plain x a Hx Ha).
  - cbn [String.append Json.strip_prefix]. destruct (Ascii.eqb a b); [|reflexivity].
    now apply IH.
Qed.

Lemma scan_atom_frame (w s : string) :
  Json.skip_ws w = "" ->
  Json.scan_atom (s ++ w) = frame w (Json.scan_atom s).
Proof.
  intros Hw. unfold Json.scan_atom.
  rewrite !strip_prefix_frame by (exact Hw || reflexivity).
  rewrite scan_number_frame by exact Hw.
  repeat match goal with
    | |- context [match Json.strip_prefix ?p ?s with _ => _ end] =>
        destruct (Json.strip_prefix p s)
    end; try reflexivity.
  all: destruct (Json.scan_number s); reflexivity.
Qed.

Lemma frame_after_skip (w : string) (P : string -> Json.scan json) :
  Json.skip_ws w = "" ->
  (forall s, P (s ++ w) = frame w (P s)) ->
  (forall v r, P "" <> Json.Scanned v r) ->
  forall s, P (Json.skip_ws (s ++ w)) = frame w (P (Json.skip_ws s)).
Proof.
  intros Hw HP Hnil s. rewrite skip_ws_frame by exact Hw.
  destruct (Json.skip_ws s) as [|c r].
  - destruct (P "") as [v r| |]; [now destruct (Hnil v r) | reflexivity..].
  - apply (HP (String c r)).
Qed.

Lemma scan_once_nil (f : nat) (v : json) (r : string) :
  Json.scan_once f "" <> Json.Scanned v r.
Proof. intros H. apply (proj1 (scan_Token f)), Token_shorter in H. simpl in H. lia. Qed.

Lemma array_loop_nil (f : nat) (vs : list json) (v : json) (r : string) :
  Json.array_loop f vs "" <> Json.Scanned v r.
Proof.
  intros H. apply (proj1 (proj2 (scan_Token f))), Token_shorter in H. simpl in H. lia.
Qed.

(** White space after the text is left after the value. *)
Lemma scan_frame (w : string) (Hw : Json.skip_ws w = "") (f : nat) :
  (forall s, Json.scan_once f (s ++ w) = frame w (Json.scan_once f s)) /\
  (forall vs s, Json.array_loop f vs (s ++ w) = frame w (Json.array_loop f vs s)) /\
  (forall ps s, Json.object_loop f ps (s ++ w) = frame w (Json.object_loop f ps s)).
Proof.
  induction f as [|f [IHs [IHa IHo]]]; [repeat split; reflexivity|].
  repeat apply conj.
  - intros s. destruct s as [|c s0].
    + change ("" ++ w) with w.
      destruct (ws_only_head w Hw) as [-> | [x [w' [-> Hx]]]]; [reflexivity|].
      cbn [Json.scan_once].
      pose proof (scan_atom_frame (String x w') "" Hw) as Ha.
      change ("" ++ String x w') with (String x w') in Ha.
      destruct (is_ws_cases x Hx) as [-> | [-> | [-> | ->]]]; exact Ha.
    + cbn [String.append Json.scan_once].
      destruct (Ascii.eqb c Json.dquote).
      { rewrite scanstring_frame by exact Hw.
        now destruct (Json.scanstring s0) as [[u r]|]. }
      destruct (Ascii.eqb c "{").
      { rewrite skip_ws_frame by exact Hw.
        destruct (Json.skip_ws s0) as [|c1 r1]; [reflexivity|].
        destruct (Ascii.eqb c1 "}"); [reflexivity|].
        destruct (Ascii.eqb c1 Json.dquote); [apply IHo | reflexivity]. }
      destruct (Ascii.eqb c "[").
      { rewrite skip_ws_frame by exact Hw.
        destruct (Json.skip_ws s0) as [|c1 r1]; [reflexivity|].
        destruct (Ascii.eqb c1 "]"); [reflexivity|].
        apply (IHa [] (String c1 r1)). }
      apply (scan_atom_frame w (String c s0) Hw).
  - intros vs s. cbn [Json.array_loop]. rewrite IHs.
    destruct (Json.scan_once f s) as [value r| |]; [|reflexivity..].
    cbn [frame]. rewrite skip_ws_frame by exact Hw.
    destruct (Json.skip_ws r) as [|c r1]; [reflexivity|].
    destruct (Ascii.eqb c "]"); [reflexivity|].
    destruct (Ascii.eqb c ","); [|reflexivity].
    apply (frame_after_skip w (Json.array_loop f (vs ++ [value])) Hw);
      [apply IHa | apply array_loop_nil].
  - intros ps s. cbn [Json.object_loop].
    rewrite scanstring_frame by exact Hw.
    destruct (Json.scanstring s) as [[key r]|]; [|reflexivity].
    rewrite skip_ws_frame by exact Hw.
    destruct (Json.skip_ws r) as [|c r1]; [reflexivity|].
    destruct (Ascii.eqb c ":"); [|reflexivity].
    rewrite (frame_after_skip w (Json.scan_once f) Hw IHs (scan_once_nil f)).
    destruct (Json.scan_once f (Json.skip_ws r1)) as [value r2| |]; [|reflexivity..].
    cbn [frame]. rewrite skip_ws_frame by exact Hw.
    destruct (Json.skip_ws r2) as [|c2 r3]; [reflexivity|].
    destruct (Ascii.eqb c2 "}"); [reflexivity|].
    destruct (Ascii.eqb c2 ","); [|reflexivity].
    rewrite skip_ws_frame by exact Hw.
    destruct (Json.skip_ws r3) as [|c3 r4]; [reflexivity|].
    destruct (Ascii.eqb c3 Json.dquote); [apply IHo | reflexivity].
Qed.

(** *** [strip] around a value *)

Lemma lstrip_skip_ws (s : string) :
  Str.lstrip_with Str.isspace s = Str.lstrip_with Str.isspace (Json.skip_ws s).
Proof.
  induction s as [|c s IH]; [reflexivity|]. cbn [Json.skip_ws].
  destruct (Json.is_ws c) eqn:E; [|reflexivity].
  cbn [Str.lstrip_with]. now rewrite (is_ws_isspace c E).
Qed.

Lemma isspace_cases (c : ascii) :
  Str.isspace c = true ->
  In c ["009"; "010"; "011"; "012"; "013"; "028"; "029"; "030"; "031"; " ";
        "133"; "160"]%char.
Proof.
  destruct c as [[] [] [] [] [] [] [] []]; try discriminate; intros _;
    cbn; tauto.
Qed.

Lemma scan_once_head (f : nat) (c : ascii) (s : string) (v : json) (r : string) :
  Json.scan_once f (String c s) = Json.Scanned v r -> Str.isspace c = false.
Proof.
  intros H. destruct (Str.isspace c) eqn:E; [exfalso | reflexivity].
  destruct f as [|f]; [discriminate|].
  apply isspace_cases in E. cbn [In] in E.
  repeat (destruct E as [<- | E]; [discriminate H|]). exact E.
Qed.

Lemma rstrip_blank_app (p : ascii -> bool) (r : string) : forall t,
  Str.rstrip_with p r = "" -> Str.rstrip_with p (t ++ r) = Str.rstrip_with p t.
Proof.
  intros t Hr. induction t as [|c t IH]; [exact Hr|].
  cbn [String.append Str.rstrip_with]. now rewrite IH.
Qed.

Lemma rstrip_visible_end (p : ascii -> bool) (x : ascii) : forall t,
  p x = false -> Str.rstrip_with p (t ++ String x "") = t ++ String x "".
Proof.
  intros t Hx. induction t as [|c t IH].
  - cbn. now rewrite Hx.
  - cbn [String.append Str.rstrip_with]. rewrite IH. now destruct t.
Qed.

Lemma rstrip_ws_only (w : string) :
  Json.skip_ws w = "" -> Str.rstrip_with Str.isspace w = "".
Proof.
  induction w as [|x w IH]; [reflexivity|]. intros H.
  apply ws_only_cons in H as [Hx Hw]. cbn [Str.rstrip_with].
  now rewrite (IH Hw), (is_ws_isspace x Hx).
Qed.

Lemma skip_ws_idem (s : string) : Json.skip_ws (Json.skip_ws s) = Json.skip_ws s.
Proof.
  induction s as [|c s IH]; [reflexivity|]. cbn [Json.skip_ws].
  destruct (Json.is_ws c) eqn:E; [exact IH|]. cbn [Json.skip_ws]. now rewrite E.
Qed.

Lemma append_cancel_length (a b c d : string) :
  a ++ b = c ++ d -> String.length b = String.length d -> a = c /\ b = d.
Proof.
  revert c. induction a as [|x a IH]; intros c H L.
  - destruct c as [|y c]; [now split|]. simpl in H. subst b.
    simpl in L. rewrite length_append in L. lia.
  - destruct c as [|y c].
    + simpl in H. subst d. simpl in L. rewrite length_append in L. lia.
    + simpl in H. injection H as -> H. destruct (IH _ H L) as [-> ->]. now split.
Qed.

(** A text that [json.loads] accepts is accepted with the same value
    once it is stripped. *)
Lemma loads_strip (s : string) (v : json) :
  Json.loads s = Return v -> Json.loads (Str.strip s) = Return v.
Proof.
  unfold Json.loads. intros H.
  set (s1 := Json.skip_ws s) in *.
  destruct (Json.scan_once (Json.fuel_for s1) s1) as [v' r| |] eqn:E;
    [|discriminate..].
  destruct (Json.skip_ws r) eqn:Er; [|discriminate]. injection H as ->.
  pose proof (proj1 (scan_Token _) _ _ _ E) as [c [x [Hs1 [_ Hx]]]].
  assert (Hst : Str.strip s = c ++ String x "").
  { unfold Str.strip, Str.strip_with. rewrite lstrip_skip_ws. fold s1.
    assert (Hl : Str.lstrip_with Str.isspace s1 = s1).
    { destruct s1 as [|c0 s0]; [reflexivity|]. cbn [Str.lstrip_with].
      now rewrite (scan_once_head _ _ _ _ _ E). }
    rewrite Hl, Hs1.
    change (String x r) with (String x "" ++ r). rewrite <- append_assoc.
    rewrite rstrip_blank_app by now apply rstrip_ws_only.
    now apply rstrip_visible_end. }
  rewrite Hst.
  assert (Hsk : Json.skip_ws (c ++ String x "") = c ++ String x "").
  { pose proof (skip_ws_idem s) as Hi. fold s1 in Hi. rewrite Hs1 in Hi.
    destruct c as [|c0 c]; cbn [String.append Json.skip_ws] in *;
      [destruct (Json.is_ws x) | destruct (Json.is_ws c0)]; try reflexivity.
    - apply (f_equal String.length) in Hi. pose proof (skip_ws_length r).
      simpl in Hi. lia.
    - apply (f_equal String.length) in Hi.
      pose proof (skip_ws_length (c ++ String x r)). simpl in Hi. lia. }
  rewrite Hsk.
  pose proof (proj1 (scan_frame r Er (Json.fuel_for s1)) (c ++ String x "")) as Hf.
  rewrite append_assoc in Hf. cbn [String.append] in Hf.
  rewrite <- Hs1, E in Hf.
  assert (Hlen : (String.length (c ++ String x "") <= String.length s1)%nat).
  { rewrite Hs1, !length_append. simpl. lia. }
  destruct (scan_fuel (Json.fuel_for (c ++ String x "")) (Json.fuel_for s1)
              ltac:(unfold Json.fuel_for; lia)) as [Hfuel _].
  destruct (Hfuel (c ++ String x "") ltac:(unfold Json.fuel_for; lia)) as [Heq _].
  rewrite <- Heq.
  destruct (Json.scan_once (Json.fuel_for s1) (c ++ String x "")) as [v2 r2| |];
    [|discriminate..].
  cbn [frame] in Hf. injection Hf as -> Hr.
  assert (r2 = "") as ->.
  { destruct r2; [reflexivity|]. apply (f_equal String.length) in Hr.
    simpl in Hr. rewrite length_append in Hr. lia. }
  reflexivity.
Qed.

(** A text that [json.loads] accepts begins no line with a backtick. *)
Lemma loads_Clean (s : string) (v : json) : Json.loads s = Return v -> Clean s.
Proof.
  unfold Json.loads. intros H.
  destruct (Json.scan_once _ _) as [v' r| |] eqn:E; [|discriminate..].
  destruct (Json.skip_ws r) eqn:Er; [|discriminate].
  apply (proj1 (scan_Token _)), Token_Eats in E.
  pose proof (skip_ws_Eats r) as Hr. rewrite Er in Hr.
  pose proof (Eats_trans _ _ _ (Eats_trans _ _ _ (skip_ws_Eats s) E) Hr) as [c [Hc Hcl]].
  rewrite append_nil_r in Hc. now subst c.
Qed.

(** *** Lines *)

Lemma split_lines_nonempty (s : string) : Str.split_lines s <> [].
Proof.
  destruct s as [|c s]; [discriminate|]. cbn [Str.split_lines].
  destruct (Ascii.eqb c Str.newline); [discriminate|].
  destruct (Str.split_lines s); discriminate.
Qed.

Lemma split_lines_app_newline (s b : string) :
  Str.split_lines (s ++ String Str.newline b) =
  (Str.split_lines s ++ Str.split_lines b)%list.
Proof.
  induction s as [|c s IH].
  - reflexivity.
  - cbn [String.append Str.split_lines]. rewrite IH.
    destruct (Ascii.eqb c Str.newline); [reflexivity|].
    pose proof (split_lines_nonempty s) as Hne.
    now destruct (Str.split_lines s).
Qed.

Lemma split_lines_cons_inline (c : ascii) (t : string) :
  Ascii.eqb c Str.newline = false -> Str.split_lines t = [t] ->
  Str.split_lines (String c t) = [String c t].
Proof. intros Hc Ht. cbn [Str.split_lines]. now rewrite Hc, Ht. Qed.

Lemma join_split_lines (s : string) : Str.join_lines (Str.split_lines s) = s.
Proof.
  induction s as [|c s IH]; [reflexivity|]. cbn [Str.split_lines].
  destruct (Ascii.eqb_spec c Str.newline) as [-> | _].
  - pose proof (split_lines_nonempty s) as Hne.
    cbn [Str.join_lines]. destruct (Str.split_lines s) as [|l ls] eqn:E; [contradiction|].
    rewrite IH. reflexivity.
  - destruct (Str.split_lines s) as [|l ls] eqn:E.
    + now destruct (split_lines_nonempty s).
    + cbn [Str.join_lines] in *. destruct ls; [now rewrite IH|].
      cbn [String.append]. now rewrite IH.
Qed.

Lemma find_fences_skip (ls rest : list string) (i : nat) (st : option nat) :
  (forall l, In l ls -> is_fence_line l = false) ->
  find_fences i (ls ++ rest) st = find_fences (i + List.length ls) rest st.
Proof.
  revert i. induction ls as [|l ls IH]; intros i H.
  - cbn. now rewrite Nat.add_0_r.
  - cbn [app find_fences List.length].
    pose proof (H l (or_introl eq_refl)) as Hl. unfold is_fence_line in Hl.
    rewrite Hl, IH by (intros l' Hl'; apply H; now right).
    f_equal. lia.
Qed.

Lemma rstrip_visible_head (p : ascii -> bool) (c : ascii) (r : string) :
  p c = false ->
  Str.rstrip_with p (String c r) = String c (Str.rstrip_with p r).
Proof. intros Hc. cbn [Str.rstrip_with]. rewrite Hc. now destruct (Str.rstrip_with p r). Qed.

Lemma fence_tag_is_fence_line (tag : string) : is_fence_line (fence ++ tag) = true.
Proof.
  unfold is_fence_line, Str.strip, Str.strip_with, fence.
  cbn [String.append Str.lstrip_with]. change (Str.isspace "`") with false. cbv iota.
  now rewrite !rstrip_visible_head.
Qed.

Lemma fenced_ends (tag s : string) :
  fenced tag s =
  (fence ++ tag ++ String Str.newline (s ++ String Str.newline "``")) ++ String "`" "".
Proof.
  unfold fenced, fence. rewrite !append_assoc. cbn [String.append].
  do 4 f_equal. rewrite !append_assoc. reflexivity.
Qed.

Lemma strip_fenced (tag s : string) : Str.strip (fenced tag s) = fenced tag s.
Proof.
  unfold Str.strip, Str.strip_with.
  assert (Hl : Str.lstrip_with Str.isspace (fenced tag s) = fenced tag s) by reflexivity.
  rewrite Hl, fenced_ends. now apply rstrip_visible_end.
Qed.

Lemma firstn_length_app {A} (l k : list A) :
  firstn (List.length l) (l ++ k)%list = l.
Proof. induction l as [|x l IH]; [reflexivity|]. cbn. now rewrite IH. Qed.

Lemma slice_between {A} (x : A) (l k : list A) :
  slice 1 (S (List.length l)) (x :: (l ++ k)%list) = l.
Proof.
  unfold slice. change (skipn 1 (x :: (l ++ k)%list)) with (l ++ k)%list.
  replace (S (List.length l) - 1)%nat with (List.length l) by lia.
  apply firstn_length_app.
Qed.

Lemma split_lines_fenced (tag s : string) :
  Str.split_lines tag = [tag] ->
  Str.split_lines (fenced tag s) = (fence ++ tag) :: (Str.split_lines s ++ [fence])%list.
Proof.
  intros Ht. unfold fenced. rewrite <- append_assoc.
  rewrite !split_lines_app_newline.
  assert (Hf : Str.split_lines (fence ++ tag) = [fence ++ tag]).
  { unfold fence. cbn [String.append].
    do 3 (apply split_lines_cons_inline; [reflexivity|]). exact Ht. }
  rewrite Hf. reflexivity.
Qed.

(** The fences around a text that begins no line with a backtick are
    removed, and the text between them is stripped. *)
Lemma defence_fenced (tag s : string) :
  Str.split_lines tag = [tag] -> Clean s ->
  defence (fenced tag s) = Str.strip s.
Proof.
  intros Ht Hs. unfold defence. rewrite strip_fenced.
  assert (Hsw : Str.startswith fence (fenced tag s) = true) by reflexivity.
  rewrite Hsw, split_lines_fenced by exact Ht.
  assert (Hff : find_fences 0 ((fence ++ tag) :: (Str.split_lines s ++ [fence])%list) None
                = (Some 1%nat, Some (S (List.length (Str.split_lines s))))).
  { cbn [find_fences].
    pose proof (fence_tag_is_fence_line tag) as Hf. unfold is_fence_line in Hf.
    rewrite Hf. rewrite find_fences_skip by now apply Clean_no_fence_line.
    reflexivity. }
  rewrite Hff. cbn [truthy andb index_or_0].
  now rewrite slice_between, join_split_lines.
Qed.

Lemma extract_fenced (tag s : string) (v : json) :
  Str.split_lines tag = [tag] -> Json.loads s = Return v ->
  extract_json_from_response (fenced tag s) = Return v.
Proof.
  intros Ht Hl. unfold extract_json_from_response.
  rewrite defence_fenced by (try assumption; now apply loads_Clean with v).
  now rewrite (loads_strip s v Hl).
Qed.

Lemma loads_not_fenced (s : string) (v : json) :
  Json.loads s = Return v -> Str.startswith fence (Str.strip s) = false.
Proof.
  intros H. apply loads_strip in H.
  destruct (Str.startswith fence (Str.strip s)) eqn:E; [|reflexivity].
  apply startswith_iff in E as [b E]. rewrite E in H. discriminate H.
Qed.

Lemma extract_bare (s : string) (v : json) :
  Json.loads s = Return v -> extract_json_from_response s = Return v.
Proof.
  intros H. unfold extract_json_from_response, defence.
  rewrite (loads_not_fenced s v H). now rewrite (loads_strip s v H).
Qed.

(** C4. Round trip: when [s] is the serialization of a JSON object,
    the extractor run on [s] between an opening fence with an optional
    language tag (any text without a line break, possibly empty) and a
    closing fence gives the object that parsing [s] directly gives,
    which is also what the extractor gives on [s] without the fences. *)
Theorem fenced_object_round_trip (tag s : string) (d : list (ustr * json))
    (Htag : Str.split_lines tag = [tag])
    (Hobj : Json.loads s = Return (JObj d)) :
  extract_json_from_response (fenced tag s) = Json.loads s /\
  extract_json_from_response (fenced tag s) = Return (JObj d) /\
  extract_json_from_response s = Return (JObj d).
Proof.
  rewrite Hobj. split; [|split].
  - now apply extract_fenced.
  - now apply extract_fenced.
  - now apply extract_bare.
Qed.

Lemma fenced_object_round_trip_witness :
  let s := "{" ++ quoted "hours" ++ ": 12}" in
  let d := [(ustr_of "hours", JInt 12)] in
  extract_json_from_response (fenced "json" s) = Json.loads s /\
  extract_json_from_response (fenced "json" s) = Return (JObj d) /\
  extract_json_from_response s = Return (JObj d).
Proof.
  apply (fenced_object_round_trip "json"); reflexivity.
Defined.

(** *** The exceptions of [json.loads] *)

Lemma scan_number_Failed (s : string) (e : exn) :
  Json.scan_number s = Some (Json.Failed e) -> e = ValueError.
Proof.
  unfold Json.scan_number.
  destruct (Json.match_integer s) as [[[neg ds] r]|]; [|discriminate].
  destruct (Json.match_frac r) as [frac r1]. destruct (Json.match_exp r1) as [ex r2].
  unfold Json.int_of_literal.
  destruct frac, ex; try discriminate.
  destruct (_ <? _)%nat; [|discriminate]. intros H. now injection H.
Qed.

Lemma scan_atom_Failed (s : string) (e : exn) :
  Json.scan_atom s = Json.Failed e -> e = JSONDecodeError \/ e = ValueError.
Proof.
  unfold Json.scan_atom.
  repeat match goal with
    | |- context [match Json.strip_prefix ?p ?s with _ => _ end] =>
        destruct (Json.strip_prefix p s)
    end; try discriminate.
  all: destruct (Json.scan_number s) as [res|] eqn:E;
    [intros ->; right; now apply scan_number_Failed with s
    | intros H; first [discriminate H | injection H as <-; now left]].
Qed.

Lemma scan_Failed (f : nat) :
  (forall s e, Json.scan_once f s = Json.Failed e ->
               e = JSONDecodeError \/ e = ValueError) /\
  (forall vs s e, Json.array_loop f vs s = Json.Failed e ->
                  e = JSONDecodeError \/ e = ValueError) /\
  (forall ps s e, Json.object_loop f ps s = Json.Failed e ->
                  e = JSONDecodeError \/ e = ValueError).
Proof.
  induction f as [|f [IHs [IHa IHo]]]; [repeat split; discriminate|].
  assert (Hj : forall e, @Json.Failed json JSONDecodeError = Json.Failed e ->
                         e = JSONDecodeError \/ e = ValueError).
  { intros e H. injection H as <-. now left. }
  repeat apply conj.
  - intros s e. cbn [Json.scan_once].
    destruct s as [|c s0]; [apply Hj|].
    destruct (Ascii.eqb c Json.dquote).
    { destruct (Json.scanstring s0) as [[u r]|]; [discriminate | apply Hj]. }
    destruct (Ascii.eqb c "{").
    { destruct (Json.skip_ws s0) as [|c1 r1]; [apply Hj|].
      destruct (Ascii.eqb c1 "}"); [discriminate|].
      destruct (Ascii.eqb c1 Json.dquote); [apply IHo | apply Hj]. }
    destruct (Ascii.eqb c "[").
    { destruct (Json.skip_ws s0) as [|c1 r1]; [apply Hj|].
      destruct (Ascii.eqb c1 "]"); [discriminate | apply IHa]. }
    apply scan_atom_Failed.
  - intros vs s e. cbn [Json.array_loop].
    destruct (Json.scan_once f s) as [value r| e' |] eqn:E; [| |discriminate].
    + destruct (Json.skip_ws r) as [|c r1]; [apply Hj|].
      destruct (Ascii.eqb c "]"); [discriminate|].
      destruct (Ascii.eqb c ","); [apply IHa | apply Hj].
    + intros H. injection H as <-. now apply IHs with s.
  - intros ps s e. cbn [Json.object_loop].
    destruct (Json.scanstring s) as [[key r]|]; [|apply Hj].
    destruct (Json.skip_ws r) as [|c r1]; [apply Hj|].
    destruct (Ascii.eqb c ":"); [|apply Hj].
    destruct (Json.scan_once f (Json.skip_ws r1)) as [value r2| e' |] eqn:E;
      [| |discriminate].
    + destruct (Json.skip_ws r2) as [|c2 r3]; [apply Hj|].
      destruct (Ascii.eqb c2 "}"); [discriminate|].
      destruct (Ascii.eqb c2 ","); [|apply Hj].
      destruct (Json.skip_ws r3) as [|c3 r4]; [apply Hj|].
      destruct (Ascii.eqb c3 Json.dquote); [apply IHo | apply Hj].
    + intros H. injection H as <-. now apply IHs with (Json.skip_ws r1).
Qed.

(** [json.loads] returns a value or raises one of two exceptions: the
    fuel of the scan does not run out. *)
Lemma loads_total (s : string) :
  (exists v, Json.loads s = Return v) \/
  Json.loads s = Raise JSONDecodeError \/
  Json.loads s = Raise ValueError.
Proof.
  unfold Json.loads.
  destruct (scan_fuel (Json.fuel_for (Json.skip_ws s)) _ (Nat.le_refl _)) as [Hf _].
  destruct (Hf (Json.skip_ws s) ltac:(unfold Json.fuel_for; lia)) as [_ Hne].
  destruct (Json.scan_once _ _) as [v r | e |] eqn:E; [| |contradiction].
  - destruct (Json.skip_ws r); [left; now exists v | right; now left].
  - apply (proj1 (scan_Failed _)) in E as [-> | ->]; auto.
Qed.

Lemma extract_total (text : string) :
  (exists v, Json.loads (defence text) = Return v /\
             extract_json_from_response text = Return v) \/
  (Json.loads (defence text) = Raise JSONDecodeError /\
   extract_json_from_response text = Return sentinel) \/
  (Json.loads (defence text) = Raise ValueError /\
   extract_json_from_response text = Raise ValueError).
Proof.
  unfold extract_json_from_response.
  destruct (loads_total (defence text)) as [[v H] | [H | H]]; rewrite H.
  - left. now exists v.
  - right. now left.
  - right. now right.
Qed.

(** C3. The extractor returns the parsed value, and the sentinel when
    [json.loads] raises [JSONDecodeError], as for "I cannot comply.";
    but it is not total: [json.loads] raises [ValueError] on an integer
    literal of more than 4300 digits, the handler does not catch it, and
    the extractor raises it to its caller. *)
Theorem extract_raises_on_long_integer :
  extract_json_from_response "I cannot comply." = Return sentinel /\
  Json.loads (repeat_char "1" 4301) = Raise ValueError /\
  extract_json_from_response (repeat_char "1" 4301) = Raise ValueError /\
  extract_json_from_response ("[" ++ repeat_char "1" 4301 ++ "]") = Raise ValueError.
Proof. repeat split; vm_compute; reflexivity. Qed.

(** ** 4.4 Plan orchestrator and endpoint *)

Lemma eqb_nonempty (s : string) : s <> "" -> String.eqb s "" = false.
Proof. intros H. now apply String.eqb_neq. Qed.

Lemma length_snoc {A} (l : list A) (x : A) : List.length (l ++ [x]) = S (List.length l).
Proof. rewrite List.length_app. simpl. lia. Qed.

(** C1. When the extraction of the syllabus analysis gives the error
    sentinel and the two later extractions succeed, the orchestrator
    does not abort: steps 3 and 4 are run with no subjects and no
    topics, and the record, with the sentinel as [syllabus_analysis]
    and the other fields as their steps produce them, is stored and
    answered with status 200. *)
Theorem syllabus_sentinel_keeps_pipeline (E : env) (data : request_data) (w : world)
    (text prefs : string) (d : Z) (raw1 raw2 raw3 : string) (sched res : json)
    (Hreq : read_request data = Return (text, prefs, d))
    (Htext : text <> "") (Hprefs : prefs <> "")
    (Hk1 : kickoff E (List.length (calls w)) (SyllabusTask (Str.take 2000 text))
           = Return raw1)
    (Hx1 : extract_json_from_response raw1 = Return sentinel)
    (Hk2 : kickoff E (S (List.length (calls w)))
             (ScheduleTask d (JArr [])
                (primary_learning_style (analyze_learning_preferences_local prefs)))
           = Return raw2)
    (Hx2 : extract_json_from_response raw2 = Return sched)
    (Hk3 : kickoff E (S (S (List.length (calls w))))
             (ResourceTask []
                (primary_learning_style (analyze_learning_preferences_local prefs)))
           = Return raw3)
    (Hx3 : extract_json_from_response raw3 = Return res) :
  let learning := analyze_learning_preferences_local prefs in
  let style := primary_learning_style learning in
  let plan :=
    {| created_at := isoformat (now E (clock_reads w));
       duration_days := d;
       syllabus_analysis := sentinel;
       learning_analysis := learning;
       schedule := sched;
       resources := res;
       progress_tracking := generate_progress_tracking_local d |} in
  let plan_id := plan_id_of (now E (S (clock_reads w))) in
  create_study_plan E text prefs d w =
    (Return plan,
     {| study_plans := study_plans w;
        calls := calls w ++ [SyllabusTask (Str.take 2000 text);
                             ScheduleTask d (JArr []) style;
                             ResourceTask [] style];
        clock_reads := S (clock_reads w) |}) /\
  generate_plan E data w =
    (Return (Success plan_id (created_at plan) d (JStr (ustr_of "N/A")) style, 200),
     {| study_plans := <[plan_id := plan]> (study_plans w);
        calls := calls w ++ [SyllabusTask (Str.take 2000 text);
                             ScheduleTask d (JArr []) style;
                             ResourceTask [] style];
        clock_reads := S (S (clock_reads w)) |}).
Proof.
  intros learning style plan plan_id.
  assert (Hc : create_study_plan E text prefs d w =
    (Return plan,
     {| study_plans := study_plans w;
        calls := calls w ++ [SyllabusTask (Str.take 2000 text);
                             ScheduleTask d (JArr []) style;
                             ResourceTask [] style];
        clock_reads := S (clock_reads w) |})).
  { unfold create_study_plan, try_except, mbind, run_crew, lift, datetime_now, ret.
    cbn [calls study_plans clock_reads]. rewrite Hk1, Hx1.
    change (subjects_of sentinel) with (Return (JArr [])).
    rewrite length_snoc, Hk2, Hx2.
    change (topics_of sentinel) with (@Return (list ustr) []).
    rewrite !length_snoc, Hk3, Hx3.
    rewrite <- !app_assoc. reflexivity. }
  split; [exact Hc|].
  unfold generate_plan, try_except, mbind, lift at 1. rewrite Hreq.
  rewrite (eqb_nonempty text Htext), (eqb_nonempty prefs Hprefs), Hc.
  reflexivity.
Qed.

Lemma syllabus_sentinel_keeps_pipeline_witness :
  let E := answering "I cannot comply."
             ("{" ++ quoted "schedule" ++ ": []}")
             ("{" ++ quoted "resource_recommendations" ++ ": []}")
             (fixed_clock "2025-12-03T10:00:00" 1764756000) in
  let data := request "Linear algebra" "I like visual aids" (PInt 28) in
  let learning := analyze_learning_preferences_local "I like visual aids" in
  let plan :=
    {| created_at := "2025-12-03T10:00:00";
       duration_days := 28;
       syllabus_analysis := sentinel;
       learning_analysis := learning;
       schedule := JObj [(ustr_of "schedule", JArr [])];
       resources := JObj [(ustr_of "resource_recommendations", JArr [])];
       progress_tracking := generate_progress_tracking_local 28 |} in
  create_study_plan E "Linear algebra" "I like visual aids" 28 empty_world =
    (Return plan,
     {| study_plans := ∅;
        calls := [SyllabusTask "Linear algebra";
                  ScheduleTask 28 (JArr []) "visual";
                  ResourceTask [] "visual"];
        clock_reads := 1 |}) /\
  generate_plan E data empty_world =
    (Return (Success "plan_1764756000" "2025-12-03T10:00:00" 28
               (JStr (ustr_of "N/A")) "visual", 200),
     {| study_plans := <["plan_1764756000" := plan]> ∅;
        calls := [SyllabusTask "Linear algebra";
                  ScheduleTask 28 (JArr []) "visual";
                  ResourceTask [] "visual"];
        clock_reads := 2 |}).
Proof.
  intros E data learning plan.
  apply (syllabus_sentinel_keeps_pipeline E data empty_world
           "Linear algebra" "I like visual aids" 28
           "I cannot comply."
           ("{" ++ quoted "schedule" ++ ": []}")
           ("{" ++ quoted "resource_recommendations" ++ ": []}")
           (JObj [(ustr_of "schedule", JArr [])])
           (JObj [(ustr_of "resource_recommendations", JArr [])]));
    first [reflexivity | discriminate].
Defined.

Lemma subjects_of_dict (syllabus subjects : json) :
  subjects_of syllabus = Return subjects -> exists o, syllabus = JObj o.
Proof. destruct syllabus; try discriminate. intros _. now eexists. Qed.

(** What the orchestrator has done when it returns a record. *)
Lemma create_study_plan_returns (E : env) (text prefs : string) (d : Z)
    (w w1 : world) (plan : study_plan) :
  create_study_plan E text prefs d w = (Return plan, w1) ->
  duration_days plan = d /\
  learning_analysis plan = analyze_learning_preferences_local prefs /\
  progress_tracking plan = generate_progress_tracking_local d /\
  created_at plan = isoformat (now E (clock_reads w)) /\
  (exists o, syllabus_analysis plan = JObj o) /\
  study_plans w1 = study_plans w /\
  clock_reads w1 = S (clock_reads w) /\
  exists t1 t2 t3, calls w1 = (calls w ++ [t1; t2; t3])%list.
Proof.
  unfold create_study_plan, try_except, mbind, run_crew, lift, datetime_now, ret, raise.
  cbn [calls study_plans clock_reads].
  destruct (kickoff E _ _) as [raw1|]; [|discriminate].
  destruct (extract_json_from_response raw1) as [syl|]; [|discriminate].
  destruct (subjects_of syl) as [subj|] eqn:Es; [|discriminate].
  destruct (kickoff E _ _) as [raw2|]; [|discriminate].
  destruct (extract_json_from_response raw2) as [sched|]; [|discriminate].
  destruct (topics_of syl) as [topics|]; [|discriminate].
  destruct (kickoff E _ _) as [raw3|]; [|discriminate].
  destruct (extract_json_from_response raw3) as [res|]; [|discriminate].
  intros H. injection H as <- <-. cbn.
  repeat split; try reflexivity.
  - now apply subjects_of_dict with subj.
  - do 3 eexists. rewrite <- !app_assoc. reflexivity.
Qed.

(** The orchestrator never writes to the store. *)
Lemma create_study_plan_store (E : env) (text prefs : string) (d : Z)
    (w w1 : world) (r : result study_plan) :
  create_study_plan E text prefs d w = (r, w1) -> study_plans w1 = study_plans w.
Proof.
  unfold create_study_plan, try_except, mbind, run_crew, lift, datetime_now, ret, raise.
  cbn [calls study_plans clock_reads].
  repeat match goal with
    | |- context [match ?x with Return _ => _ | Raise _ => _ end] => destruct x
    end; intros H; injection H as _ <-; reflexivity.
Qed.

(** The endpoint, case by case. *)
Lemma generate_plan_outcome (E : env) (data : request_data) (w : world) :
  generate_plan E data w = endpoint_outcome E data w.
Proof.
  unfold generate_plan, endpoint_outcome, try_except, mbind, lift at 1.
  destruct (read_request data) as [[[text prefs] d]|e]; [|reflexivity].
  destruct (String.eqb text ""); [reflexivity|].
  destruct (String.eqb prefs ""); [reflexivity|].
  destruct (create_study_plan E text prefs d w) as [[plan|e] w1] eqn:Ec; [|reflexivity].
  apply create_study_plan_returns in Ec as [_ [_ [_ [_ [[o Ho] _]]]]].
  unfold datetime_now, store_plan, lift, ret. cbn [study_plans calls clock_reads].
  rewrite Ho. cbn [py_get summary_hours].
  now destruct (dict_find o (ustr_of "total_estimated_hours")).
Qed.

Lemma client_failure_raises (E : env) (text prefs : string) (d : Z) (w : world)
    (e : exn) :
  kickoff E (List.length (calls w)) (SyllabusTask (Str.take 2000 text)) = Raise e ->
  create_study_plan E text prefs d w =
    (Raise e,
     {| study_plans := study_plans w;
        calls := calls w ++ [SyllabusTask (Str.take 2000 text)];
        clock_reads := clock_reads w |}).
Proof.
  intros H. unfold create_study_plan, try_except, mbind, run_crew, raise.
  cbn [calls]. now rewrite H.
Qed.

(** An answer that is not the success leaves the store as it was. *)
Lemma error_answer_stores_nothing (E : env) (data : request_data) (w w' : world)
    (b : body) (status : Z) :
  generate_plan E data w = (Return (b, status), w') -> status <> 200 ->
  study_plans w' = study_plans w.
Proof.
  rewrite generate_plan_outcome. unfold endpoint_outcome.
  destruct (read_request data) as [[[text prefs] d]|e].
  - destruct (String.eqb text ""); [intros H; now injection H as _ _ <-|].
    destruct (String.eqb prefs ""); [intros H; now injection H as _ _ <-|].
    destruct (create_study_plan E text prefs d w) as [[plan|e] w1] eqn:Ec.
    + intros H. injection H as _ <- _. intros Hs. now destruct Hs.
    + intros H. injection H as _ _ <-. intros _.
      now apply create_study_plan_store in Ec.
  - intros H. now injection H as _ _ <-.
Qed.

(** The exception that the orchestrator raises is the one of the step
    that raised, and the state is the one that step left. *)
Lemma step_raises_aborts (E : env) (text prefs : string) (d : Z) (w : world)
    (e : exn) (made : list task) :
  step_raises E text prefs d (List.length (calls w)) e made ->
  create_study_plan E text prefs d w =
    (Raise e,
     {| study_plans := study_plans w;
        calls := calls w ++ made;
        clock_reads := clock_reads w |}).
Proof.
  intros Hstep.
  unfold create_study_plan, try_except, mbind, run_crew, lift, datetime_now, ret, raise.
  cbn [calls study_plans clock_reads].
  destruct Hstep; cbv zeta in *;
    repeat match goal with x := _ |- _ => subst x end;
    repeat match goal with
      | H : _ = Return _ |- _ => rewrite ?length_snoc; rewrite H; clear H; cbv beta iota
      end;
    rewrite ?length_snoc;
    match goal with H : _ = Raise _ |- _ => rewrite H end;
    cbv beta iota; rewrite <- ?app_assoc; reflexivity.
Qed.

(** The orchestrator raises nothing of its own: when it raises, a step
    has raised. *)
Lemma raise_is_step (E : env) (text prefs : string) (d : Z) (w w1 : world) (e : exn) :
  create_study_plan E text prefs d w = (Raise e, w1) ->
  exists made, step_raises E text prefs d (List.length (calls w)) e made.
Proof.
  unfold create_study_plan, try_except, mbind, run_crew, lift, datetime_now, ret, raise.
  cbn [calls study_plans clock_reads]. rewrite !length_snoc.
  destruct (kickoff E _ (SyllabusTask _)) as [raw1|e1] eqn:K1.
  2: { intros H. injection H as <- _. eexists. eapply syllabus_call_raises; eassumption. }
  destruct (extract_json_from_response raw1) as [syl|e1] eqn:X1.
  2: { intros H. injection H as <- _. eexists.
       eapply syllabus_extraction_raises; eassumption. }
  destruct (subjects_of syl) as [subj|e1] eqn:Es.
  2: { intros H. injection H as <- _. eexists. eapply subjects_raise; eassumption. }
  destruct (kickoff E _ (ScheduleTask _ _ _)) as [raw2|e1] eqn:K2.
  2: { intros H. injection H as <- _. eexists.
       eapply schedule_call_raises; eassumption. }
  destruct (extract_json_from_response raw2) as [sched|e1] eqn:X2.
  2: { intros H. injection H as <- _. eexists.
       eapply schedule_extraction_raises; eassumption. }
  destruct (topics_of syl) as [topics|e1] eqn:Et.
  2: { intros H. injection H as <- _. eexists.
       eapply topics_raise; eassumption. }
  destruct (kickoff E _ (ResourceTask _ _)) as [raw3|e1] eqn:K3;
    rewrite !length_snoc in K3.
  2: { intros H. injection H as <- _. eexists.
       eapply resource_call_raises; eassumption. }
  destruct (extract_json_from_response raw3) as [res|e1] eqn:X3.
  2: { intros H. injection H as <- _. eexists.
       eapply resource_extraction_raises; eassumption. }
  discriminate.
Qed.

(** C2. When a step of the plan generation raises an exception, be it a
    call to the generation client (the first, the second or the third),
    the extraction of an answer, or the reading of the subjects or the
    topics, the orchestrator raises that exception: it does not go on,
    does not read the clock and returns no record.  The endpoint then
    answers with status 500 and the text of the exception, and the
    store is left as it was: no record is added.  The same holds for
    every answer of the endpoint that is not the success, and the
    orchestrator raises no exception other than that of a step. *)
Theorem generation_exception_aborts (E : env) (data : request_data) (w : world)
    (text prefs : string) (d : Z) (e : exn) (made : list task)
    (Hreq : read_request data = Return (text, prefs, d))
    (Htext : text <> "") (Hprefs : prefs <> "")
    (Hstep : step_raises E text prefs d (List.length (calls w)) e made) :
  let w1 := {| study_plans := study_plans w;
               calls := calls w ++ made;
               clock_reads := clock_reads w |} in
  create_study_plan E text prefs d w = (Raise e, w1) /\
  generate_plan E data w = (Return (ErrorOf e, 500), w1) /\
  study_plans w1 = study_plans w /\
  (forall b status w', generate_plan E data w = (Return (b, status), w') ->
                       status <> 200 -> study_plans w' = study_plans w) /\
  (forall e' w', create_study_plan E text prefs d w = (Raise e', w') ->
                 exists made', step_raises E text prefs d (List.length (calls w)) e' made').
Proof.
  intros w1. pose proof (step_raises_aborts E text prefs d w e made Hstep) as Hc.
  fold w1 in Hc. repeat apply conj.
  - exact Hc.
  - rewrite generate_plan_outcome. unfold endpoint_outcome.
    now rewrite Hreq, (eqb_nonempty text Htext), (eqb_nonempty prefs Hprefs), Hc.
  - reflexivity.
  - intros b status w'. apply error_answer_stores_nothing.
  - intros e' w'. apply raise_is_step.
Qed.

Lemma generation_exception_aborts_witness :
  let E := failing_at 2 (OtherError "connection refused")
             (fixed_clock "2025-12-03T10:00:00" 1764756000) in
  let data := request "Linear algebra" "I like visual aids" (PInt 28) in
  let w1 := {| study_plans := ∅;
               calls := [SyllabusTask "Linear algebra";
                         ScheduleTask 28 (JArr []) "visual";
                         ResourceTask [] "visual"];
               clock_reads := 0 |} in
  create_study_plan E "Linear algebra" "I like visual aids" 28 empty_world
  = (Raise (OtherError "connection refused"), w1) /\
  generate_plan E data empty_world =
    (Return (ErrorOf (OtherError "connection refused"), 500), w1) /\
  study_plans w1 = study_plans empty_world /\
  (forall b status w', generate_plan E data empty_world = (Return (b, status), w') ->
                       status <> 200 -> study_plans w' = study_plans empty_world) /\
  (forall e' w',
     create_study_plan E "Linear algebra" "I like visual aids" 28 empty_world
     = (Raise e', w') ->
     exists made', step_raises E "Linear algebra" "I like visual aids" 28
                     (List.length (calls empty_world)) e' made').
Proof.
  intros E data w1.
  apply (generation_exception_aborts E data empty_world
           "Linear algebra" "I like visual aids" 28
           (OtherError "connection refused")
           [SyllabusTask "Linear algebra";
            ScheduleTask 28 (JArr []) "visual";
            ResourceTask [] "visual"]).
  - reflexivity.
  - discriminate.
  - discriminate.
  - apply (resource_call_raises E "Linear algebra" "I like visual aids" 28 0
             (OtherError "connection refused") "{}" "{}"
             (JObj []) (JArr []) (JObj []) []); reflexivity.
Defined.

(** C10. When the field [study_duration_days] is present and [int]
    raises on it, as on "abc", the endpoint answers with status 500 and
    the text of an exception, before the two validations, without a call
    to the generation client and without a change of the store.  When
    the field is absent, the duration is 30: the request is read with
    30 as its duration and answered as the same request with the field
    set to 30, and a plan that the request stores and the summary of
    the answer have 30 days. *)
Theorem unconvertible_duration_is_500 (E : env) (d d' : list (string * pyval))
    (w : world) (v : pyval) (e : exn) (s p : string)
    (Hv : dict_lookup d "study_duration_days" = Some v)
    (He : py_int v = Raise e)
    (Habsent : dict_lookup d' "study_duration_days" = None)
    (Hs : dict_get d' "syllabus_text" (PStr "") = PStr s)
    (Hp : dict_get d' "learning_preferences" (PStr "") = PStr p) :
  (exists e', generate_plan E (Fields d) w = (Return (ErrorOf e', 500), w)) /\
  (forall text prefs,
     py_strip (dict_get d "syllabus_text" (PStr "")) = Return text ->
     py_strip (dict_get d "learning_preferences" (PStr "")) = Return prefs ->
     generate_plan E (Fields d) w = (Return (ErrorOf e, 500), w)) /\
  py_int (PStr "abc") = Raise ValueError /\
  bind (data_get (Fields d') "study_duration_days" (PInt 30)) py_int = Return 30 /\
  read_request (Fields d') = Return (Str.strip s, Str.strip p, 30) /\
  generate_plan E (Fields d') w = generate_plan E (request s p (PInt 30)) w /\
  (forall b w', generate_plan E (Fields d') w = (Return (b, 200), w') ->
     exists id created hours style plan,
       b = Success id created 30 hours style /\
       study_plans w' !! id = Some plan /\
       duration_days plan = 30 /\
       progress_tracking plan = generate_progress_tracking_local 30).
Proof.
  assert (Hd : bind (data_get (Fields d) "study_duration_days" (PInt 30)) py_int
               = Raise e).
  { unfold data_get, dict_get. cbn [bind]. now rewrite Hv. }
  assert (Hd' : bind (data_get (Fields d') "study_duration_days" (PInt 30)) py_int
                = Return 30).
  { unfold data_get, dict_get. cbn [bind]. now rewrite Habsent. }
  assert (Hr : read_request (Fields d') = Return (Str.strip s, Str.strip p, 30)).
  { unfold read_request. rewrite Hd'. unfold data_get. cbn [bind].
    now rewrite Hs, Hp. }
  repeat apply conj.
  - rewrite generate_plan_outcome. unfold endpoint_outcome, read_request.
    rewrite Hd.
    destruct (bind (data_get (Fields d) "syllabus_text" (PStr "")) py_strip);
      [|now eexists].
    destruct (bind (data_get (Fields d) "learning_preferences" (PStr "")) py_strip);
      now eexists.
  - intros text prefs Ht Hpr.
    rewrite generate_plan_outcome. unfold endpoint_outcome, read_request.
    rewrite Hd. unfold data_get. cbn [bind]. now rewrite Ht, Hpr.
  - reflexivity.
  - exact Hd'.
  - exact Hr.
  - rewrite !generate_plan_outcome. unfold endpoint_outcome. now rewrite Hr.
  - intros b w'. rewrite generate_plan_outcome. unfold endpoint_outcome. rewrite Hr.
    destruct (String.eqb (Str.strip s) ""); [discriminate|].
    destruct (String.eqb (Str.strip p) ""); [discriminate|].
    destruct (create_study_plan E (Str.strip s) (Str.strip p) 30 w)
      as [[plan|e0] w1] eqn:Ec; [|discriminate].
    pose proof (create_study_plan_returns _ _ _ _ _ _ _ Ec)
      as [Hdur [_ [Hpt _]]].
    cbv zeta. intros H. injection H as <- <-. rewrite Hdur.
    do 4 eexists. exists plan. split; [reflexivity|].
    cbn [stored study_plans]. rewrite lookup_insert_eq. now repeat split.
Qed.

Lemma unconvertible_duration_is_500_witness :
  let E := answering "{}" "{}" "{}" (fixed_clock "2025-12-03T10:00:00" 1764756000) in
  let d := [("syllabus_text", PStr ""); ("learning_preferences", PStr "visual");
            ("study_duration_days", PStr "abc")] in
  let d' := [("syllabus_text", PStr " Linear algebra ");
             ("learning_preferences", PStr "I like visual aids")] in
  (exists e', generate_plan E (Fields d) empty_world
              = (Return (ErrorOf e', 500), empty_world)) /\
  (forall text prefs,
     py_strip (dict_get d "syllabus_text" (PStr "")) = Return text ->
     py_strip (dict_get d "learning_preferences" (PStr "")) = Return prefs ->
     generate_plan E (Fields d) empty_world
     = (Return (ErrorOf ValueError, 500), empty_world)) /\
  py_int (PStr "abc") = Raise ValueError /\
  bind (data_get (Fields d') "study_duration_days" (PInt 30)) py_int = Return 30 /\
  read_request (Fields d')
  = Return (Str.strip " Linear algebra ", Str.strip "I like visual aids", 30) /\
  generate_plan E (Fields d') empty_world
  = generate_plan E (request " Linear algebra " "I like visual aids" (PInt 30))
      empty_world /\
  (forall b w', generate_plan E (Fields d') empty_world = (Return (b, 200), w') ->
     exists id created hours style plan,
       b = Success id created 30 hours style /\
       study_plans w' !! id = Some plan /\
       duration_days plan = 30 /\
       progress_tracking plan = generate_progress_tracking_local 30).
Proof.
  intros E d d'.
  apply (unconvertible_duration_is_500 E d d' empty_world (PStr "abc") ValueError
           " Linear algebra " "I like visual aids");
    reflexivity.
Defined.

(** What the endpoint has done when it answers with a plan. *)
Lemma generate_plan_success (E : env) (data : request_data) (w w' : world)
    (id created : string) (days : Z) (hours : json) (style : string) (status : Z) :
  generate_plan E data w = (Return (Success id created days hours style, status), w') ->
  exists text prefs d plan w1,
    read_request data = Return (text, prefs, d) /\
    text <> "" /\ prefs <> "" /\
    create_study_plan E text prefs d w = (Return plan, w1) /\
    id = plan_id_of (now E (S (clock_reads w))) /\
    days = d /\ status = 200 /\
    w' = stored id plan w1.
Proof.
  rewrite generate_plan_outcome. unfold endpoint_outcome.
  destruct (read_request data) as [[[text prefs] d]|e]; [|discriminate].
  destruct (String.eqb_spec text ""); [discriminate|].
  destruct (String.eqb_spec prefs ""); [discriminate|].
  destruct (create_study_plan E text prefs d w) as [[plan|e] w1] eqn:Ec; [|discriminate].
  pose proof (create_study_plan_returns _ _ _ _ _ _ _ Ec)
    as [Hd [_ [_ [_ [_ [_ [Hck _]]]]]]].
  cbv zeta. rewrite Hck. intros H. injection H as <- _ <- _ _ <- <-.
  exists text, prefs, d, plan, w1. now repeat split.
Qed.

(** C8, as the code has it. Every record that a request stores has the
    duration that [int] gave for the request, or 30 when the field is
    absent, whatever its sign, and its checkpoints are computed from it:
    the endpoint checks only that the two texts are not empty; so the
    stored duration is positive when the requested one is. *)
Theorem stored_duration_is_requested (E : env) (data : request_data) (w w' : world)
    (text prefs : string) (d : Z) (b : body)
    (Hreq : read_request data = Return (text, prefs, d))
    (Hok : generate_plan E data w = (Return (b, 200), w')) :
  exists id plan,
    study_plans w' = <[id := plan]> (study_plans w) /\
    duration_days plan = d /\
    progress_tracking plan = generate_progress_tracking_local d /\
    text <> "" /\ prefs <> "" /\
    (0 < d -> 0 < duration_days plan).
Proof.
  revert Hok. rewrite generate_plan_outcome. unfold endpoint_outcome. rewrite Hreq.
  destruct (String.eqb_spec text ""); [discriminate|].
  destruct (String.eqb_spec prefs ""); [discriminate|].
  destruct (create_study_plan E text prefs d w) as [[plan|e] w1] eqn:Ec; [|discriminate].
  pose proof (create_study_plan_returns _ _ _ _ _ _ _ Ec)
    as [Hd [_ [Hp [_ [_ [Hst _]]]]]].
  cbv zeta. intros H. injection H as _ <-.
  exists (plan_id_of (now E (clock_reads w1))), plan.
  cbn [stored study_plans]. rewrite Hst, Hd. now repeat split.
Qed.

Lemma stored_duration_is_requested_witness :
  let E := answering "{}" "{}" "{}" (fixed_clock "2025-12-03T10:00:00" 1764756000) in
  let data := request "Linear algebra" "I like visual aids" (PInt 28) in
  exists id plan,
    study_plans (snd (generate_plan E data empty_world))
    = <[id := plan]> (study_plans empty_world) /\
    duration_days plan = 28 /\
    progress_tracking plan = generate_progress_tracking_local 28 /\
    "Linear algebra" <> "" /\ "I like visual aids" <> "" /\
    (0 < 28 -> 0 < duration_days plan).
Proof.
  intros E data.
  apply (stored_duration_is_requested E data empty_world
           (snd (generate_plan E data empty_world))
           "Linear algebra" "I like visual aids" 28
           (Success "plan_1764756000" "2025-12-03T10:00:00" 28
              (JStr (ustr_of "N/A")) "visual"));
    reflexivity.
Defined.

(** C8, as the specification states it, fails: a request whose duration
    is not positive passes the endpoint, reaches the checkpoint
    scheduler and is stored. *)
Lemma negative_duration_is_stored :
  let E := answering "{}" "{}" "{}" (fixed_clock "2025-12-03T10:00:00" 1764756000) in
  let data := request "Linear algebra" "I like visual aids" (PInt (-5)) in
  exists plan w',
    generate_plan E data empty_world =
      (Return (Success "plan_1764756000" "2025-12-03T10:00:00" (-5)
                 (JStr (ustr_of "N/A")) "visual", 200), w') /\
    study_plans w' = <["plan_1764756000" := plan]> ∅ /\
    duration_days plan = -5 /\
    progress_tracking plan = generate_progress_tracking_local (-5) /\
    map day (checkpoint_schedule (progress_tracking plan)) = [-5; -5; -5; -5].
Proof.
  intros E data. do 2 eexists. split; [reflexivity|]. cbn [study_plans stored].
  split; [reflexivity|]. repeat split.
Qed.

Lemma of_Z_inj (a b : Z) : Str.of_Z a = Str.of_Z b -> a = b.
Proof.
  assert (H : forall z, NilZero.int_of_string (Str.of_Z z) = Some (Z.to_int z)).
  { intros z. unfold Str.of_Z. apply NilZero.isi.
    - destruct z as [|p|p]; cbn; try discriminate.
      intros H. injection H as H. now apply DecimalPos.Unsigned.to_uint_nonnil in H.
    - destruct z as [|p|p]; cbn; try discriminate.
      intros H. injection H as H. now apply DecimalPos.Unsigned.to_uint_nonnil in H. }
  intros E. apply DecimalZ.to_int_inj.
  pose proof (H a) as Ha. rewrite E, H in Ha. now injection Ha.
Qed.

Lemma plan_id_of_inj (t1 t2 : datetime) :
  plan_id_of t1 = plan_id_of t2 <-> timestamp t1 = timestamp t2.
Proof.
  unfold plan_id_of. split; [|now intros ->].
  cbn [String.append]. intros H. injection H as H. now apply of_Z_inj.
Qed.

(** C9, as the code has it. A request that succeeds stores its record
    under "plan_" and the whole seconds of the clock when it stores,
    in place of a record that is already there, and leaves the other
    records; two identifiers are the same exactly when the whole seconds
    are, so two requests receive distinct identifiers when they store in
    different seconds. *)
Theorem plan_id_is_second_of_storing (E : env) (data : request_data) (w w' : world)
    (id created : string) (days : Z) (hours : json) (style : string)
    (Hok : generate_plan E data w
           = (Return (Success id created days hours style, 200), w')) :
  id = plan_id_of (now E (S (clock_reads w))) /\
  (exists plan, study_plans w' = <[id := plan]> (study_plans w) /\
                study_plans w' !! id = Some plan) /\
  (forall k, k <> id -> study_plans w' !! k = study_plans w !! k) /\
  (forall t1 t2, plan_id_of t1 = plan_id_of t2 <-> timestamp t1 = timestamp t2).
Proof.
  apply generate_plan_success in Hok
    as [text [prefs [d [plan [w1 [_ [_ [_ [Hc [Hid [_ [_ ->]]]]]]]]]]]].
  apply create_study_plan_store in Hc. cbn [stored study_plans]. rewrite Hc.
  split; [exact Hid|]. split; [|split].
  - exists plan. split; [reflexivity | apply lookup_insert_eq].
  - intros k Hk. now apply lookup_insert_ne.
  - apply plan_id_of_inj.
Qed.

Lemma plan_id_is_second_of_storing_witness :
  let E := answering "{}" "{}" "{}" (fixed_clock "2025-12-03T10:00:00" 1764756000) in
  let data := request "Linear algebra" "I like visual aids" (PInt 28) in
  let w' := snd (generate_plan E data empty_world) in
  "plan_1764756000" = plan_id_of (now E (S (clock_reads empty_world))) /\
  (exists plan, study_plans w' = <["plan_1764756000" := plan]> (study_plans empty_world) /\
                study_plans w' !! "plan_1764756000" = Some plan) /\
  (forall k, k <> "plan_1764756000" ->
             study_plans w' !! k = study_plans empty_world !! k) /\
  (forall t1 t2, plan_id_of t1 = plan_id_of t2 <-> timestamp t1 = timestamp t2).
Proof.
  intros E data w'.
  apply (plan_id_is_second_of_storing E data empty_world w'
           "plan_1764756000" "2025-12-03T10:00:00" 28 (JStr (ustr_of "N/A")) "visual").
  reflexivity.
Defined.

(** C9, as the specification states it, fails: two requests that store
    within the same second receive the same identifier, and the record
    of the second takes the place of the record of the first. *)
Lemma same_second_overwrites :
  let E := answering "{}" "{}" "{}" (fixed_clock "2025-12-03T10:00:00" 1764756000) in
  let first := generate_plan E (request "Linear algebra" "I like visual aids" (PInt 28))
                 empty_world in
  let second := generate_plan E (request "Geometry" "hands-on work" (PInt 14))
                  (snd first) in
  let plan1 := example_plan "I like visual aids" 28 in
  let plan2 := example_plan "hands-on work" 14 in
  fst first = Return (Success "plan_1764756000" "2025-12-03T10:00:00" 28
                        (JStr (ustr_of "N/A")) "visual", 200) /\
  fst second = Return (Success "plan_1764756000" "2025-12-03T10:00:00" 14
                         (JStr (ustr_of "N/A")) "kinesthetic", 200) /\
  study_plans (snd first) = <["plan_1764756000" := plan1]> ∅ /\
  study_plans (snd second) = <["plan_1764756000" := plan2]> ∅ /\
  study_plans (snd second) !! "plan_1764756000" = Some plan2 /\
  duration_days plan1 = 28 /\ duration_days plan2 = 14.
Proof.
  intros E first second plan1 plan2.
  assert (H1 : first = (Return (Success "plan_1764756000" "2025-12-03T10:00:00" 28
                                  (JStr (ustr_of "N/A")) "visual", 200),
                        stored "plan_1764756000" plan1
                          {| study_plans := ∅;
                             calls := [SyllabusTask "Linear algebra";
                                       ScheduleTask 28 (JArr []) "visual";
                                       ResourceTask [] "visual"];
                             clock_reads := 1 |})) by reflexivity.
  assert (H2 : second = (Return (Success "plan_1764756000" "2025-12-03T10:00:00" 14
                                   (JStr (ustr_of "N/A")) "kinesthetic", 200),
                         stored "plan_1764756000" plan2
                           {| study_plans := <["plan_1764756000" := plan1]> ∅;
                              calls := [SyllabusTask "Linear algebra";
                                        ScheduleTask 28 (JArr []) "visual";
                                        ResourceTask [] "visual";
                                        SyllabusTask "Geometry";
                                        ScheduleTask 14 (JArr []) "kinesthetic";
                                        ResourceTask [] "kinesthetic"];
                              clock_reads := 3 |})).
  { unfold second. rewrite H1. reflexivity. }
  rewrite H1, H2. cbn [fst snd stored study_plans].
  repeat apply conj; try reflexivity.
Qed.

(** * Further properties of the code *)

(** ** Preference classifier *)

Lemma lower_char_idem (c : ascii) :
  Str.lower_char (Str.lower_char c) = Str.lower_char c.
Proof. destruct c as [[] [] [] [] [] [] [] []]; reflexivity. Qed.

Lemma lower_idem (s : string) : Str.lower (Str.lower s) = Str.lower s.
Proof.
  induction s as [|c s IH]; [reflexivity|]. cbn [Str.lower].
  now rewrite lower_char_idem, IH.
Qed.

(** X1. The classification does not depend on the case of the letters:
    the text and its lower-cased form get the same result. *)
Theorem classifier_ignores_case (prefs_text : string) :
  analyze_learning_preferences_local (Str.lower prefs_text) =
  analyze_learning_preferences_local prefs_text.
Proof. unfold analyze_learning_preferences_local. now rewrite lower_idem. Qed.

Lemma contains_extend (kw a t b : string) :
  Str.contains kw t = true -> Str.contains kw (a ++ t ++ b) = true.
Proof.
  rewrite !contains_iff. intros [x [y ->]]. exists (a ++ x), (y ++ b).
  now rewrite !append_assoc.
Qed.

(** X2. Text put before or after the preferences can only move the
    category up the order visual, auditory, kinesthetic,
    reading-writing; a text classified visual stays visual. *)
Theorem classifier_extension_moves_up (a t b : string) :
  (style_rank (primary_learning_style (analyze_learning_preferences_local (a ++ t ++ b)))
   <= style_rank (primary_learning_style (analyze_learning_preferences_local t)))%nat /\
  (primary_learning_style (analyze_learning_preferences_local t) = "visual" ->
   primary_learning_style (analyze_learning_preferences_local (a ++ t ++ b)) = "visual").
Proof.
  unfold analyze_learning_preferences_local. cbn [primary_learning_style].
  rewrite !lower_append.
  set (la := Str.lower a). set (lt := Str.lower t). set (lb := Str.lower b).
  pose proof (contains_extend "visual" la lt lb) as H1.
  pose proof (contains_extend "audio" la lt lb) as H2.
  pose proof (contains_extend "auditory" la lt lb) as H3.
  pose proof (contains_extend "kinesthetic" la lt lb) as H4.
  pose proof (contains_extend "hands" la lt lb) as H5.
  destruct (Str.contains "visual" lt) eqn:V1,
           (Str.contains "visual" (la ++ lt ++ lb)) eqn:V2;
    try discriminate (H1 eq_refl);
  destruct (Str.contains "audio" lt) eqn:A1,
           (Str.contains "audio" (la ++ lt ++ lb)) eqn:A2;
    try discriminate (H2 eq_refl);
  destruct (Str.contains "auditory" lt) eqn:B1,
           (Str.contains "auditory" (la ++ lt ++ lb)) eqn:B2;
    try discriminate (H3 eq_refl);
  destruct (Str.contains "kinesthetic" lt) eqn:K1,
           (Str.contains "kinesthetic" (la ++ lt ++ lb)) eqn:K2;
    try discriminate (H4 eq_refl);
  destruct (Str.contains "hands" lt) eqn:N1,
           (Str.contains "hands" (la ++ lt ++ lb)) eqn:N2;
    try discriminate (H5 eq_refl);
  cbn; (split; [lia | first [reflexivity | discriminate]]).
Qed.

(** ** Checkpoint scheduler *)

(** X3. For every duration, of any sign, there are four checkpoints,
    their days do not decrease and none is after the last day; for a
    positive duration the first day is positive. *)
Theorem checkpoint_days_ordered (d : Z) :
  exists d1 d2 d3 d4,
    checkpoint_days d = [d1; d2; d3; d4] /\
    d1 <= d2 <= d3 /\ d3 <= d4 <= d /\
    (0 < d -> 0 < d1).
Proof.
  unfold checkpoint_days, generate_progress_tracking_local, make_checkpoint.
  cbn [checkpoint_schedule map day].
  do 4 eexists. split; [reflexivity|]. lia.
Qed.

(** X4. From 28 days on no checkpoint is clamped: the days are the
    multiples of a quarter of the duration, rounded down, they increase
    strictly, and the last one is at most three days before the end. *)
Theorem checkpoint_days_long (d : Z) (Hd : 28 <= d) :
  let q := d / 4 in
  checkpoint_days d = [q; 2 * q; 3 * q; 4 * q] /\
  7 <= q /\ q < 2 * q < 3 * q /\ 3 * q < 4 * q /\ d - 3 <= 4 * q <= d.
Proof.
  intros q. subst q.
  pose proof (Z.div_mod d 4 ltac:(lia)) as Hdm.
  pose proof (Z.mod_pos_bound d 4 ltac:(lia)) as Hb.
  unfold checkpoint_days, generate_progress_tracking_local, make_checkpoint.
  cbn [checkpoint_schedule map day].
  split; [|lia].
  rewrite (Z.max_r 7 (d / 4)) by lia.
  repeat f_equal; lia.
Qed.

Lemma checkpoint_days_long_witness :
  let q := 30 / 4 in
  28 <= 30 /\
  checkpoint_days 30 = [q; 2 * q; 3 * q; 4 * q] /\
  7 <= q /\ q < 2 * q < 3 * q /\ 3 * q < 4 * q /\ 30 - 3 <= 4 * q <= 30.
Proof.
  split; [discriminate | apply (checkpoint_days_long 30); discriminate].
Defined.

(** X5. Below 7 days, zero and negative durations included, the four
    checkpoints all fall on the day that is the duration itself. *)
Theorem checkpoint_days_short (d : Z) (Hd : d < 7) :
  checkpoint_days d = [d; d; d; d].
Proof.
  pose proof (Z.div_mod d 4 ltac:(lia)) as Hdm.
  pose proof (Z.mod_pos_bound d 4 ltac:(lia)) as Hb.
  unfold checkpoint_days, generate_progress_tracking_local, make_checkpoint.
  cbn [checkpoint_schedule map day].
  rewrite (Z.max_l 7 (d / 4)) by lia.
  repeat f_equal; lia.
Qed.

Lemma checkpoint_days_short_witness :
  5 < 7 /\ checkpoint_days 5 = [5; 5; 5; 5].
Proof.
  split; [reflexivity | apply (checkpoint_days_short 5); reflexivity].
Defined.

(** ** Response extractor *)

Lemma rstrip_empty_head (p : ascii -> bool) (c : ascii) (r : string) :
  Str.rstrip_with p (String c r) = "" -> p c = true.
Proof.
  cbn [Str.rstrip_with]. destruct (Str.rstrip_with p r); [|discriminate].
  now destruct (p c).
Qed.

Lemma lstrip_head (p : ascii -> bool) (s : string) (c : ascii) (r : string) :
  Str.lstrip_with p s = String c r -> p c = false.
Proof.
  induction s as [|x s IH]; [discriminate|]. cbn [Str.lstrip_with].
  destruct (p x) eqn:E; [exact IH|]. intros H. now injection H as <- _.
Qed.

Lemma blank_lstrip (s : string) : blank s -> Str.lstrip_with Str.isspace s = "".
Proof.
  unfold blank, Str.strip, Str.strip_with. intros H.
  destruct (Str.lstrip_with Str.isspace s) as [|c r] eqn:E; [reflexivity|].
  apply rstrip_empty_head in H. apply lstrip_head in E. congruence.
Qed.

Lemma lstrip_empty_rstrip (p : ascii -> bool) (s : string) :
  Str.lstrip_with p s = "" -> Str.rstrip_with p s = "".
Proof.
  induction s as [|c s IH]; [reflexivity|]. cbn [Str.lstrip_with Str.rstrip_with].
  destruct (p c); [|discriminate]. intros H. now rewrite (IH H).
Qed.

Lemma lstrip_app_blank (p : ascii -> bool) (a s : string) :
  Str.lstrip_with p a = "" -> Str.lstrip_with p (a ++ s) = Str.lstrip_with p s.
Proof.
  induction a as [|c a IH]; [reflexivity|]. cbn [String.append Str.lstrip_with].
  destruct (p c); [exact IH | discriminate].
Qed.

Lemma lstrip_app_visible (p : ascii -> bool) (t b : string) (c : ascii) (r : string) :
  Str.lstrip_with p t = String c r ->
  Str.lstrip_with p (t ++ b) = String c r ++ b.
Proof.
  induction t as [|x t IH]; [discriminate|]. cbn [String.append Str.lstrip_with].
  destruct (p x); [exact IH|]. intros H. injection H as <- <-. reflexivity.
Qed.

Lemma strip_padded (a t b : string) :
  blank a -> blank b -> Str.strip (a ++ t ++ b) = Str.strip t.
Proof.
  intros Ha Hb. apply blank_lstrip in Ha. apply blank_lstrip in Hb.
  unfold Str.strip, Str.strip_with. rewrite lstrip_app_blank by exact Ha.
  destruct (Str.lstrip_with Str.isspace t) as [|c r] eqn:E.
  - rewrite lstrip_app_blank by exact E. now rewrite Hb.
  - rewrite (lstrip_app_visible _ _ _ _ _ E).
    apply rstrip_blank_app. now apply lstrip_empty_rstrip.
Qed.

Lemma defence_strip_eq (t1 t2 : string) :
  Str.strip t1 = Str.strip t2 -> defence t1 = defence t2.
Proof. intros H. unfold defence. now rewrite H. Qed.

(** X6. White space around the text of the response does not matter:
    the extractor gives the same result, value, sentinel or exception,
    with and without it. *)
Theorem extract_ignores_padding (a t b : string) (Ha : blank a) (Hb : blank b) :
  extract_json_from_response (a ++ t ++ b) = extract_json_from_response t.
Proof.
  unfold extract_json_from_response.
  now rewrite (defence_strip_eq (a ++ t ++ b) t (strip_padded a t b Ha Hb)).
Qed.

Lemma extract_ignores_padding_witness :
  let a := String Str.newline "  " in
  let b := String "009" (String Str.newline "") in
  blank a /\ blank b /\
  extract_json_from_response (a ++ "[1, 2]" ++ b) = extract_json_from_response "[1, 2]".
Proof.
  intros a b. split; [reflexivity|]. split; [reflexivity|].
  apply (extract_ignores_padding a "[1, 2]" b); reflexivity.
Defined.

Lemma rstrip_app (p : ascii -> bool) (B : string) : forall A,
  Str.rstrip_with p (A ++ B) =
  match Str.rstrip_with p B with
  | "" => Str.rstrip_with p A
  | String x y => A ++ String x y
  end.
Proof.
  induction A as [|c A IH].
  - cbn [String.append Str.rstrip_with]. now destruct (Str.rstrip_with p B).
  - cbn [String.append Str.rstrip_with]. rewrite IH.
    destruct (Str.rstrip_with p B) as [|x y]; [reflexivity|]. now destruct A.
Qed.

Lemma rstrip_idem (p : ascii -> bool) (s : string) :
  Str.rstrip_with p (Str.rstrip_with p s) = Str.rstrip_with p s.
Proof.
  induction s as [|c s IH]; [reflexivity|]. cbn [Str.rstrip_with].
  destruct (Str.rstrip_with p s) as [|x y] eqn:E.
  - destruct (p c) eqn:Ec; [reflexivity|]. cbn. now rewrite Ec.
  - cbn [Str.rstrip_with]. cbn [Str.rstrip_with] in IH. now rewrite IH.
Qed.

Lemma strip_idem (s : string) : Str.strip (Str.strip s) = Str.strip s.
Proof.
  unfold Str.strip, Str.strip_with.
  destruct (Str.lstrip_with Str.isspace s) as [|c r] eqn:E; [reflexivity|].
  apply lstrip_head in E.
  destruct (rstrip_head Str.isspace c r) as [-> | [r' Hr]]; [reflexivity|].
  rewrite Hr. cbn [Str.lstrip_with]. rewrite E, <- Hr. apply rstrip_idem.
Qed.

Lemma defence_fenced_trailing (tag s r : string) :
  Str.split_lines tag = [tag] -> Clean s ->
  Str.strip (fenced tag s ++ String Str.newline r) = fenced tag s ++ String Str.newline r ->
  defence (fenced tag s ++ String Str.newline r) = Str.strip s.
Proof.
  intros Ht Hs Hst. unfold defence. rewrite Hst.
  assert (Hsw : Str.startswith fence (fenced tag s ++ String Str.newline r) = true)
    by reflexivity.
  rewrite Hsw, split_lines_app_newline, split_lines_fenced by exact Ht.
  assert (Hff : find_fences 0
                  (((fence ++ tag)%string :: (Str.split_lines s ++ [fence])%list)
                     ++ Str.split_lines r)%list None
                = (Some 1%nat, Some (S (List.length (Str.split_lines s))))).
  { cbn [find_fences app].
    pose proof (fence_tag_is_fence_line tag) as Hf. unfold is_fence_line in Hf.
    rewrite Hf, <- app_assoc. rewrite find_fences_skip by now apply Clean_no_fence_line.
    reflexivity. }
  rewrite Hff. cbn [truthy andb index_or_0 app].
  rewrite <- app_assoc. now rewrite slice_between, join_split_lines.
Qed.

(** X7. Whatever follows the closing fence on later lines is ignored,
    and the round trip holds for every JSON value, not only for
    objects: the extractor gives the value of the text between the
    fences. *)
Theorem text_after_closing_fence_is_ignored (tag s rest : string) (v : json)
    (Htag : Str.split_lines tag = [tag])
    (Hs : Json.loads s = Return v) :
  extract_json_from_response (fenced tag s ++ String Str.newline rest) = Return v /\
  extract_json_from_response (fenced tag s) = Return v.
Proof.
  split; [|now apply extract_fenced].
  unfold extract_json_from_response.
  assert (Hd : defence (fenced tag s ++ String Str.newline rest) = Str.strip s).
  { set (text := fenced tag s ++ String Str.newline rest).
    rewrite (defence_strip_eq text (Str.strip text)) by now rewrite strip_idem.
    assert (Hc : Str.strip text = fenced tag s \/
                 exists r, Str.strip text = fenced tag s ++ String Str.newline r).
    { unfold Str.strip, Str.strip_with.
      assert (Hl : Str.lstrip_with Str.isspace text = text) by reflexivity.
      rewrite Hl. unfold text. rewrite rstrip_app.
      cbn [Str.rstrip_with].
      destruct (Str.rstrip_with Str.isspace rest) as [|x y].
      - left. change (Str.isspace Str.newline) with true. cbv iota.
        pose proof (strip_fenced tag s) as Hf.
        unfold Str.strip, Str.strip_with in Hf.
        assert (Hl2 : Str.lstrip_with Str.isspace (fenced tag s) = fenced tag s)
          by reflexivity.
        now rewrite Hl2 in Hf.
      - right. now eexists. }
    destruct Hc as [Hc | [r Hc]].
    - rewrite Hc. apply defence_fenced; [exact Htag | now apply loads_Clean with v].
    - pose proof (strip_idem text) as Hi. rewrite Hc in *.
      apply defence_fenced_trailing; [exact Htag | now apply loads_Clean with v | exact Hi]. }
  now rewrite Hd, (loads_strip s v Hs).
Qed.

Lemma text_after_closing_fence_is_ignored_witness :
  let rest := "Let me know if you need more." ++ String Str.newline "```" in
  extract_json_from_response (fenced "json" "[1, 2]" ++ String Str.newline rest)
  = Return (JArr [JInt 1; JInt 2]) /\
  extract_json_from_response (fenced "json" "[1, 2]") = Return (JArr [JInt 1; JInt 2]).
Proof.
  intros rest.
  apply (text_after_closing_fence_is_ignored "json" "[1, 2]" rest); reflexivity.
Defined.

(** ** Plan orchestrator *)

Lemma map_result_length {A B} (f : A -> result B) (l : list A) (l' : list B) :
  map_result f l = Return l' -> List.length l' = List.length l.
Proof.
  revert l'. induction l as [|x l IH]; intros l'.
  - intros H. now injection H as <-.
  - cbn [map_result]. destruct (f x); [|discriminate]. cbn [bind].
    destruct (map_result f l) as [ys|]; [|discriminate]. cbn [bind].
    intros H. injection H as <-. cbn [List.length]. now rewrite (IH ys eq_refl).
Qed.

Lemma take_length (n : nat) : forall s, (String.length (Str.take n s) <= n)%nat.
Proof.
  induction n as [|n IH]; intros s; [cbn; lia|].
  destruct s as [|c r]; cbn [Str.take String.length]; [lia|].
  specialize (IH r). lia.
Qed.

Lemma take_prefix (n : nat) : forall s, exists rest, s = Str.take n s ++ rest.
Proof.
  induction n as [|n IH]; intros s; [now exists s|].
  destruct s as [|c r]; [now exists ""|].
  destruct (IH r) as [rest Hr]. exists rest. cbn [Str.take String.append].
  now rewrite <- Hr.
Qed.

Lemma iter_slice_length (n : nat) (v first : json) (items : list json) :
  py_slice n v = Return first -> py_iter first = Return items ->
  (List.length items <= n)%nat.
Proof.
  destruct v; try discriminate; cbn [py_slice]; intros H; injection H as <-;
    cbn [py_iter]; intros H; injection H as <-.
  - rewrite List.length_map. apply List.firstn_le_length.
  - apply List.firstn_le_length.
Qed.

(** What the orchestrator has asked and received when it returns a
    record. *)
Lemma create_study_plan_inv (E : env) (text prefs : string) (d : Z)
    (w w1 : world) (plan : study_plan) :
  create_study_plan E text prefs d w = (Return plan, w1) ->
  let style := primary_learning_style (analyze_learning_preferences_local prefs) in
  let n := List.length (calls w) in
  exists raw1 subjects raw2 topics raw3,
    kickoff E n (SyllabusTask (Str.take 2000 text)) = Return raw1 /\
    extract_json_from_response raw1 = Return (syllabus_analysis plan) /\
    subjects_of (syllabus_analysis plan) = Return subjects /\
    kickoff E (S n) (ScheduleTask d subjects style) = Return raw2 /\
    extract_json_from_response raw2 = Return (schedule plan) /\
    topics_of (syllabus_analysis plan) = Return topics /\
    kickoff E (S (S n)) (ResourceTask topics style) = Return raw3 /\
    extract_json_from_response raw3 = Return (resources plan) /\
    calls w1 = (calls w ++ [SyllabusTask (Str.take 2000 text);
                            ScheduleTask d subjects style;
                            ResourceTask topics style])%list.
Proof.
  unfold create_study_plan, try_except, mbind, run_crew, lift, datetime_now, ret, raise.
  cbn [calls study_plans clock_reads]. rewrite !length_snoc.
  destruct (kickoff E _ _) as [raw1|] eqn:K1; [|discriminate].
  destruct (extract_json_from_response raw1) as [syl|] eqn:X1; [|discriminate].
  destruct (subjects_of syl) as [subj|] eqn:Es; [|discriminate].
  destruct (kickoff E _ (ScheduleTask _ _ _)) as [raw2|] eqn:K2; [|discriminate].
  destruct (extract_json_from_response raw2) as [sched|] eqn:X2; [|discriminate].
  destruct (topics_of syl) as [topics|] eqn:Et; [|discriminate].
  destruct (kickoff E _ (ResourceTask _ _)) as [raw3|] eqn:K3; [|discriminate].
  destruct (extract_json_from_response raw3) as [res|] eqn:X3; [|discriminate].
  intros H. injection H as <- <-. cbn.
  rewrite !length_snoc in K3.
  exists raw1, subj, raw2, topics, raw3.
  rewrite <- !app_assoc. now repeat split.
Qed.

(** X8. What the orchestrator sends to the generation client when it
    returns a record: three tasks, in this order: the first 2000
    characters of the syllabus text at most; the duration, the first two
    subjects of the syllabus analysis at most, and the learning style;
    the names of its first three subjects at most, and the learning
    style.  The subjects and the names are read from the record's own
    syllabus analysis. *)
Theorem orchestrator_tasks (E : env) (text prefs : string) (d : Z)
    (w w1 : world) (plan : study_plan)
    (Hplan : create_study_plan E text prefs d w = (Return plan, w1)) :
  let style := primary_learning_style (analyze_learning_preferences_local prefs) in
  exists subjects items topics rest,
    calls w1 = (calls w ++ [SyllabusTask (Str.take 2000 text);
                            ScheduleTask d subjects style;
                            ResourceTask topics style])%list /\
    text = Str.take 2000 text ++ rest /\
    (String.length (Str.take 2000 text) <= 2000)%nat /\
    subjects_of (syllabus_analysis plan) = Return subjects /\
    py_iter subjects = Return items /\ (List.length items <= 2)%nat /\
    topics_of (syllabus_analysis plan) = Return topics /\
    (List.length topics <= 3)%nat.
Proof.
  intros style.
  destruct (create_study_plan_inv _ _ _ _ _ _ _ Hplan)
    as [raw1 [subjects [raw2 [topics [raw3 [_ [_ [Hs [_ [_ [Ht [_ [_ Hc]]]]]]]]]]]]].
  destruct (take_prefix 2000 text) as [rest Hrest].
  assert (Hit : exists items, py_iter subjects = Return items /\
                              (List.length items <= 2)%nat /\
                              (List.length topics <= 3)%nat).
  { revert Hs Ht. unfold subjects_of, topics_of.
    destruct (py_get (syllabus_analysis plan) "subjects" (JArr [])) as [v|];
      [|discriminate].
    cbn [bind]. intros Hs.
    destruct (py_slice 3 v) as [first3|] eqn:E3; [|discriminate]. cbn [bind].
    destruct (py_iter first3) as [items3|] eqn:I3; [|discriminate]. cbn [bind].
    destruct (map_result _ items3) as [names|] eqn:En; [|discriminate]. cbn [bind].
    intros Ht. apply map_result_length in Ht, En.
    pose proof (iter_slice_length 3 v first3 items3 E3 I3) as H3.
    destruct v; try discriminate; cbn [py_slice] in Hs; injection Hs as <-;
      eexists; (split; [reflexivity|]); split; try lia.
    - rewrite List.length_map. apply List.firstn_le_length.
    - apply List.firstn_le_length. }
  destruct Hit as [items [Hi [H2 H3]]].
  exists subjects, items, topics, rest.
  repeat apply conj; try assumption. apply take_length.
Qed.

Lemma orchestrator_tasks_witness :
  let E := answering ("{" ++ quoted "subjects" ++ ": [{" ++ quoted "name" ++ ": "
                          ++ quoted "Algebra" ++ "}]}") "{}" "{}"
             (fixed_clock "2025-12-03T10:00:00" 1764756000) in
  let out := create_study_plan E "Linear algebra" "I like visual aids" 28 empty_world in
  let plan := match fst out with
              | Return plan => plan
              | Raise _ => example_plan "" 0
              end in
  exists subjects items topics rest,
    calls (snd out) = (calls empty_world ++ [SyllabusTask (Str.take 2000 "Linear algebra");
                                             ScheduleTask 28 subjects "visual";
                                             ResourceTask topics "visual"])%list /\
    "Linear algebra" = Str.take 2000 "Linear algebra" ++ rest /\
    (String.length (Str.take 2000 "Linear algebra") <= 2000)%nat /\
    subjects_of (syllabus_analysis plan) = Return subjects /\
    py_iter subjects = Return items /\ (List.length items <= 2)%nat /\
    topics_of (syllabus_analysis plan) = Return topics /\
    (List.length topics <= 3)%nat.
Proof.
  intros E out plan.
  apply (orchestrator_tasks E "Linear algebra" "I like visual aids" 28
           empty_world (snd out) plan).
  reflexivity.
Defined.

(** X9. An answer to the syllabus task that is valid JSON but not an
    object, such as an array, ends the orchestration: reading its
    subjects raises [AttributeError] after the one call to the
    generation client, the clock is not read, and the endpoint answers
    with status 500. *)
Theorem non_object_syllabus_aborts (E : env) (data : request_data) (w : world)
    (text prefs : string) (d : Z) (raw1 : string) (v : json)
    (Hreq : read_request data = Return (text, prefs, d))
    (Htext : text <> "") (Hprefs : prefs <> "")
    (Hk1 : kickoff E (List.length (calls w)) (SyllabusTask (Str.take 2000 text))
           = Return raw1)
    (Hx1 : extract_json_from_response raw1 = Return v)
    (Hv : forall o, v <> JObj o) :
  let w1 := {| study_plans := study_plans w;
               calls := calls w ++ [SyllabusTask (Str.take 2000 text)];
               clock_reads := clock_reads w |} in
  create_study_plan E text prefs d w = (Raise AttributeError, w1) /\
  generate_plan E data w = (Return (ErrorOf AttributeError, 500), w1).
Proof.
  intros w1.
  assert (Hc : create_study_plan E text prefs d w = (Raise AttributeError, w1)).
  { unfold create_study_plan, try_except, mbind, run_crew, lift, raise.
    cbn [calls study_plans clock_reads]. rewrite Hk1, Hx1.
    destruct v as [ | b | z | f | u | l | o ]; try reflexivity. now destruct (Hv o). }
  split; [exact Hc|].
  rewrite generate_plan_outcome. unfold endpoint_outcome.
  now rewrite Hreq, (eqb_nonempty text Htext), (eqb_nonempty prefs Hprefs), Hc.
Qed.

Lemma non_object_syllabus_aborts_witness :
  let E := answering "[1, 2]" "{}" "{}" (fixed_clock "2025-12-03T10:00:00" 1764756000) in
  let data := request "Linear algebra" "I like visual aids" (PInt 28) in
  let w1 := {| study_plans := ∅;
               calls := [SyllabusTask "Linear algebra"];
               clock_reads := 0 |} in
  create_study_plan E "Linear algebra" "I like visual aids" 28 empty_world
  = (Raise AttributeError, w1) /\
  generate_plan E data empty_world = (Return (ErrorOf AttributeError, 500), w1).
Proof.
  intros E data w1.
  apply (non_object_syllabus_aborts E data empty_world
           "Linear algebra" "I like visual aids" 28 "[1, 2]"
           (JArr [JInt 1; JInt 2]));
    first [reflexivity | discriminate | intros o; discriminate].
Defined.

(** X10. Whatever the outcome of the orchestrator, it leaves the store
    as it was, it makes one, two or three calls to the generation
    client, the first of them with the excerpt of the syllabus text, and
    it reads the clock once when it returns a record and not at all
    when it raises. *)
Theorem orchestrator_effects (E : env) (text prefs : string) (d : Z) (w : world) :
  let out := create_study_plan E text prefs d w in
  study_plans (snd out) = study_plans w /\
  (exists rest,
     calls (snd out) = (calls w ++ SyllabusTask (Str.take 2000 text) :: rest)%list /\
     (List.length rest <= 2)%nat) /\
  clock_reads (snd out) = match fst out with
                          | Return _ => S (clock_reads w)
                          | Raise _ => clock_reads w
                          end.
Proof.
  intros out. unfold out. clear out.
  destruct (create_study_plan E text prefs d w) as [r w1] eqn:H.
  cbn [fst snd]. revert H.
  unfold create_study_plan, try_except, mbind, run_crew, lift, datetime_now, ret, raise.
  cbn [calls study_plans clock_reads].
  repeat match goal with
    | |- context [match ?x with Return _ => _ | Raise _ => _ end] => destruct x
    end; intros H; try discriminate H; injection H as ? ?; subst;
    cbn [calls study_plans clock_reads];
    (split; [reflexivity|]); (split; [|reflexivity]);
    rewrite <- ?app_assoc; cbn [app]; eexists; (split; [reflexivity|]); cbn; lia.
Qed.

(** ** Endpoint [generate_plan] *)

(** X11. When the three fields can be read and the syllabus text or the
    learning preferences are empty or white space only, or absent, the
    endpoint answers with status 400 without a call to the generation
    client and without a change of the state; the syllabus text is
    checked first, so its message is the one given when both are
    missing. *)
Theorem missing_text_is_400 (E : env) (d : list (string * pyval)) (w : world)
    (s p : string) (z : Z)
    (Hs : dict_get d "syllabus_text" (PStr "") = PStr s)
    (Hp : dict_get d "learning_preferences" (PStr "") = PStr p)
    (Hz : py_int (dict_get d "study_duration_days" (PInt 30)) = Return z)
    (Hb : blank s \/ blank p) :
  generate_plan E (Fields d) w =
    (Return (Error (if String.eqb (Str.strip s) "" then "Syllabus text is required"
                    else "Learning preferences are required"), 400), w).
Proof.
  rewrite generate_plan_outcome. unfold endpoint_outcome, read_request, data_get.
  cbn [bind]. rewrite Hs, Hp. cbn [py_strip bind]. rewrite Hz. cbn [bind].
  destruct (String.eqb_spec (Str.strip s) "") as [_|Hn]; [reflexivity|].
  destruct Hb as [Hb|Hb]; [contradiction|]. unfold blank in Hb. now rewrite Hb.
Qed.

Lemma missing_text_is_400_witness :
  let E := answering "{}" "{}" "{}" (fixed_clock "2025-12-03T10:00:00" 1764756000) in
  let d := [("syllabus_text", PStr "Linear algebra");
            ("learning_preferences", PStr (String Str.newline "  "))] in
  generate_plan E (Fields d) empty_world =
    (Return (Error "Learning preferences are required", 400), empty_world) /\
  generate_plan E (Fields []) empty_world =
    (Return (Error "Syllabus text is required", 400), empty_world).
Proof.
  intros E d. split.
  - apply (missing_text_is_400 E d empty_world "Linear algebra"
             (String Str.newline "  ") 30); first [reflexivity | now right].
  - apply (missing_text_is_400 E [] empty_world "" "" 30);
      first [reflexivity | now left].
Defined.

(** X12. The endpoint answers every request and never raises: with a
    plan, status 200 and the record stored under the identifier it
    names; with one of the two messages, status 400 and the state as it
    was; or with the text of an exception, status 500 and the store as
    it was. *)
Theorem endpoint_always_answers (E : env) (data : request_data) (w : world) :
  exists b status w',
    generate_plan E data w = (Return (b, status), w') /\
    match b with
    | Success id _ _ _ _ => status = 200 /\ is_Some (study_plans w' !! id)
    | Error _ => status = 400 /\ w' = w
    | ErrorOf _ => status = 500 /\ study_plans w' = study_plans w
    end.
Proof.
  rewrite generate_plan_outcome. unfold endpoint_outcome.
  destruct (read_request data) as [[[text prefs] d]|e].
  - destruct (String.eqb text ""); [now do 3 eexists|].
    destruct (String.eqb prefs ""); [now do 3 eexists|].
    destruct (create_study_plan E text prefs d w) as [[plan|e] w1] eqn:Ec.
    + do 3 eexists. split; [reflexivity|]. split; [reflexivity|].
      cbn [stored study_plans]. rewrite lookup_insert_eq. now eexists.
    + do 3 eexists. split; [reflexivity|]. split; [reflexivity|].
      now apply create_study_plan_store in Ec.
  - now do 3 eexists.
Qed.

(** X13. A request whose body is not a dict, or whose syllabus text or
    learning preferences are not a str, is answered with status 500 and
    the text of an [AttributeError], without a call to the generation
    client and without a change of the state, whatever the other fields
    are. *)
Theorem malformed_body_is_500 (E : env) (d : list (string * pyval)) (w : world)
    (Hd : is_str (dict_get d "syllabus_text" (PStr ""))
          && is_str (dict_get d "learning_preferences" (PStr "")) = false) :
  generate_plan E (Fields d) w = (Return (ErrorOf AttributeError, 500), w) /\
  generate_plan E NotADict w = (Return (ErrorOf AttributeError, 500), w).
Proof.
  split; [|reflexivity].
  rewrite generate_plan_outcome. unfold endpoint_outcome, read_request, data_get.
  cbn [bind].
  destruct (dict_get d "syllabus_text" (PStr "")); try reflexivity.
  destruct (dict_get d "learning_preferences" (PStr "")); try reflexivity.
  discriminate Hd.
Qed.

Lemma malformed_body_is_500_witness :
  let E := answering "{}" "{}" "{}" (fixed_clock "2025-12-03T10:00:00" 1764756000) in
  let d := [("syllabus_text", PStr "Linear algebra");
            ("learning_preferences", PList);
            ("study_duration_days", PStr "abc")] in
  generate_plan E (Fields d) empty_world
  = (Return (ErrorOf AttributeError, 500), empty_world) /\
  generate_plan E NotADict empty_world
  = (Return (ErrorOf AttributeError, 500), empty_world).
Proof.
  intros E d. apply (malformed_body_is_500 E d empty_world). reflexivity.
Defined.

(** ** Endpoints [get_plan] and [download_pdf] after [generate_plan] *)

(** X14. A plan that the endpoint answered with can be read back: under
    the identifier of the answer [get_plan] finds a record, with status
    200, whose creation time, duration, learning style and total hours
    are those of the summary in the answer, and [download_pdf] does not
    answer 404; for every other identifier both endpoints answer as
    they did before the request. *)
Theorem stored_plan_is_retrievable (E : env) (F : fpdf) (data : request_data)
    (w w' : world) (id created : string) (days : Z) (hours : json) (style : string)
    (Hok : generate_plan E data w
           = (Return (Success id created days hours style, 200), w')) :
  exists plan,
    get_plan id w' = (PlanFound plan, 200) /\
    created_at plan = created /\
    duration_days plan = days /\
    primary_learning_style (learning_analysis plan) = style /\
    py_get (syllabus_analysis plan) "total_estimated_hours" (JStr (ustr_of "N/A"))
    = Return hours /\
    snd (download_pdf F id w') <> 404 /\
    forall k, k <> id ->
      get_plan k w' = get_plan k w /\ download_pdf F k w' = download_pdf F k w.
Proof.
  revert Hok. rewrite generate_plan_outcome. unfold endpoint_outcome.
  destruct (read_request data) as [[[text prefs] d]|e]; [|discriminate].
  destruct (String.eqb text ""); [discriminate|].
  destruct (String.eqb prefs ""); [discriminate|].
  destruct (create_study_plan E text prefs d w) as [[plan|e] w1] eqn:Ec; [|discriminate].
  pose proof (create_study_plan_returns _ _ _ _ _ _ _ Ec)
    as [_ [_ [_ [_ [[o Ho] [Hst _]]]]]].
  cbv zeta. intros H. injection H. intros. subst.
  exists plan. unfold get_plan, download_pdf. cbn [stored study_plans].
  rewrite !lookup_insert_eq. repeat apply conj; try reflexivity.
  - rewrite Ho. cbn [py_get summary_hours].
    now destruct (dict_find o (ustr_of "total_estimated_hours")).
  - now destruct (generate_study_plan_pdf F plan).
  - intros k Hk. rewrite !lookup_insert_ne by congruence. rewrite Hst.
    now split.
Qed.

Lemma stored_plan_is_retrievable_witness :
  let E := answering ("{" ++ quoted "total_estimated_hours" ++ ": 100}") "{}" "{}"
             (fixed_clock "2025-12-03T10:00:00" 1764756000) in
  let F := {| fpdf_call := fun _ _ => Return tt; fpdf_output := fun _ => Return [] |} in
  let data := request "Linear algebra" "I like visual aids" (PInt 28) in
  let w' := snd (generate_plan E data empty_world) in
  exists plan,
    get_plan "plan_1764756000" w' = (PlanFound plan, 200) /\
    created_at plan = "2025-12-03T10:00:00" /\
    duration_days plan = 28 /\
    primary_learning_style (learning_analysis plan) = "visual" /\
    py_get (syllabus_analysis plan) "total_estimated_hours" (JStr (ustr_of "N/A"))
    = Return (JInt 100) /\
    snd (download_pdf F "plan_1764756000" w') <> 404 /\
    forall k, k <> "plan_1764756000" ->
      get_plan k w' = get_plan k empty_world /\
      download_pdf F k w' = download_pdf F k empty_world.
Proof.
  intros E F data w'.
  apply (stored_plan_is_retrievable E F data empty_world w'
           "plan_1764756000" "2025-12-03T10:00:00" 28 (JInt 100) "visual").
  reflexivity.
Defined.

(** One request changes the store by at most one record, which is well
    formed and stored under the identifier made from the second reading
    of the clock that the request makes; a request that stores nothing
    does not read the clock. *)
Lemma generate_plan_step (E : env) (data : request_data) (w : world) :
  let w1 := snd (generate_plan E data w) in
  (study_plans w1 = study_plans w /\ clock_reads w1 = clock_reads w) \/
  exists plan, well_formed plan /\
    study_plans w1 = <[plan_id_of (now E (S (clock_reads w))) := plan]> (study_plans w) /\
    clock_reads w1 = S (S (clock_reads w)).
Proof.
  cbv zeta. rewrite generate_plan_outcome. unfold endpoint_outcome.
  destruct (read_request data) as [[[text prefs] d]|e]; [|now left].
  destruct (String.eqb text ""); [now left|].
  destruct (String.eqb_spec prefs "") as [|Hprefs]; [now left|].
  destruct (create_study_plan E text prefs d w) as [[plan|e] w1] eqn:Ec.
  - pose proof (create_study_plan_returns _ _ _ _ _ _ _ Ec)
      as [Hd [Hl [Hp [_ [Ho [Hst [Hck _]]]]]]].
    right. exists plan. cbn [snd stored study_plans clock_reads].
    rewrite Hst, Hck. split; [|now split].
    split; [exact Ho|]. split; [now rewrite Hp, Hd|]. now exists prefs.
  - left. cbn [snd].
    destruct (raise_is_step _ _ _ _ _ _ _ Ec) as [made Hstep].
    rewrite (step_raises_aborts _ _ _ _ _ _ _ Hstep) in Ec.
    injection Ec as <-. now split.
Qed.

(** X15. An invariant of the store over any sequence of requests served
    one after another: when every record of the store is well formed
    (its syllabus analysis is a dict, its checkpoints are those of its
    duration, its learning analysis is that of a text that is not
    empty), the same holds after the requests; no record is ever
    removed; every new identifier is "plan_" and the whole seconds of a
    reading of the clock of the environment, one of the readings made
    while the requests were served; the clock is never set back; and
    the store has grown by at most one record for each request. *)
Theorem store_invariant (E : env) (reqs : list request_data) (w : world)
    (Hw : forall id plan, study_plans w !! id = Some plan -> well_formed plan) :
  let w' := after E reqs w in
  (forall id plan, study_plans w' !! id = Some plan -> well_formed plan) /\
  (forall id, is_Some (study_plans w !! id) -> is_Some (study_plans w' !! id)) /\
  (forall id, study_plans w !! id = None -> is_Some (study_plans w' !! id) ->
              exists n, (clock_reads w < n < clock_reads w')%nat /\
                        id = plan_id_of (now E n)) /\
  (clock_reads w <= clock_reads w')%nat /\
  (size (study_plans w') <= size (study_plans w) + List.length reqs)%nat.
Proof.
  revert w Hw. induction reqs as [|data reqs IH]; intros w Hw; cbn [after].
  - cbv zeta. repeat apply conj.
    + exact Hw.
    + trivial.
    + intros id Hn [x Hx]. congruence.
    + lia.
    + lia.
  - set (w1 := snd (generate_plan E data w)).
    assert (H1 : (forall id plan, study_plans w1 !! id = Some plan -> well_formed plan) /\
                 (forall id, is_Some (study_plans w !! id) ->
                             is_Some (study_plans w1 !! id)) /\
                 (forall id, study_plans w !! id = None ->
                             is_Some (study_plans w1 !! id) ->
                             exists n, (clock_reads w < n < clock_reads w1)%nat /\
                                       id = plan_id_of (now E n)) /\
                 (clock_reads w <= clock_reads w1)%nat /\
                 (size (study_plans w1) <= S (size (study_plans w)))%nat).
    { destruct (generate_plan_step E data w) as [[Heq Hck] | [plan [Hwf [Heq Hck]]]];
        fold w1 in Heq, Hck; rewrite Heq, Hck.
      - repeat apply conj.
        + exact Hw.
        + trivial.
        + intros id Hn [x Hx]. congruence.
        + lia.
        + lia.
      - repeat apply conj.
        + intros id p.
          destruct (decide (plan_id_of (now E (S (clock_reads w))) = id)) as [<-|Hne].
          * rewrite lookup_insert_eq. intros H. now injection H as <-.
          * rewrite lookup_insert_ne by exact Hne. apply Hw.
        + intros id His. apply lookup_insert_is_Some'. now right.
        + intros id Hn His. apply lookup_insert_is_Some' in His as [<-|[x Hx]].
          * exists (S (clock_reads w)). split; [lia | reflexivity].
          * congruence.
        + lia.
        + rewrite map_size_insert.
          destruct (study_plans w !! plan_id_of (now E (S (clock_reads w)))); cbn; lia. }
    destruct H1 as [Hwf1 [Hkeep1 [Hnew1 [Hclock1 Hsize1]]]].
    destruct (IH w1 Hwf1) as [Hwf [Hkeep [Hnew [Hclock Hsize]]]].
    cbv zeta. repeat apply conj.
    + exact Hwf.
    + intros id His. apply Hkeep, Hkeep1, His.
    + intros id Hn His. destruct (study_plans w1 !! id) as [p|] eqn:E1.
      * destruct (Hnew1 id Hn) as [n [Hn1 Hid]]; [now exists p|].
        exists n. split; [lia | exact Hid].
      * destruct (Hnew id E1 His) as [n [Hn1 Hid]].
        exists n. split; [lia | exact Hid].
    + lia.
    + cbn [List.length]. lia.
Qed.

Lemma store_invariant_witness :
  let E := answering "{}" "[1, 2]" "{}" (fixed_clock "2025-12-03T10:00:00" 1764756000) in
  let reqs := [request "Linear algebra" "I like visual aids" (PInt 28);
               request "" "hands-on work" (PInt 14);
               request "Geometry" "hands-on work" (PInt 14)] in
  let w' := after E reqs empty_world in
  (forall id plan, study_plans w' !! id = Some plan -> well_formed plan) /\
  (forall id, is_Some (study_plans empty_world !! id) -> is_Some (study_plans w' !! id)) /\
  (forall id, study_plans empty_world !! id = None -> is_Some (study_plans w' !! id) ->
              exists n, (clock_reads empty_world < n < clock_reads w')%nat /\
                        id = plan_id_of (now E n)) /\
  (clock_reads empty_world <= clock_reads w')%nat /\
  (size (study_plans w') <= size (study_plans empty_world) + List.length reqs)%nat.
Proof.
  intros E reqs w'.
  apply (store_invariant E reqs empty_world).
  intros id plan H. cbn [empty_world study_plans] in H.
  rewrite lookup_empty in H. discriminate H.
Defined.

(** ** PDF report *)

Lemma Grows_weaken {A} (m : P A) (lo hi clo chi lo' hi' clo' chi' : nat) :
  Grows m lo hi clo chi ->
  (lo' <= lo)%nat -> (hi <= hi')%nat -> (clo' <= clo)%nat -> (chi <= chi')%nat ->
  Grows m lo' hi' clo' chi'.
Proof.
  intros H H1 H2 H3 H4 log. destruct (H log) as [new [E [Hh [Hc Hl]]]].
  exists new. split; [exact E|]. split; [lia|]. split; [lia|].
  intros a Ha. destruct (Hl a Ha). lia.
Qed.

Lemma Grows_pret {A} (a : A) : Grows (pret a) 0 0 0 0.
Proof.
  intros log. exists []. cbn. rewrite app_nil_r. repeat split; lia.
Qed.

Lemma Grows_plift {A} (r : result A) : Grows (plift r) 0 0 0 0.
Proof.
  intros log. exists []. cbn. rewrite app_nil_r. repeat split; lia.
Qed.

Lemma Grows_pdf (F : fpdf) (c : pdf_call) :
  Grows (pdf F c) 1 1 (if is_cell c then 1 else 0) (if is_cell c then 1 else 0).
Proof.
  intros log. exists [c]. unfold pdf, cells. cbn [fst snd List.filter List.length].
  split; [reflexivity|]. destruct (is_cell c); cbn; repeat split; lia.
Qed.

Lemma Grows_pbind {A B} (m : P A) (k : A -> P B)
    (lo1 hi1 clo1 chi1 lo2 hi2 clo2 chi2 : nat) :
  Grows m lo1 hi1 clo1 chi1 -> (forall a, Grows (k a) lo2 hi2 clo2 chi2) ->
  Grows (pbind m k) (lo1 + lo2) (hi1 + hi2) (clo1 + clo2) (chi1 + chi2).
Proof.
  intros Hm Hk log. destruct (Hm log) as [n1 [E1 [H1 [C1 L1]]]].
  unfold pbind. destruct (m log) as [[a|e] log1]; cbn [fst snd] in *; subst log1.
  - destruct (Hk a (log ++ n1)%list) as [n2 [E2 [H2 [C2 L2]]]].
    exists (n1 ++ n2)%list. rewrite E2, app_assoc. split; [reflexivity|].
    unfold cells in *. rewrite List.filter_app, !List.length_app.
    split; [lia|]. split; [lia|].
    intros b Hb. destruct (L1 a eq_refl). destruct (L2 b Hb). lia.
  - exists n1. split; [reflexivity|]. split; [lia|]. split; [lia|].
    intros b Hb. discriminate Hb.
Qed.

Lemma Grows_plift_bind {A B} (r : result A) (k : A -> P B) (lo hi clo chi : nat) :
  (forall a, r = Return a -> Grows (k a) lo hi clo chi) ->
  Grows (pbind (plift r) k) lo hi clo chi.
Proof.
  intros H log. unfold pbind, plift. destruct r as [a|e].
  - apply (H a eq_refl log).
  - exists []. cbn. rewrite app_nil_r. split; [reflexivity|].
    split; [lia|]. split; [lia|]. intros a Ha. discriminate Ha.
Qed.

Lemma Grows_pfor {A} (body : A -> P unit) (k c : nat) :
  (forall x, Grows (body x) 0 k 0 c) ->
  forall l, Grows (pfor l body) 0 (List.length l * k) 0 (List.length l * c).
Proof.
  intros Hb l. induction l as [|x l IH]; cbn [pfor List.length Nat.mul].
  - apply Grows_pret.
  - apply (Grows_pbind _ _ 0 k 0 c 0 _ 0 _ (Hb x)). intros _. exact IH.
Qed.

Lemma Grows_cell (F : fpdf) (w h : Z) (txt : list piece) (align : string) :
  Grows (pdf F (Cell w h txt align)) 0 1 0 1.
Proof. eapply Grows_weaken; [apply (Grows_pdf F) | cbn; lia ..]. Qed.

Lemma subject_lines_Grows (F : fpdf) (syllabus : json) :
  Grows (subject_lines F syllabus) 0 3 0 3.
Proof.
  unfold subject_lines.
  apply Grows_plift_bind. intros subjects _.
  apply Grows_plift_bind. intros first3 H3.
  apply Grows_plift_bind. intros items Hi.
  pose proof (iter_slice_length 3 _ _ _ H3 Hi) as Hlen.
  eapply Grows_weaken; [apply (Grows_pfor _ 1 1)| lia ..].
  intros subject. apply Grows_plift_bind. intros name _. apply Grows_cell.
Qed.

Lemma session_lines_Grows (F : fpdf) (day : json) :
  Grows (session_lines F day) 0 2 0 2.
Proof.
  unfold session_lines.
  apply Grows_plift_bind. intros sessions _.
  apply Grows_plift_bind. intros first2 H2.
  apply Grows_plift_bind. intros items Hi.
  pose proof (iter_slice_length 2 _ _ _ H2 Hi) as Hlen.
  eapply Grows_weaken; [apply (Grows_pfor _ 1 1)| lia ..].
  intros session. apply Grows_plift_bind. intros time _.
  apply Grows_plift_bind. intros topic _. apply Grows_cell.
Qed.

Lemma day_lines_Grows (F : fpdf) (sched : json) :
  Grows (day_lines F sched) 0 9 0 9.
Proof.
  unfold day_lines.
  apply Grows_plift_bind. intros days _.
  apply Grows_plift_bind. intros first3 H3.
  apply Grows_plift_bind. intros items Hi.
  pose proof (iter_slice_length 3 _ _ _ H3 Hi) as Hlen.
  eapply Grows_weaken; [apply (Grows_pfor _ 3 3)| lia ..].
  intros day. apply Grows_plift_bind. intros number _.
  apply Grows_plift_bind. intros date _.
  eapply Grows_weaken;
    [eapply Grows_pbind; [apply Grows_cell | intros _; apply session_lines_Grows]
    | cbn; lia ..].
Qed.

Lemma report_Grows (F : fpdf) (plan : study_plan) :
  Grows (report F plan) 21 34 7 20.
Proof.
  unfold report.
  eapply Grows_weaken.
  - do 12 (eapply Grows_pbind; [apply (Grows_pdf F) | intros _]).
    eapply Grows_pbind; [apply Grows_plift | intros failed].
    eapply Grows_pbind.
    { instantiate (1 := 4%nat). instantiate (1 := 0%nat).
      instantiate (1 := 4%nat). instantiate (1 := 0%nat).
      destruct failed.
      - eapply Grows_weaken; [apply Grows_pret | lia ..].
      - apply Grows_plift_bind. intros hours _.
        eapply Grows_weaken;
          [eapply Grows_pbind; [apply Grows_cell | intros _; apply subject_lines_Grows]
          | cbn; lia ..]. }
    intros _.
    do 9 (eapply Grows_pbind; [apply (Grows_pdf F) | intros _]).
    eapply Grows_pbind; [apply Grows_plift | intros failed2].
    instantiate (1 := 9%nat). instantiate (1 := 0%nat).
    instantiate (1 := 9%nat). instantiate (1 := 0%nat).
    destruct failed2.
    + eapply Grows_weaken; [apply Grows_pret | lia ..].
    + apply day_lines_Grows.
  - cbn. lia.
  - cbn. lia.
  - cbn. lia.
  - cbn. lia.
Qed.

(** X16. The report has a bounded size whatever the plan holds: at most
    34 calls are made on the document, of which at most 20 write a cell,
    because at most three subjects, three days and two sessions of a day
    are printed; when all calls succeed there are at least 21, of which
    7 write a cell. *)
Theorem report_is_bounded (F : fpdf) (plan : study_plan) :
  let out := report F plan [] in
  (List.length (snd out) <= 34)%nat /\
  (List.length (cells (snd out)) <= 20)%nat /\
  (forall u, fst out = Return u ->
     (21 <= List.length (snd out))%nat /\ (7 <= List.length (cells (snd out)))%nat).
Proof.
  intros out. destruct (report_Grows F plan []) as [new [E [Hh [Hc Hl]]]].
  fold out in E, Hl. cbn [app] in E. rewrite E.
  split; [exact Hh|]. split; [exact Hc | exact Hl].
Qed.

(** X17. When the syllabus analysis and the schedule of a plan both
    carry the key "error", as the sentinel of the extractor does, and
    the document accepts every call, the report is the frame alone: 21
    calls, and seven cells with the title, the day of creation, the
    duration, the three headings and the learning style; nothing of
    either analysis is printed. *)
Theorem failed_analyses_give_bare_report (F : fpdf) (plan : study_plan)
    (HF : quiet F)
    (Hs : py_in "error" (syllabus_analysis plan) = Return true)
    (Hd : py_in "error" (schedule plan) = Return true) :
  exists log,
    report F plan [] = (Return tt, log) /\
    generate_study_plan_pdf F plan = fpdf_output F log /\
    List.length log = 21%nat /\
    cells log =
      [Cell 0 10 [Text "Personalized Study Plan"] "C";
       Cell 0 5 [Text "Created: "; Text (Str.take 10 (created_at plan))] "";
       Cell 0 5 [Text "Duration: "; Text (Str.of_Z (duration_days plan));
                 Text " days"] "";
       Cell 0 8 [Text "1. Syllabus Overview"] "";
       Cell 0 8 [Text "2. Learning Approach"] "";
       Cell 0 6 [Text "Style: ";
                 Text (primary_learning_style (learning_analysis plan))] "";
       Cell 0 8 [Text "3. Schedule (First 3 Days)"] ""].
Proof.
  assert (Hr : exists log, report F plan [] = (Return tt, log) /\
                 List.length log = 21%nat /\
                 cells log =
                   [Cell 0 10 [Text "Personalized Study Plan"] "C";
                    Cell 0 5 [Text "Created: "; Text (Str.take 10 (created_at plan))] "";
                    Cell 0 5 [Text "Duration: "; Text (Str.of_Z (duration_days plan));
                              Text " days"] "";
                    Cell 0 8 [Text "1. Syllabus Overview"] "";
                    Cell 0 8 [Text "2. Learning Approach"] "";
                    Cell 0 6 [Text "Style: ";
                              Text (primary_learning_style (learning_analysis plan))] "";
                    Cell 0 8 [Text "3. Schedule (First 3 Days)"] ""]).
  { unfold report, pbind, pdf, plift, pret. rewrite Hs, Hd.
    repeat (rewrite HF; cbv beta iota). cbn [app].
    eexists. split; [reflexivity|]. split; reflexivity. }
  destruct Hr as [log [Hr [Hl Hc]]]. exists log.
  unfold generate_study_plan_pdf. rewrite Hr. now repeat split.
Qed.

Lemma failed_analyses_give_bare_report_witness :
  let F := {| fpdf_call := fun _ _ => Return tt; fpdf_output := fun _ => Return [] |} in
  let plan :=
    {| created_at := "2025-12-03T10:00:00";
       duration_days := 28;
       syllabus_analysis := sentinel;
       learning_analysis := analyze_learning_preferences_local "I like visual aids";
       schedule := sentinel;
       resources := JObj [];
       progress_tracking := generate_progress_tracking_local 28 |} in
  exists log,
    report F plan [] = (Return tt, log) /\
    generate_study_plan_pdf F plan = fpdf_output F log /\
    List.length log = 21%nat /\
    cells log =
      [Cell 0 10 [Text "Personalized Study Plan"] "C";
       Cell 0 5 [Text "Created: "; Text (Str.take 10 (created_at plan))] "";
       Cell 0 5 [Text "Duration: "; Text (Str.of_Z (duration_days plan));
                 Text " days"] "";
       Cell 0 8 [Text "1. Syllabus Overview"] "";
       Cell 0 8 [Text "2. Learning Approach"] "";
       Cell 0 6 [Text "Style: ";
                 Text (primary_learning_style (learning_analysis plan))] "";
       Cell 0 8 [Text "3. Schedule (First 3 Days)"] ""].
Proof.
  intros F plan.
  apply (failed_analyses_give_bare_report F plan);
    first [reflexivity | intros log c; reflexivity].
Defined.

Lemma Raises_pbind {A B} (m : P A) (k : A -> P B) :
  (forall a, Raises (k a)) -> Raises (pbind m k).
Proof.
  intros H log. unfold pbind.
  destruct (m log) as [[a|e] log1]; [apply H | now do 2 eexists].
Qed.

Lemma report_raises (F : fpdf) (plan : study_plan) :
  (forall o, schedule plan <> JObj o) ->
  py_in "error" (schedule plan) <> Return true ->
  Raises (report F plan).
Proof.
  intros Hobj Herr. unfold report.
  do 23 (apply Raises_pbind; intros ?).
  intros log. unfold pbind, plift.
  destruct (py_in "error" (schedule plan)) as [[|]|e] eqn:Ein.
  - now destruct Herr.
  - unfold day_lines, pbind, plift.
    destruct (schedule plan) as [ | b | z | f | u | l | o ];
      try (now do 2 eexists).
    now destruct (Hobj o).
  - now do 2 eexists.
Qed.

(** X18. A stored plan whose schedule is not a dict and does not hold
    "error", as when the answer to the schedule task was a JSON array,
    can be read with [get_plan] but never downloaded: whatever the
    document object does, the report raises, at the latest where the
    days of the schedule are read, and [download_pdf] answers with
    status 500. *)
Theorem non_object_schedule_blocks_pdf (F : fpdf) (id : string) (w : world)
    (plan : study_plan)
    (Hid : study_plans w !! id = Some plan)
    (Hobj : forall o, schedule plan <> JObj o)
    (Herr : py_in "error" (schedule plan) <> Return true) :
  get_plan id w = (PlanFound plan, 200) /\
  exists e, generate_study_plan_pdf F plan = Raise e /\
            download_pdf F id w = (PdfError e, 500).
Proof.
  unfold get_plan, download_pdf. rewrite Hid. split; [reflexivity|].
  destruct (report_raises F plan Hobj Herr []) as [e [log Hr]].
  exists e. unfold generate_study_plan_pdf. rewrite Hr. now split.
Qed.

Lemma non_object_schedule_blocks_pdf_witness :
  let E := answering "{}" "[1, 2]" "{}" (fixed_clock "2025-12-03T10:00:00" 1764756000) in
  let F := {| fpdf_call := fun _ _ => Return tt; fpdf_output := fun _ => Return [] |} in
  let data := request "Linear algebra" "I like visual aids" (PInt 28) in
  let w := snd (generate_plan E data empty_world) in
  let plan :=
    {| created_at := "2025-12-03T10:00:00";
       duration_days := 28;
       syllabus_analysis := JObj [];
       learning_analysis := analyze_learning_preferences_local "I like visual aids";
       schedule := JArr [JInt 1; JInt 2];
       resources := JObj [];
       progress_tracking := generate_progress_tracking_local 28 |} in
  fst (generate_plan E data empty_world)
  = Return (Success "plan_1764756000" "2025-12-03T10:00:00" 28
              (JStr (ustr_of "N/A")) "visual", 200) /\
  get_plan "plan_1764756000" w = (PlanFound plan, 200) /\
  exists e, generate_study_plan_pdf F plan = Raise e /\
            download_pdf F "plan_1764756000" w = (PdfError e, 500).
Proof.
  intros E F data w plan. split; [reflexivity|].
  apply (non_object_schedule_blocks_pdf F "plan_1764756000" w plan).
  - reflexivity.
  - intros o. discriminate.
  - discriminate.
Defined.

(** X19. The report is made from five things only: the first ten
    characters of the creation time, the duration, the syllabus
    analysis, the learning style and the schedule.  Two plans that agree
    on these give the same calls and the same document; the resources,
    the checkpoints, the recommended methods and the time of day of the
    creation are not printed. *)
Theorem report_shows_five_fields (F : fpdf) (p q : study_plan)
    (Hc : Str.take 10 (created_at p) = Str.take 10 (created_at q))
    (Hd : duration_days p = duration_days q)
    (Hs : syllabus_analysis p = syllabus_analysis q)
    (Hl : primary_learning_style (learning_analysis p)
          = primary_learning_style (learning_analysis q))
    (Hsch : schedule p = schedule q) :
  report F p = report F q /\
  generate_study_plan_pdf F p = generate_study_plan_pdf F q.
Proof.
  assert (Hr : report F p = report F q).
  { unfold report. now rewrite Hc, Hd, Hs, Hl, Hsch. }
  split; [exact Hr|]. unfold generate_study_plan_pdf. now rewrite Hr.
Qed.

Lemma report_shows_five_fields_witness :
  let F := {| fpdf_call := fun _ _ => Return tt;
              fpdf_output := fun log => Return (repeat Byte.x25 (List.length log)) |} in
  let p :=
    {| created_at := "2025-12-03T10:00:00";
       duration_days := 28;
       syllabus_analysis := JObj [];
       learning_analysis := analyze_learning_preferences_local "I like visual aids";
       schedule := JObj [];
       resources := JObj [];
       progress_tracking := generate_progress_tracking_local 28 |} in
  let q :=
    {| created_at := "2025-12-03T23:59:59";
       duration_days := 28;
       syllabus_analysis := JObj [];
       learning_analysis := analyze_learning_preferences_local "a VISUAL learner";
       schedule := JObj [];
       resources := JArr [JInt 1];
       progress_tracking := generate_progress_tracking_local 56 |} in
  report F p = report F q /\
  generate_study_plan_pdf F p = generate_study_plan_pdf F q.
Proof.
  intros F p q. apply (report_shows_five_fields F p q); reflexivity.
Defined.

(** ** The duration of a request *)

Lemma int_isspace_isspace (c : ascii) : int_isspace c = true -> Str.isspace c = true.
Proof.
  destruct c as [[] [] [] [] [] [] [] []]; try discriminate; reflexivity.
Qed.

Lemma rstrip_with_plain (p : ascii -> bool) (s : string) :
  (forall c, p c = true -> Str.isspace c = true) ->
  plain s = true -> Str.rstrip_with p s = s.
Proof.
  intros Hp. induction s as [|c r IH]; [reflexivity|].
  cbn [plain Str.rstrip_with]. intros H.
  apply andb_true_iff in H as [H Hr]. apply andb_true_iff in H as [_ Hc].
  rewrite (IH Hr). destruct r; [|reflexivity].
  destruct (p c) eqn:Epc; [|reflexivity].
  apply Hp in Epc. now rewrite Epc in Hc.
Qed.

Lemma strip_with_plain (p : ascii -> bool) (s : string) :
  (forall c, p c = true -> Str.isspace c = true) ->
  plain s = true -> Str.strip_with p s = s.
Proof.
  intros Hp H. unfold Str.strip_with.
  assert (Hl : Str.lstrip_with p s = s).
  { destruct s as [|c r]; [reflexivity|]. cbn [Str.lstrip_with].
    destruct (p c) eqn:Epc; [|reflexivity].
    cbn [plain] in H. apply andb_true_iff in H as [H _].
    apply andb_true_iff in H as [_ Hc]. apply Hp in Epc. now rewrite Epc in Hc. }
  rewrite Hl. now apply rstrip_with_plain.
Qed.

Lemma uint_plain (d : Decimal.uint) : plain (NilEmpty.string_of_uint d) = true.
Proof. induction d; cbn [NilEmpty.string_of_uint plain]; [reflexivity | exact IHd ..]. Qed.

Lemma int_digits_digit (c : ascii) (r : string) (prev : bool) (acc : Z) (count : nat) :
  Json.is_digit c = true ->
  int_digits (String c r) prev acc count
  = int_digits r true (10 * acc + Json.digit_val c) (S count).
Proof. intros H. cbn [int_digits]. now rewrite H. Qed.

Lemma int_digits_acc (d : Decimal.uint) : forall acc count,
  int_digits (NilEmpty.string_of_uint d) true (Z.pos acc) count
  = Some (Z.pos (Pos.of_uint_acc d acc),
          (count + String.length (NilEmpty.string_of_uint d))%nat).
Proof.
  induction d; intros acc count;
    cbn [NilEmpty.string_of_uint Pos.of_uint_acc String.length];
    [cbn [int_digits]; now rewrite Nat.add_0_r | ..];
    (rewrite int_digits_digit by reflexivity;
     match goal with
     | |- context [Json.digit_val ?c] =>
         let v := eval vm_compute in (Json.digit_val c) in
         change (Json.digit_val c) with v
     end;
     match goal with
     | |- int_digits _ true ?v _ = Some (Z.pos (Pos.of_uint_acc _ ?a), _) =>
         replace v with (Z.pos a) by lia
     end;
     rewrite IHd; do 2 f_equal; lia).
Qed.

Lemma int_digits_lead (d : Decimal.uint) : forall prev count,
  d <> Decimal.Nil \/ prev = true ->
  int_digits (NilEmpty.string_of_uint d) prev 0 count
  = Some (Z.of_N (Pos.of_uint d),
          (count + String.length (NilEmpty.string_of_uint d))%nat).
Proof.
  induction d; intros prev count H;
    cbn [NilEmpty.string_of_uint Pos.of_uint String.length].
  - destruct H as [H | ->]; [congruence|]. cbn [int_digits]. now rewrite Nat.add_0_r.
  - rewrite int_digits_digit by reflexivity.
    change (10 * 0 + Json.digit_val "0") with 0.
    rewrite IHd by now right. do 2 f_equal. lia.
  - rewrite int_digits_digit by reflexivity.
    change (10 * 0 + Json.digit_val "1") with (Z.pos 1).
    rewrite int_digits_acc. cbn [Z.of_N]. do 2 f_equal. lia.
  - rewrite int_digits_digit by reflexivity.
    change (10 * 0 + Json.digit_val "2") with (Z.pos 2).
    rewrite int_digits_acc. cbn [Z.of_N]. do 2 f_equal. lia.
  - rewrite int_digits_digit by reflexivity.
    change (10 * 0 + Json.digit_val "3") with (Z.pos 3).
    rewrite int_digits_acc. cbn [Z.of_N]. do 2 f_equal. lia.
  - rewrite int_digits_digit by reflexivity.
    change (10 * 0 + Json.digit_val "4") with (Z.pos 4).
    rewrite int_digits_acc. cbn [Z.of_N]. do 2 f_equal. lia.
  - rewrite int_digits_digit by reflexivity.
    change (10 * 0 + Json.digit_val "5") with (Z.pos 5).
    rewrite int_digits_acc. cbn [Z.of_N]. do 2 f_equal. lia.
  - rewrite int_digits_digit by reflexivity.
    change (10 * 0 + Json.digit_val "6") with (Z.pos 6).
    rewrite int_digits_acc. cbn [Z.of_N]. do 2 f_equal. lia.
  - rewrite int_digits_digit by reflexivity.
    change (10 * 0 + Json.digit_val "7") with (Z.pos 7).
    rewrite int_digits_acc. cbn [Z.of_N]. do 2 f_equal. lia.
  - rewrite int_digits_digit by reflexivity.
    change (10 * 0 + Json.digit_val "8") with (Z.pos 8).
    rewrite int_digits_acc. cbn [Z.of_N]. do 2 f_equal. lia.
  - rewrite int_digits_digit by reflexivity.
    change (10 * 0 + Json.digit_val "9") with (Z.pos 9).
    rewrite int_digits_acc. cbn [Z.of_N]. do 2 f_equal. lia.
Qed.

(** [int] on the decimal numeral of a positive number, with or without
    a minus sign before it. *)
Lemma int_of_str_numeral (neg : bool) (p : positive) :
  let s := NilEmpty.string_of_uint (Pos.to_uint p) in
  (String.length s <= Json.int_max_str_digits)%nat ->
  int_of_str (if neg then String "-" s else s)
  = Return (if neg then Z.neg p else Z.pos p).
Proof.
  intros s Hlen. unfold int_of_str.
  assert (Hplain : plain (if neg then String "-" s else s) = true).
  { destruct neg; [cbn [plain]|]; apply uint_plain. }
  rewrite (strip_with_plain _ _ int_isspace_isspace Hplain).
  assert (Hd : int_digits s false 0 0 = Some (Z.pos p, String.length s)).
  { unfold s. rewrite int_digits_lead by (left; apply DecimalPos.Unsigned.to_uint_nonnil).
    now rewrite DecimalPos.Unsigned.of_to. }
  assert (Hlim : (Json.int_max_str_digits <? String.length s)%nat = false)
    by now apply Nat.ltb_ge.
  destruct neg.
  - cbv beta iota. rewrite Hd, Hlim. reflexivity.
  - assert (Hs : exists c r, s = String c r /\ Json.is_digit c = true).
    { unfold s. pose proof (DecimalPos.Unsigned.to_uint_nonnil p) as Hn.
      destruct (Pos.to_uint p); [congruence | ..];
        cbn [NilEmpty.string_of_uint]; now do 2 eexists. }
    destruct Hs as [c [r [Hs Hc]]]. rewrite Hs in *.
    assert (Hsign : (let '(neg, t1) :=
                       match String c r with
                       | String "-" r0 => (true, r0)
                       | String "+" r0 => (false, r0)
                       | _ => (false, String c r)
                       end in
                     match int_digits t1 false 0 0 with
                     | Some (z, count) =>
                         if (Json.int_max_str_digits <? count)%nat
                         then Raise ValueError
                         else Return (if neg then - z else z)
                     | None => Raise ValueError
                     end)
                    = match int_digits (String c r) false 0 0 with
                      | Some (z, count) =>
                          if (Json.int_max_str_digits <? count)%nat
                          then Raise ValueError
                          else Return z
                      | None => Raise ValueError
                      end).
    { destruct c as [[] [] [] [] [] [] [] []]; try discriminate Hc; reflexivity. }
    rewrite Hsign, Hd, Hlim. reflexivity.
Qed.

(** X20. The duration of a request is read back from its decimal
    numeral, as a form sends it: for every integer whose numeral has at
    most 4300 digits, [int] of the numeral is the integer, negative
    ones included, and the endpoint reads the three fields as the two
    trimmed texts and that integer. *)
Theorem decimal_duration_is_read (text prefs : string) (z : Z)
    (Hz : (String.length (Str.of_Z (Z.abs z)) <= 4300)%nat) :
  py_int (PStr (Str.of_Z z)) = Return z /\
  read_request (request text prefs (PStr (Str.of_Z z)))
  = Return (Str.strip text, Str.strip prefs, z).
Proof.
  assert (Hnz : forall p, NilZero.string_of_uint (Pos.to_uint p)
                          = NilEmpty.string_of_uint (Pos.to_uint p)).
  { intros p. pose proof (DecimalPos.Unsigned.to_uint_nonnil p) as Hn.
    now destruct (Pos.to_uint p). }
  assert (Hint : py_int (PStr (Str.of_Z z)) = Return z).
  { cbn [py_int]. destruct z as [|p|p].
    - reflexivity.
    - change (String.length (NilZero.string_of_uint (Pos.to_uint p)) <= 4300)%nat in Hz.
      change (Str.of_Z (Z.pos p)) with (NilZero.string_of_uint (Pos.to_uint p)).
      rewrite Hnz in *. exact (int_of_str_numeral false p Hz).
    - change (String.length (NilZero.string_of_uint (Pos.to_uint p)) <= 4300)%nat in Hz.
      change (Str.of_Z (Z.neg p))
        with (String "-" (NilZero.string_of_uint (Pos.to_uint p))).
      rewrite Hnz in *. exact (int_of_str_numeral true p Hz). }
  split; [exact Hint|].
  unfold read_request, request, data_get, dict_get. cbn [dict_lookup String.eqb].
  cbn [bind py_strip]. cbn [py_int] in Hint.
  change (bind (py_int (PStr (Str.of_Z z)))
            (fun duration => Return (Str.strip text, Str.strip prefs, duration))
          = Return (Str.strip text, Str.strip prefs, z)).
  cbn [py_int]. now rewrite Hint.
Qed.

Lemma decimal_duration_is_read_witness :
  py_int (PStr (Str.of_Z (-14))) = Return (-14) /\
  read_request (request " Linear algebra " "visual" (PStr (Str.of_Z (-14))))
  = Return (Str.strip " Linear algebra ", Str.strip "visual", -14).
Proof.
  apply (decimal_duration_is_read " Linear algebra " "visual" (-14)).
  vm_compute. lia.
Defined.
